(** * Sal inventory views: a shallow embedding of [inventory/views.py]

    The module embeds the request handlers of the inventory application
    (submission, hash lookup, distinct-machine listing, scope filtering and
    CSV file naming) as functions over an explicit database state, and
    proves the properties the specification states about them. *)

From Stdlib Require Import ZArith List String Ascii Bool Lia Sorted.
From stdpp Require Import base option list gmap strings.

Import ListNotations.
Local Open Scope string_scope.
Local Open Scope Z_scope.

(** ** Python built-ins used by the views *)

Module Py.

(** The line feed of the ["\n"] escapes. *)
Definition LF : string := String (ascii_of_nat 10) EmptyString.

(** [str.replace(old, new)] for one-character [old] and [new]. *)
Fixpoint replace_char (old new : ascii) (s : string) : string :=
  match s with
  | EmptyString => EmptyString
  | String c rest =>
      String (if Ascii.eqb c old then new else c) (replace_char old new rest)
  end.

(** Truth value of a [str]: the empty string is false. *)
Definition str_truthy (s : string) : bool :=
  match s with EmptyString => false | _ => true end.

(** Truth value of a value that is [None] or a [str]. *)
Definition opt_str_truthy (o : option string) : bool :=
  match o with None => false | Some s => str_truthy s end.

(** Truth value of a [list]: the empty list is false. *)
Definition list_truthy {A} (l : list A) : bool :=
  match l with [] => false | _ => true end.

(** [sep.join(parts)]. *)
Fixpoint join (sep : string) (parts : list string) : string :=
  match parts with
  | [] => ""
  | [p] => p
  | p :: rest => p +:+ sep +:+ join sep rest
  end.

(** [d.get(k, default)] on a dict with string keys. *)
Definition dict_get_default (d : gmap string string) (k default : string)
  : string :=
  match d !! k with Some v => v | None => default end.

(** [x in l] for a list of strings, where [x] may be [None]. *)
Definition opt_in (x : option string) (l : list string) : bool :=
  match x with
  | None => false
  | Some s => existsb (String.eqb s) l
  end.

(** Upper-case hexadecimal digit, as ["%02X"] prints it. *)
Definition hex_upper (n : Z) : ascii :=
  ascii_of_nat (Z.to_nat (if n <? 10 then 48 + n else 55 + n)).

(** Lower-case hexadecimal digit, as [hexdigest] prints it. *)
Definition hex_lower (n : Z) : ascii :=
  ascii_of_nat (Z.to_nat (if n <? 10 then 48 + n else 87 + n)).

Definition ord (c : ascii) : Z := Z.of_nat (nat_of_ascii c).

(** [urllib.quote]'s always-safe characters plus its default [safe="/"]. *)
Definition quote_safe (c : ascii) : bool :=
  let n := ord c in
  ((65 <=? n) && (n <=? 90)) || ((97 <=? n) && (n <=? 122))
  || ((48 <=? n) && (n <=? 57))
  || (n =? 95) || (n =? 46) || (n =? 45) || (n =? 47).

(** [urllib.quote(s)]: every other byte becomes [%XX]. *)
Fixpoint quote (s : string) : string :=
  match s with
  | EmptyString => EmptyString
  | String c rest =>
      if quote_safe c then String c (quote rest)
      else String "%" (String (hex_upper (ord c / 16))
                         (String (hex_upper (ord c mod 16)) (quote rest)))
  end.

(** [int(s)] on a string of decimal digits, the form the URL patterns
    capture for ids; [None] stands for [ValueError]. *)
Fixpoint digits (acc : Z) (s : string) : option Z :=
  match s with
  | EmptyString => Some acc
  | String c rest =>
      if (48 <=? ord c) && (ord c <=? 57)
      then digits (10 * acc + (ord c - 48)) rest
      else None
  end.

Definition int (s : string) : option Z :=
  match s with EmptyString => None | _ => digits 0 s end.

(** The double quote character. *)
Definition DQ : string := String (ascii_of_nat 34) EmptyString.

End Py.

(** ** [hashlib.sha256(...).hexdigest()], after FIPS 180-4 *)

Module Sha256.

Definition mask32 : Z := 4294967295.

(** 32-bit words are [Z] values reduced modulo [2^32]. *)
Definition wrap (x : Z) : Z := Z.land x mask32.
Definition add32 (x y : Z) : Z := wrap (x + y).
Definition rotr (n x : Z) : Z :=
  Z.lor (Z.shiftr x n) (wrap (Z.shiftl x (32 - n))).
Definition not32 (x : Z) : Z := Z.lxor x mask32.

Definition ch (x y z : Z) : Z := Z.lxor (Z.land x y) (Z.land (not32 x) z).
Definition maj (x y z : Z) : Z :=
  Z.lxor (Z.lxor (Z.land x y) (Z.land x z)) (Z.land y z).
Definition bsig0 (x : Z) : Z :=
  Z.lxor (Z.lxor (rotr 2 x) (rotr 13 x)) (rotr 22 x).
Definition bsig1 (x : Z) : Z :=
  Z.lxor (Z.lxor (rotr 6 x) (rotr 11 x)) (rotr 25 x).
Definition ssig0 (x : Z) : Z :=
  Z.lxor (Z.lxor (rotr 7 x) (rotr 18 x)) (Z.shiftr x 3).
Definition ssig1 (x : Z) : Z :=
  Z.lxor (Z.lxor (rotr 17 x) (rotr 19 x)) (Z.shiftr x 10).

(** The largest [r] below [2^bits] with [r^k <= n], one bit at a time. *)
Fixpoint root (k : Z) (bits : nat) (n r : Z) : Z :=
  match bits with
  | O => r
  | S b =>
      let r' := r + 2 ^ Z.of_nat b in
      root k b n (if r' ^ k <=? n then r' else r)
  end.

(** The first 32 bits of the fractional part of the [k]-th root of [p]. *)
Definition frac32 (k p : Z) : Z :=
  wrap (root k 40 (p * 2 ^ (32 * k)) 0).

Definition primes : list Z :=
  [ 2; 3; 5; 7; 11; 13; 17; 19; 23; 29; 31; 37; 41; 43; 47; 53;
    59; 61; 67; 71; 73; 79; 83; 89; 97; 101; 103; 107; 109; 113; 127; 131;
    137; 139; 149; 151; 157; 163; 167; 173; 179; 181; 191; 193; 197; 199;
    211; 223; 227; 229; 233; 239; 241; 251; 257; 263; 269; 271; 277; 281;
    283; 293; 307; 311 ].

(** The round constants: cube roots of the first sixty-four primes. *)
Definition K : list Z := Eval vm_compute in map (frac32 3) primes.

(** The working variables [a..h], also the chaining value. *)
Record state := State {
  sa : Z; sb : Z; sc : Z; sd : Z; se : Z; sf : Z; sg : Z; sh : Z }.

(** The initial hash value: square roots of the first eight primes. *)
Definition init : state :=
  Eval vm_compute in
    State (frac32 2 2) (frac32 2 3) (frac32 2 5) (frac32 2 7)
          (frac32 2 11) (frac32 2 13) (frac32 2 17) (frac32 2 19).

(** Big-endian bytes of the low [n] bytes of [x]. *)
Fixpoint be_bytes (n : nat) (x : Z) : list Z :=
  match n with
  | O => []
  | S k => Z.land (Z.shiftr x (8 * Z.of_nat k)) 255 :: be_bytes k x
  end.

(** Padding: a [1] bit, zeros up to 56 modulo 64, the bit length on 8 bytes. *)
Definition pad (msg : list Z) : list Z :=
  let len := Z.of_nat (length msg) in
  let zeros := Z.to_nat ((55 - len) mod 64) in
  msg ++ 128 :: repeat 0 zeros ++ be_bytes 8 (8 * len).

(** The first sixteen words of a block, read big-endian. *)
Fixpoint words (n : nat) (bs : list Z) : list Z :=
  match n, bs with
  | S k, b0 :: b1 :: b2 :: b3 :: rest =>
      (((b0 * 256 + b1) * 256 + b2) * 256 + b3) :: words k rest
  | _, _ => []
  end.

(** Message schedule: [w] holds the words computed so far, newest first. *)
Fixpoint schedule (n : nat) (w : list Z) : list Z :=
  match n with
  | O => w
  | S k =>
      let new :=
        add32 (add32 (ssig1 (nth 1 w 0)) (nth 6 w 0))
              (add32 (ssig0 (nth 14 w 0)) (nth 15 w 0)) in
      schedule k (new :: w)
  end.

Definition round (s : state) (kw : Z * Z) : state :=
  let t1 := add32 (add32 (add32 (sh s) (bsig1 (se s)))
                         (add32 (ch (se s) (sf s) (sg s)) (fst kw)))
                  (snd kw) in
  let t2 := add32 (bsig0 (sa s)) (maj (sa s) (sb s) (sc s)) in
  State (add32 t1 t2) (sa s) (sb s) (sc s) (add32 (sd s) t1)
        (se s) (sf s) (sg s).

Definition compress (s : state) (block : list Z) : state :=
  let w := rev (schedule 48 (rev (words 16 block))) in
  let r := fold_left round (combine K w) s in
  State (add32 (sa s) (sa r)) (add32 (sb s) (sb r))
        (add32 (sc s) (sc r)) (add32 (sd s) (sd r))
        (add32 (se s) (se r)) (add32 (sf s) (sf r))
        (add32 (sg s) (sg r)) (add32 (sh s) (sh r)).

(** Compress the padded message block by block; [n] bounds the number of
    blocks. *)
Fixpoint blocks (n : nat) (s : state) (bs : list Z) : state :=
  match n, bs with
  | S k, _ :: _ => blocks k (compress s (firstn 64 bs)) (skipn 64 bs)
  | _, _ => s
  end.

Definition digest_words (msg : list Z) : list Z :=
  let p := pad msg in
  let s := blocks (length p) init p in
  [sa s; sb s; sc s; sd s; se s; sf s; sg s; sh s].

Definition hex_of_byte (b : Z) : list ascii :=
  [Py.hex_lower (Z.land (Z.shiftr b 4) 15); Py.hex_lower (Z.land b 15)].

Definition hex_of_word (w : Z) : list ascii :=
  flat_map hex_of_byte (be_bytes 4 w).

Definition bytes_of_string (s : string) : list Z :=
  map Py.ord (list_ascii_of_string s).

(** [hashlib.sha256(s).hexdigest()]. *)
Definition hexdigest (s : string) : string :=
  string_of_list_ascii (flat_map hex_of_word (digest_words (bytes_of_string s))).

End Sha256.

(** ** The data model *)

(** The model classes live in [server/models.py] and [inventory/models.py],
    which are not part of the sources.  Each record carries the fields the
    views read or write; a foreign key holds the id of the row it points
    to, and time stamps are seconds. *)

(** Modelled from the spec: [server.models.BusinessUnit], a scoping entity
    with a name. *)
Module BusinessUnit.
Record t := Build { id : Z; name : string }.
End BusinessUnit.

(** Modelled from the spec: [server.models.MachineGroup], which belongs to
    exactly one business unit. *)
Module MachineGroup.
Record t := Build { id : Z; name : string; business_unit : Z }.
End MachineGroup.

(** Modelled from the spec: [server.models.Machine], a managed endpoint
    with serial number, hostname, last-checkin time, console user and
    last-inventory-update time, in exactly one machine group. *)
Module Machine.
Record t := Build {
  id : Z;
  serial : string;
  hostname : string;
  last_checkin : Z;
  console_user : string;
  last_inventory_update : option Z;
  machine_group : Z }.

Definition set_last_inventory_update (v : option Z) (m : t) : t :=
  Build (id m) (serial m) (hostname m) (last_checkin m) (console_user m)
        v (machine_group m).
End Machine.

(** Modelled from the spec: [inventory.models.Application], identified by
    the triple of bundle id, name and bundle name. *)
Module Application.
Record t := Build {
  id : Z; bundleid : string; name : string; bundlename : string }.
End Application.

(** Modelled from the spec: [inventory.models.InventoryItem], one
    installation of an application on a machine, with version and path. *)
Module InventoryItem.
Record t := Build {
  id : Z; machine : Z; application : Z; version : string; path : string }.
End InventoryItem.

(** Modelled from the spec: [inventory.models.Inventory], the hash record
    the spec calls InventoryMeta, one per machine.  An instance that was
    never saved has no id yet. *)
Module Inventory.
Record t := Build { id : option Z; machine : Z; sha256hash : string }.

Definition set_sha256hash (h : string) (i : t) : t :=
  Build (id i) (machine i) h.
End Inventory.

(** The tables, and the sequences that hand out the ids of new rows. *)
Record DB := MkDB {
  business_units : list BusinessUnit.t;
  machine_groups : list MachineGroup.t;
  machines : list Machine.t;
  applications : list Application.t;
  inventoryitems : list InventoryItem.t;
  inventories : list Inventory.t;
  application_seq : Z;
  inventoryitem_seq : Z;
  inventory_seq : Z }.

(** ** The ORM calls the views make *)

Module Orm.

(** What [Model.objects.get(...)] does with the rows that match. *)
Inductive lookup (A : Type) : Type :=
| Found (a : A)
| DoesNotExist
| MultipleObjectsReturned.
Arguments Found {A} a.
Arguments DoesNotExist {A}.
Arguments MultipleObjectsReturned {A}.

Definition get {A} (p : A -> bool) (rows : list A) : lookup A :=
  match List.filter p rows with
  | [] => DoesNotExist
  | [a] => Found a
  | _ :: _ :: _ => MultipleObjectsReturned
  end.

(** [Machine.objects.get(serial=serial)] *)
Definition get_machine_by_serial (db : DB) (serial : string)
  : lookup Machine.t :=
  get (fun m => String.eqb (Machine.serial m) serial) (machines db).

(** [Inventory.objects.get(machine=machine)] *)
Definition get_inventory (db : DB) (machine : Machine.t)
  : lookup Inventory.t :=
  get (fun i => Inventory.machine i =? Machine.id machine) (inventories db).

Definition same_application (bundleid name bundlename : string)
           (a : Application.t) : bool :=
  String.eqb (Application.bundleid a) bundleid
  && String.eqb (Application.name a) name
  && String.eqb (Application.bundlename a) bundlename.

Definition with_applications (l : list Application.t) (seq : Z) (db : DB)
  : DB :=
  MkDB (business_units db) (machine_groups db) (machines db) l
       (inventoryitems db) (inventories db) seq (inventoryitem_seq db)
       (inventory_seq db).

Definition with_inventoryitems (l : list InventoryItem.t) (seq : Z)
           (db : DB) : DB :=
  MkDB (business_units db) (machine_groups db) (machines db)
       (applications db) l (inventories db) (application_seq db) seq
       (inventory_seq db).

Definition with_inventories (l : list Inventory.t) (seq : Z) (db : DB)
  : DB :=
  MkDB (business_units db) (machine_groups db) (machines db)
       (applications db) (inventoryitems db) l (application_seq db)
       (inventoryitem_seq db) seq.

Definition with_machines (l : list Machine.t) (db : DB) : DB :=
  MkDB (business_units db) (machine_groups db) l (applications db)
       (inventoryitems db) (inventories db) (application_seq db)
       (inventoryitem_seq db) (inventory_seq db).

(** [Application.objects.get_or_create(bundleid=, name=, bundlename=)]:
    the matching row, or a new row; [None] when several rows match and
    [MultipleObjectsReturned] is raised. *)
Definition get_or_create (db : DB) (bundleid name bundlename : string)
  : option (Application.t * DB) :=
  match get (same_application bundleid name bundlename) (applications db) with
  | Found a => Some (a, db)
  | DoesNotExist =>
      let a := Application.Build (application_seq db) bundleid name
                                 bundlename in
      Some (a, with_applications (applications db ++ [a])
                                 (application_seq db + 1) db)
  | MultipleObjectsReturned => None
  end.

(** [machine.inventoryitem_set.all().delete()] *)
Definition delete_inventoryitems (machine : Machine.t) (db : DB) : DB :=
  with_inventoryitems
    (List.filter
       (fun it => negb (InventoryItem.machine it =? Machine.id machine))
       (inventoryitems db))
    (inventoryitem_seq db) db.

(** [machine.inventoryitem_set.create(application=, version=, path=)] *)
Definition create_inventoryitem (machine : Machine.t) (app : Application.t)
           (version path : string) (db : DB) : DB :=
  with_inventoryitems
    (inventoryitems db
     ++ [InventoryItem.Build (inventoryitem_seq db) (Machine.id machine)
                             (Application.id app) version path])
    (inventoryitem_seq db + 1) db.

(** [machine.save()]: the row with the machine's id is overwritten, and
    inserted when there is none. *)
Definition save_machine (m : Machine.t) (db : DB) : DB :=
  if existsb (fun r => Machine.id r =? Machine.id m) (machines db)
  then with_machines
         (map (fun r => if Machine.id r =? Machine.id m then m else r)
              (machines db)) db
  else with_machines (machines db ++ [m]) db.

(** [inventory_meta.save()]: an instance without id is inserted under a
    new id, another one overwrites its row. *)
Definition save_inventory (i : Inventory.t) (db : DB) : DB :=
  match Inventory.id i with
  | None =>
      with_inventories
        (inventories db
         ++ [Inventory.Build (Some (inventory_seq db)) (Inventory.machine i)
                             (Inventory.sha256hash i)])
        (inventory_seq db + 1) db
  | Some k =>
      let same (r : Inventory.t) :=
        match Inventory.id r with Some j => j =? k | None => false end in
      if existsb same (inventories db)
      then with_inventories
             (map (fun r => if same r then i else r) (inventories db))
             (inventory_seq db) db
      else with_inventories (inventories db ++ [i]) (inventory_seq db) db
  end.

End Orm.

(** ** Requests, responses and what the platform provides *)

Record HttpRequest := MkRequest {
  method : string;
  POST : gmap string string }.

Record HttpResponse := MkResponse {
  status_code : Z;
  content : string }.

Definition HttpResponse_ (body : string) : HttpResponse := MkResponse 200 body.
Definition HttpResponseNotFound (body : string) : HttpResponse :=
  MkResponse 404 body.

(** Exceptions no view catches; the framework turns them into an error
    response. *)
Inductive exn := Http404 | MultipleObjects | KeyError | ValueError.

Inductive result (A : Type) : Type :=
| Ok (a : A)
| Raise (e : exn).
Arguments Ok {A} a.
Arguments Raise {A} e.

(** An inventory as the client sends it: an array of dictionaries with
    string values under the keys [bundleid], [name], [CFBundleName],
    [version] and [path]. *)
Abbreviation plist_dict := (gmap string string).

(** Modelled from the spec: the code the views call and the sources do not
    hold.
    - [decode_to_string] is [server.utils.decode_to_string]: it undoes the
      base64 and the bz2 and returns the raw bytes; it returns for every
      payload, and what does not decode yields bytes that do not parse;
    - [readPlistFromString] is [plistlib]'s parser, [None] when it raises;
    - [datetime_now] is the clock read by [datetime.now()];
    - [is_postgres] is the comparison of the configured database engine
      with the postgres backend. *)
Record Platform := MkPlatform {
  decode_to_string : string -> string;
  readPlistFromString : string -> option (list plist_dict);
  datetime_now : Z;
  is_postgres : bool }.

(** ** [inventory_submit] and [inventory_hash] *)

Definition bundleid_ignorelist : list string :=
  ["com.apple.print.PrinterProxy"].

(** The body of the loop over [inventory_list]. *)
Definition insert_item (machine : Machine.t) (item : plist_dict) (db : DB)
  : option DB :=
  match Orm.get_or_create db
          (Py.dict_get_default item "bundleid" "")
          (Py.dict_get_default item "name" "")
          (Py.dict_get_default item "CFBundleName" "") with
  | None => None
  | Some (app, db1) =>
      if negb (Py.opt_in (item !! "bundleid") bundleid_ignorelist)
      then Some (Orm.create_inventoryitem machine app
                   (Py.dict_get_default item "version" "")
                   (Py.dict_get_default item "path" "") db1)
      else Some db1
  end.

(** The loop; on an exception the rows written so far stay. *)
Fixpoint insert_items (machine : Machine.t) (inventory_list : list plist_dict)
         (db : DB) : DB * bool :=
  match inventory_list with
  | [] => (db, true)
  | item :: rest =>
      match insert_item machine item db with
      | None => (db, false)
      | Some db1 => insert_items machine rest db1
      end
  end.

(** The branch under [if inventory_list:]; it returns the machine object
    with its new time stamp, which the caller saves. *)
Definition replace_inventory (P : Platform) (machine : Machine.t)
           (inventory_str : string) (inventory_list : list plist_dict)
           (db : DB) : DB * result Machine.t :=
  match Orm.get_inventory db machine with
  | Orm.MultipleObjectsReturned => (db, Raise MultipleObjects)
  | found =>
      let inventory_meta :=
        match found with
        | Orm.Found i => i
        | _ => Inventory.Build None (Machine.id machine) ""
        end in
      let inventory_meta :=
        Inventory.set_sha256hash (Sha256.hexdigest inventory_str)
                                 inventory_meta in
      let db1 := Orm.delete_inventoryitems machine db in
      match insert_items machine inventory_list db1 with
      | (db2, false) => (db2, Raise MultipleObjects)
      | (db2, true) =>
          let machine :=
            Machine.set_last_inventory_update (Some (datetime_now P))
                                              machine in
          (Orm.save_inventory inventory_meta db2, Ok machine)
      end
  end.

Definition inventory_submit (P : Platform) (request : HttpRequest) (db : DB)
  : DB * result HttpResponse :=
  if negb (String.eqb (method request) "POST")
  then (db, Ok (HttpResponseNotFound "No POST data sent"))
  else
    let submission := POST request in
    let serial := submission !! "serial" in
    let no_inventory := HttpResponse_ ("No inventory submitted." +:+ Py.LF) in
    if Py.opt_str_truthy serial then
      match Orm.get_machine_by_serial db (default "" serial) with
      | Orm.DoesNotExist =>
          (db, Ok (HttpResponseNotFound "Serial Number not found"))
      | Orm.MultipleObjectsReturned => (db, Raise MultipleObjects)
      | Orm.Found machine =>
          let compressed_inventory := submission !! "base64bz2inventory" in
          if Py.opt_str_truthy compressed_inventory then
            let compressed_inventory :=
              Py.replace_char " " "+" (default "" compressed_inventory) in
            let inventory_str := decode_to_string P compressed_inventory in
            let inventory_list := readPlistFromString P inventory_str in
            let stored :=
              match inventory_list with
              | Some ((_ :: _) as l) =>
                  replace_inventory P machine inventory_str l db
              | _ => (db, Ok machine)
              end in
            match stored with
            | (db1, Raise e) => (db1, Raise e)
            | (db1, Ok machine) =>
                (Orm.save_machine machine db1,
                 Ok (HttpResponse_ ("Inventory submmitted for "
                                    +:+ default "" serial +:+ "." +:+ Py.LF)))
            end
          else (db, Ok no_inventory)
      end
    else (db, Ok no_inventory).

Definition inventory_hash (serial : option string) (db : DB)
  : result HttpResponse :=
  if Py.opt_str_truthy serial then
    match Orm.get_machine_by_serial db (default "" serial) with
    | Orm.Found machine =>
        match Orm.get_inventory db machine with
        | Orm.Found inventory_meta =>
            Ok (HttpResponse_ (Inventory.sha256hash inventory_meta))
        | Orm.DoesNotExist => Ok (HttpResponse_ "")
        | Orm.MultipleObjectsReturned => Raise MultipleObjects
        end
    | Orm.DoesNotExist => Ok (HttpResponse_ "")
    | Orm.MultipleObjectsReturned => Raise MultipleObjects
    end
  else Ok (HttpResponse_ "MACHINE NOT FOUND").

(** ** [GroupMixin] *)

Notation "'do' x <- e ; k" :=
  (match e with Ok x => k | Raise err => Raise err end)
  (at level 10, x name, e at level 100, k at level 200, only parsing).

(** The keyword arguments the URL dispatcher captures. *)
Record kwargs := MkKwargs {
  group_type : string;
  group_id : string;
  application_id : string;
  field_type : string;
  field_value : string }.

Inductive model_class := BusinessUnitClass | MachineClass | MachineGroupClass.

(** The [classes] dictionary; a missing key raises [KeyError]. *)
Definition classes (group_type : string) : result (option model_class) :=
  if String.eqb group_type "all" then Ok None
  else if String.eqb group_type "business_unit" then Ok (Some BusinessUnitClass)
  else if String.eqb group_type "machine" then Ok (Some MachineClass)
  else if String.eqb group_type "machine_group" then Ok (Some MachineGroupClass)
  else Raise KeyError.

(** [get_object_or_404(cls, pk=pk)] *)
Definition get_object_or_404 {A} (id_of : A -> Z) (rows : list A)
           (pk : string) : result A :=
  match Py.int pk with
  | None => Raise ValueError
  | Some k =>
      match Orm.get (fun r => id_of r =? k) rows with
      | Orm.Found a => Ok a
      | Orm.DoesNotExist => Raise Http404
      | Orm.MultipleObjectsReturned => Raise MultipleObjects
      end
  end.

Inductive group_instance :=
| IsBusinessUnit (b : BusinessUnit.t)
| IsMachineGroup (g : MachineGroup.t)
| IsMachine (m : Machine.t).

Definition get_group_instance (kw : kwargs) (db : DB)
  : result (option group_instance) :=
  do group_class <- classes (group_type kw);
  match group_class with
  | None => Ok None
  | Some BusinessUnitClass =>
      do b <- get_object_or_404 BusinessUnit.id (business_units db)
                                (group_id kw);
      Ok (Some (IsBusinessUnit b))
  | Some MachineGroupClass =>
      do g <- get_object_or_404 MachineGroup.id (machine_groups db)
                                (group_id kw);
      Ok (Some (IsMachineGroup g))
  | Some MachineClass =>
      do m <- get_object_or_404 Machine.id (machines db) (group_id kw);
      Ok (Some (IsMachine m))
  end.

(** Following a foreign key is a join on the id. *)
Definition machine_of (db : DB) (it : InventoryItem.t) : option Machine.t :=
  List.find (fun m => Machine.id m =? InventoryItem.machine it) (machines db).

Definition machine_group_of (db : DB) (m : Machine.t)
  : option MachineGroup.t :=
  List.find (fun g => MachineGroup.id g =? Machine.machine_group m)
            (machine_groups db).

(** The three filter paths: [machine__machine_group__business_unit],
    [machine__machine_group] and [machine]. *)
Definition in_group (db : DB) (inst : group_instance) (it : InventoryItem.t)
  : bool :=
  match inst with
  | IsBusinessUnit b =>
      match machine_of db it with
      | Some m =>
          match machine_group_of db m with
          | Some g => MachineGroup.business_unit g =? BusinessUnit.id b
          | None => false
          end
      | None => false
      end
  | IsMachineGroup g =>
      match machine_of db it with
      | Some m => Machine.machine_group m =? MachineGroup.id g
      | None => false
      end
  | IsMachine m => InventoryItem.machine it =? Machine.id m
  end.

Definition filter_inventoryitem_by_group (kw : kwargs) (db : DB)
           (queryset : list InventoryItem.t) : result (list InventoryItem.t) :=
  do inst <- get_group_instance kw db;
  match inst with
  | Some inst => Ok (List.filter (in_group db inst) queryset)
  | None => Ok queryset
  end.

(** ** [InventoryListView.get_queryset] *)

(** The filter on [path] or [version]; any other field type filters
    nothing. *)
Definition filter_field (kw : kwargs) (queryset : list InventoryItem.t)
  : list InventoryItem.t :=
  if String.eqb (field_type kw) "path"
  then List.filter
         (fun it => String.eqb (InventoryItem.path it) (field_value kw))
         queryset
  else if String.eqb (field_type kw) "version"
  then List.filter
         (fun it => String.eqb (InventoryItem.version it) (field_value kw))
         queryset
  else queryset.

(** The query up to the choice of the backend: scope, application, field. *)
Definition filtered_items (kw : kwargs) (db : DB)
  : result (list InventoryItem.t) :=
  do queryset <- filter_inventoryitem_by_group kw db (inventoryitems db);
  do application <- get_object_or_404 Application.id (applications db)
                                      (application_id kw);
  let queryset :=
    List.filter
      (fun it => InventoryItem.application it =? Application.id application)
      queryset in
  Ok (filter_field kw queryset).

(** [distinct] on a key: the first row of every key stays. *)
Fixpoint distinct_on {A} (key : A -> Z) (seen : list Z) (l : list A)
  : list A :=
  match l with
  | [] => []
  | x :: rest =>
      if existsb (Z.eqb (key x)) seen then distinct_on key seen rest
      else x :: distinct_on key (key x :: seen) rest
  end.

(** The view returns inventory items on postgres and machines elsewhere. *)
Inductive queryset :=
| ItemRows (l : list InventoryItem.t)
| MachineRows (l : list Machine.t).

Definition get_queryset (P : Platform) (kw : kwargs) (db : DB)
  : result queryset :=
  do queryset <- filtered_items kw db;
  if is_postgres P
  then Ok (ItemRows (distinct_on InventoryItem.machine [] queryset))
  else
    let machines_ :=
      distinct_on (fun k : Z => k) [] (map InventoryItem.machine queryset) in
    Ok (MachineRows
          (List.filter (fun m => existsb (Z.eqb (Machine.id m)) machines_)
                       (machines db))).

(** The machine ids a result stands for. *)
Definition machine_ids (q : queryset) : gset Z :=
  match q with
  | ItemRows l => list_to_set (map InventoryItem.machine l)
  | MachineRows l => list_to_set (map Machine.id l)
  end.

(** ** [CSVResponseMixin] and the components [CSVExportView.get] sets *)

Definition csv_filename : string := "sal_inventory".
Definition csv_ext : string := ".csv".

Definition get_csv_filename (components : list string) : string :=
  let identifier :=
    if Py.list_truthy components then "_" +:+ Py.join "_" components
    else "" in
  csv_filename +:+ identifier +:+ csv_ext.

Definition csv_components (kw : kwargs) : list string :=
  if String.eqb (application_id kw) "0" then
    let components := ["application"; "list"; "for"; group_type kw] in
    if negb (String.eqb (group_type kw) "all")
    then (components ++ [group_id kw])%list
    else components
  else
    let components :=
      ["application"; application_id kw; "for"; group_type kw] in
    let components :=
      if negb (String.eqb (group_type kw) "all")
      then (components ++ [group_id kw])%list
      else components in
    if negb (String.eqb (field_type kw) "all")
    then (components
          ++ ["where"; field_type kw; "is"; Py.quote (field_value kw)])%list
    else components.

(** The [Content-Disposition] header of [render_to_csv]. *)
Definition content_disposition (kw : kwargs) : string :=
  "attachment; filename=" +:+ Py.DQ
  +:+ get_csv_filename (csv_components kw) +:+ Py.DQ.

(** ** Worked data: one business unit, one group, two machines *)

Module Sample.

(** Three inventory documents and a payload that is no inventory at all.
    The payloads are the base64 of the bz2 of the documents, as the
    client posts them. *)
Definition doc_empty : string := "<plist><array/></plist>".

Definition doc_app : string :=
  "<plist><array><dict><key>bundleid</key><string>com.foo.App</string><key>name</key><string>App</string><key>version</key><string>1.0</string><key>path</key><string>/Applications/App.app</string></dict></array></plist>".

Definition doc_proxy : string :=
  "<plist><array><dict><key>bundleid</key><string>com.apple.print.PrinterProxy</string><key>name</key><string>PrinterProxy</string><key>path</key><string>/System/Library/PrinterProxy.app</string></dict></array></plist>".

Definition payload_empty : string :=
  "QlpoOTFBWSZTWYR5r0kAAAIZgAAAgAUgJFwgIAAxANNNAlRtTRspKWlBPBivmMhXxdyRThQkIR5r0kA=".

Definition payload_app : string :=
  "QlpoOTFBWSZTWdB9TPYAABIdgAAB4AUgAD/v3yAgAJQJU9U1PGqep+pM9SaZM1BhUB6hoaNAFVOKdRBIuZ25nOuBJMkbjtfNJlMBpI642PCeTtv0W5SlWrR1jsB6AaUg2zA3pQcHC2svv5RjYCZ8yMWCq837upaHsCZrHj0MMCHhJhAYzmXA/i7kinChIaD6mew=".

Definition payload_proxy : string :=
  "QlpoOTFBWSZTWRqkspMAAA8fgAABgAUABEgAPu/eYCAAlAkkptT9KeapskwCDTJTTQ00AYRX7vYqMWAI4hu9MQmA5zLolApkSRIShVnpgSjL4xs4ynN+LtAcCyFLS5iBDlVVffbHL737wI6hUm1bUP1V1QwKnInUG9rJjXPtmJJ5CjReZsTLi8/i7kinChIDVJZSYA==".

Definition payload_garbage : string := "this is not an inventory".

(** The same payload after a form decoder turned its [+] into a space. *)
Definition payload_app_posted : string := Py.replace_char "+" " " payload_app.

Definition entry_app : plist_dict :=
  list_to_map [("bundleid", "com.foo.App"); ("name", "App");
               ("version", "1.0"); ("path", "/Applications/App.app")].

Definition entry_proxy : plist_dict :=
  list_to_map [("bundleid", "com.apple.print.PrinterProxy");
               ("name", "PrinterProxy");
               ("path", "/System/Library/PrinterProxy.app")].

(** The decoder and the parser, tabulated on these payloads and
    documents; any other payload decodes to nothing and any other
    document does not parse. *)
Definition decode (s : string) : string :=
  if String.eqb s payload_empty then doc_empty
  else if String.eqb s payload_app then doc_app
  else if String.eqb s payload_proxy then doc_proxy
  else "".

Definition parse (s : string) : option (list plist_dict) :=
  if String.eqb s doc_empty then Some []
  else if String.eqb s doc_app then Some [entry_app]
  else if String.eqb s doc_proxy then Some [entry_proxy]
  else None.

Definition platform : Platform := MkPlatform decode parse 1700000000 false.
Definition postgres : Platform := MkPlatform decode parse 1700000000 true.

Definition unit1 : BusinessUnit.t := BusinessUnit.Build 1 "Engineering".
Definition group1 : MachineGroup.t := MachineGroup.Build 1 "Laptops" 1.
Definition machine1 : Machine.t :=
  Machine.Build 1 "ABC123" "mac-one" 1600000000 "alice" None 1.
Definition machine2 : Machine.t :=
  Machine.Build 2 "XYZ789" "mac-two" 1600000500 "bob" None 1.

Definition app1 : Application.t :=
  Application.Build 1 "org.example.Editor" "Editor" "Editor".

Definition item1 : InventoryItem.t :=
  InventoryItem.Build 1 1 1 "3.2" "/Applications/Editor.app".
Definition item2 : InventoryItem.t :=
  InventoryItem.Build 2 2 1 "3.1" "/Applications/Editor.app".
Definition item3 : InventoryItem.t :=
  InventoryItem.Build 3 1 1 "3.2" "/Users/alice/Editor.app".

Definition meta1 : Inventory.t :=
  Inventory.Build (Some 1) 1
    "aaaaaaaaaaaaaaaaaaaaaaaaaaaaaaaaaaaaaaaaaaaaaaaaaaaaaaaaaaaaaaaa".

(** Machine [ABC123] has two items and a stored hash, machine [XYZ789]
    one item and no hash. *)
Definition db : DB :=
  MkDB [unit1] [group1] [machine1; machine2] [app1]
       [item1; item2; item3] [meta1] 2 4 2.

(** The same machines before any inventory arrived. *)
Definition db_fresh : DB :=
  MkDB [unit1] [group1] [machine1; machine2] [] [] [] 1 1 1.

Definition post (serial payload : string) : HttpRequest :=
  MkRequest "POST"
    (list_to_map [("serial", serial); ("base64bz2inventory", payload)]).

Definition post_without_serial : HttpRequest :=
  MkRequest "POST" (list_to_map [("base64bz2inventory", payload_app)]).

Definition get_request : HttpRequest := MkRequest "GET" ∅.

(** Everything that runs application 1. *)
Definition kw_list : kwargs := MkKwargs "all" "0" "1" "all" "0".

Definition kw_export : kwargs :=
  MkKwargs "machine_group" "3" "5" "version" "1.0 beta".

End Sample.

(** ** Vocabulary of the statements *)

(** The triple that identifies an application. *)
Definition triple (a : Application.t) : string * string * string :=
  (Application.bundleid a, Application.name a, Application.bundlename a).

(** The constraints of the schema the handlers rely on: primary keys are
    unique and come from the sequences, an application is unique on its
    triple, and a machine has at most one hash record. *)
Record wf (db : DB) : Prop := MkWf {
  wf_machine_ids : NoDup (map Machine.id (machines db));
  wf_application_ids : NoDup (map Application.id (applications db));
  wf_application_seq :
    Forall (fun a => Application.id a < application_seq db) (applications db);
  wf_application_triples : NoDup (map triple (applications db));
  wf_inventory_machines : NoDup (map Inventory.machine (inventories db));
  wf_inventory_ids : NoDup (map Inventory.id (inventories db));
  wf_inventory_seq :
    Forall (fun i => match Inventory.id i with
                     | Some k => k < inventory_seq db
                     | None => False
                     end) (inventories db) }.

(** Every inventory item points to a machine of the machine table. *)
Definition machine_fk (db : DB) : Prop :=
  Forall (fun it => exists m, machine_of db it = Some m) (inventoryitems db).

(** [machine.inventoryitem_set.all()] *)
Definition items_of (machine : Machine.t) (db : DB) : list InventoryItem.t :=
  List.filter (fun it => InventoryItem.machine it =? Machine.id machine)
              (inventoryitems db).

(** An installation: application triple, version, path. *)
Definition installation : Type := (string * string * string) * string * string.

(** The installation an entry of the payload describes. *)
Definition submitted (item : plist_dict) : installation :=
  ((Py.dict_get_default item "bundleid" "",
    Py.dict_get_default item "name" "",
    Py.dict_get_default item "CFBundleName" ""),
   Py.dict_get_default item "version" "",
   Py.dict_get_default item "path" "").

(** The installation a stored item describes, through its application. *)
Definition stored (db : DB) (it : InventoryItem.t) : option installation :=
  match List.find (fun a => Application.id a =? InventoryItem.application it)
                  (applications db) with
  | Some a => Some (triple a, InventoryItem.version it, InventoryItem.path it)
  | None => None
  end.

Definition ignored (item : plist_dict) : bool :=
  Py.opt_in (item !! "bundleid") bundleid_ignorelist.

(** A POST that carries a serial resolving to [machine] and a non-empty
    payload field. *)
Definition submits (request : HttpRequest) (db : DB) (serial : string)
           (machine : Machine.t) (payload : string) : Prop :=
  method request = "POST"
  /\ POST request !! "serial" = Some serial
  /\ Py.str_truthy serial = true
  /\ Orm.get_machine_by_serial db serial = Orm.Found machine
  /\ POST request !! "base64bz2inventory" = Some payload
  /\ Py.str_truthy payload = true.

(** The raw bytes the handler decodes from the payload field. *)
Definition raw_bytes (P : Platform) (payload : string) : string :=
  decode_to_string P (Py.replace_char " " "+" payload).

Definition acknowledgement (serial : string) : HttpResponse :=
  HttpResponse_ ("Inventory submmitted for " +:+ serial +:+ "." +:+ Py.LF).

Definition nothing_submitted : HttpResponse :=
  HttpResponse_ ("No inventory submitted." +:+ Py.LF).

Definition is_lower_hex (c : ascii) : bool :=
  ((48 <=? Py.ord c) && (Py.ord c <=? 57))
  || ((97 <=? Py.ord c) && (Py.ord c <=? 102)).

(** Sixty-four digits out of [0-9a-f]. *)
Definition lower_hex_digest (s : string) : Prop :=
  String.length s = 64%nat
  /\ forallb is_lower_hex (list_ascii_of_string s) = true.

(** The parts of a CSV file name. *)
Definition application_descriptor (kw : kwargs) : list string :=
  if String.eqb (application_id kw) "0" then ["application"; "list"]
  else ["application"; application_id kw].

Definition scope_descriptor (kw : kwargs) : list string :=
  if String.eqb (group_type kw) "all" then [group_type kw]
  else [group_type kw; group_id kw].

Definition field_qualifier (kw : kwargs) : list string :=
  if String.eqb (application_id kw) "0" then []
  else if String.eqb (field_type kw) "all" then []
  else ["where"; field_type kw; "is"; Py.quote (field_value kw)].

(** The order of the components in the words of the specification: the
    scope descriptor, then the application qualifier, then the field
    qualifier. *)
Definition components_scope_first (kw : kwargs) : list string :=
  (scope_descriptor kw ++ "for" :: application_descriptor kw
   ++ field_qualifier kw)%list.

(** The keyword arguments of another scope, with the application and the
    field filter kept. *)
Definition in_scope (group_type group_id : string) (kw : kwargs) : kwargs :=
  MkKwargs group_type group_id (application_id kw) (field_type kw)
           (field_value kw).

(** The tables the loop over the entries leaves alone. *)
Definition same_but_inventory (db db' : DB) : Prop :=
  business_units db' = business_units db
  /\ machine_groups db' = machine_groups db
  /\ machines db' = machines db
  /\ inventories db' = inventories db
  /\ inventory_seq db' = inventory_seq db.

(** The item [create] makes for an entry. *)
Definition new_item (machine : Machine.t) (app : Application.t)
           (item : plist_dict) (db : DB) : InventoryItem.t :=
  InventoryItem.Build (inventoryitem_seq db) (Machine.id machine)
                      (Application.id app)
                      (Py.dict_get_default item "version" "")
                      (Py.dict_get_default item "path" "").

(** ** The views the data tables, the detail page and the export add *)

(** [sorted(l, key=key)] on string keys: a stable insertion sort, each
    row going behind the rows whose key is not larger. *)
Module PyList.

Fixpoint insert {A} (key : A -> string) (x : A) (l : list A) : list A :=
  match l with
  | [] => [x]
  | y :: rest =>
      if String.leb (key y) (key x) then y :: insert key x rest
      else x :: l
  end.

Definition sorted {A} (key : A -> string) (l : list A) : list A :=
  fold_left (fun acc x => insert key x acc) l [].

(** [queryset.count()] and [len]. *)
Definition count {A} (l : list A) : Z := Z.of_nat (length l).

(** The sum of a list of integers. *)
Definition sum (l : list Z) : Z := fold_right Z.add 0 l.

End PyList.

(** What a call that also follows foreign keys can end in: the related
    row may be missing. *)
Inductive outcome (A : Type) : Type :=
| Returns (a : A)
| Raises (e : exn)
| RaisesRelatedObjectDoesNotExist.
Arguments Returns {A} a.
Arguments Raises {A} e.
Arguments RaisesRelatedObjectDoesNotExist {A}.

(** Reading a foreign-key attribute fetches the row with that id. *)
Definition related {A} (id_of : A -> Z) (rows : list A) (k : Z) : outcome A :=
  match Orm.get (fun r => id_of r =? k) rows with
  | Orm.Found a => Returns a
  | Orm.DoesNotExist => RaisesRelatedObjectDoesNotExist
  | Orm.MultipleObjectsReturned => Raises MultipleObjects
  end.

(** [GroupMixin.get_business_unit]: the business unit the access
    decorators check, [None] for the scope [all]. *)
Definition get_business_unit (kw : kwargs) (db : DB)
  : outcome (option BusinessUnit.t) :=
  match classes (group_type kw) with
  | Raise e => Raises e
  | Ok None => Returns None
  | Ok (Some BusinessUnitClass) =>
      match get_object_or_404 BusinessUnit.id (business_units db)
                              (group_id kw) with
      | Raise e => Raises e
      | Ok instance => Returns (Some instance)
      end
  | Ok (Some MachineGroupClass) =>
      match get_object_or_404 MachineGroup.id (machine_groups db)
                              (group_id kw) with
      | Raise e => Raises e
      | Ok instance =>
          match related BusinessUnit.id (business_units db)
                        (MachineGroup.business_unit instance) with
          | Returns b => Returns (Some b)
          | Raises e => Raises e
          | RaisesRelatedObjectDoesNotExist => RaisesRelatedObjectDoesNotExist
          end
      end
  | Ok (Some MachineClass) =>
      match get_object_or_404 Machine.id (machines db) (group_id kw) with
      | Raise e => Raises e
      | Ok instance =>
          match related MachineGroup.id (machine_groups db)
                        (Machine.machine_group instance) with
          | Returns g =>
              match related BusinessUnit.id (business_units db)
                            (MachineGroup.business_unit g) with
              | Returns b => Returns (Some b)
              | Raises e => Raises e
              | RaisesRelatedObjectDoesNotExist =>
                  RaisesRelatedObjectDoesNotExist
              end
          | Raises e => Raises e
          | RaisesRelatedObjectDoesNotExist => RaisesRelatedObjectDoesNotExist
          end
      end
  end.

(** [application.inventoryitem_set] *)
Definition inventoryitem_set_of_application (application : Application.t)
           (db : DB) : list InventoryItem.t :=
  List.filter
    (fun it => InventoryItem.application it =? Application.id application)
    (inventoryitems db).

Module InventoryListView.

(** [get_install_count] for a machine row: the machine's items of the
    application the view resolved, under the field filter. *)
Definition get_install_count (kw : kwargs) (application : Application.t)
           (instance : Machine.t) (db : DB) : Z :=
  let queryset :=
    List.filter
      (fun it => InventoryItem.application it =? Application.id application)
      (items_of instance db) in
  PyList.count (filter_field kw queryset).

End InventoryListView.

Module ApplicationDetailView.

(** The context the view adds to the generic one. *)
Record context := MkContext {
  versions : list (string * Z);
  paths : list (string * Z);
  install_count : Z;
  ctx_group_type : string;
  ctx_group_id : string;
  group_name : option string }.

Definition get_filtered_queryset (kw : kwargs) (db : DB)
           (object : Application.t) : result (list InventoryItem.t) :=
  filter_inventoryitem_by_group kw db
    (inventoryitem_set_of_application object db).

(** The two set comprehensions. *)
Definition get_unique_items (details : list InventoryItem.t)
  : gset string * gset string :=
  (list_to_set (map InventoryItem.version details),
   list_to_set (map InventoryItem.path details)).

(** [group_instance.name if hasattr(group_instance, "name") else None]:
    business units and machine groups have a name, a machine and [None]
    have not. *)
Definition name_of (inst : option group_instance) : option string :=
  match inst with
  | Some (IsBusinessUnit b) => Some (BusinessUnit.name b)
  | Some (IsMachineGroup g) => Some (MachineGroup.name g)
  | Some (IsMachine _) => None
  | None => None
  end.

Definition build_context_data (kw : kwargs) (inst : option group_instance)
           (details : list InventoryItem.t) (versions paths : gset string)
  : context :=
  MkContext
    (map (fun version =>
            (version,
             PyList.count
               (List.filter
                  (fun it => String.eqb (InventoryItem.version it) version)
                  details)))
         (elements versions))
    (map (fun path =>
            (path,
             PyList.count
               (List.filter
                  (fun it => String.eqb (InventoryItem.path it) path)
                  details)))
         (elements paths))
    (PyList.count details)
    (group_type kw) (group_id kw) (name_of inst).

Definition get_context_data (kw : kwargs) (db : DB) (object : Application.t)
  : result context :=
  do details <- get_filtered_queryset kw db object;
  do inst <- get_group_instance kw db;
  Ok (build_context_data kw inst details
        (fst (get_unique_items details)) (snd (get_unique_items details))).

End ApplicationDetailView.

Module CSVExportView.

Definition application_row : Type := string * string * string * Z.
Definition machine_row : Type := string * string * Z * string.

Definition application_of (db : DB) (it : InventoryItem.t)
  : option Application.t :=
  List.find (fun a => Application.id a =? InventoryItem.application it)
            (applications db).

(** [select_related]: the rows joined with the row their foreign key
    points to. *)
Definition select_related {B} (follow : InventoryItem.t -> option B)
           (queryset : list InventoryItem.t) : list (InventoryItem.t * B) :=
  omap (fun it => match follow it with
                  | Some b => Some (it, b)
                  | None => None
                  end) queryset.

Definition get_application_entry (item : InventoryItem.t * Application.t)
           (queryset : list InventoryItem.t) : application_row :=
  (Application.name (snd item), Application.bundleid (snd item),
   Application.bundlename (snd item),
   PyList.count
     (List.filter
        (fun it =>
           InventoryItem.application it =? Application.id (snd item))
        queryset)).

Definition get_machine_entry (item : InventoryItem.t * Machine.t)
  : machine_row :=
  (Machine.hostname (snd item), Machine.serial (snd item),
   Machine.last_checkin (snd item), Machine.console_user (snd item)).

Inductive data :=
| ApplicationData (rows : list application_row)
| MachineData (rows : list machine_row).

Definition row_name (r : application_row) : string := fst (fst (fst r)).

(** The list comprehension of the postgres branch: one entry per distinct
    application. *)
Definition apps_distinct (db : DB) (queryset : list InventoryItem.t)
  : list application_row :=
  map (fun item => get_application_entry item queryset)
      (distinct_on (fun item => InventoryItem.application (fst item)) []
                   (select_related (application_of db) queryset)).

(** The set comprehension of the other branch, in the order its elements
    come out. *)
Definition apps_set (db : DB) (queryset : list InventoryItem.t)
  : list application_row :=
  elements
    (list_to_set
       (map (fun item => get_application_entry item queryset)
            (select_related (application_of db) queryset))
     : gset application_row).

(** The header and the rows [get] hands to [render_to_csv]. *)
Definition get (P : Platform) (kw : kwargs) (db : DB)
  : result (list string * data) :=
  do queryset <- filter_inventoryitem_by_group kw db (inventoryitems db);
  if String.eqb (application_id kw) "0" then
    let header := ["Name"; "BundleID"; "BundleName"; "Install Count"] in
    let apps :=
      if is_postgres P then apps_distinct db queryset
      else apps_set db queryset in
    Ok (header, ApplicationData (PyList.sorted row_name apps))
  else
    let header :=
      ["Hostname"; "Serial Number"; "Last Checkin"; "Console User"] in
    match Py.int (application_id kw) with
    | None => Raise ValueError
    | Some k =>
        let queryset :=
          List.filter (fun it => InventoryItem.application it =? k)
                      queryset in
        let queryset := filter_field kw queryset in
        Ok (header,
            MachineData
              (map get_machine_entry (select_related (machine_of db) queryset)))
    end.

End CSVExportView.

(** ** More worked data: two business units, three groups *)

Module Fleet.

Definition engineering : BusinessUnit.t := BusinessUnit.Build 1 "Engineering".
Definition sales : BusinessUnit.t := BusinessUnit.Build 2 "Sales".

Definition laptops : MachineGroup.t := MachineGroup.Build 1 "Laptops" 1.
Definition servers : MachineGroup.t := MachineGroup.Build 2 "Servers" 1.
Definition desks : MachineGroup.t := MachineGroup.Build 3 "Desks" 2.

Definition mac1 : Machine.t :=
  Machine.Build 1 "ABC123" "mac-one" 1600000000 "alice" None 1.
Definition mac2 : Machine.t :=
  Machine.Build 2 "XYZ789" "mac-two" 1600000500 "bob" None 2.
Definition mac3 : Machine.t :=
  Machine.Build 3 "QRS456" "mac-three" 1600000900 "carol" None 3.

Definition editor : Application.t :=
  Application.Build 1 "org.example.Editor" "Editor" "Editor".
Definition browser : Application.t :=
  Application.Build 2 "org.example.Browser" "Browser" "Browser".

Definition items : list InventoryItem.t :=
  [InventoryItem.Build 1 1 1 "3.2" "/Applications/Editor.app";
   InventoryItem.Build 2 2 1 "3.1" "/Applications/Editor.app";
   InventoryItem.Build 3 1 1 "3.2" "/Users/alice/Editor.app";
   InventoryItem.Build 4 3 2 "9.0" "/Applications/Browser.app";
   InventoryItem.Build 5 1 2 "9.1" "/Applications/Browser.app"].

Definition db : DB :=
  MkDB [engineering; sales] [laptops; servers; desks] [mac1; mac2; mac3]
       [editor; browser] items [Sample.meta1] 3 6 2.

(** The scope [all], and the export of the applications. *)
Definition kw_all : kwargs := MkKwargs "all" "0" "0" "all" "0".

(** Application 1 in the business unit 1. *)
Definition kw_unit : kwargs := MkKwargs "business_unit" "1" "1" "all" "0".

(** Application 1 on machine 1. *)
Definition kw_machine : kwargs := MkKwargs "machine" "1" "1" "all" "0".

(** An application nobody has. *)
Definition kw_unknown : kwargs := MkKwargs "all" "0" "77" "all" "0".

End Fleet.

(** ** Vocabulary of the further statements *)


(** The machine row a stored submission writes. *)
Definition stamp (P : Platform) (machine : Machine.t) (r : Machine.t)
  : Machine.t :=
  if Machine.id r =? Machine.id machine
  then Machine.set_last_inventory_update (Some (datetime_now P)) machine
  else r.

(** The test the field filter applies to an item. *)
Definition field_test (kw : kwargs) (it : InventoryItem.t) : bool :=
  if String.eqb (field_type kw) "path"
  then String.eqb (InventoryItem.path it) (field_value kw)
  else if String.eqb (field_type kw) "version"
  then String.eqb (InventoryItem.version it) (field_value kw)
  else true.

(** Every inventory item points to an application of the application
    table. *)
Definition application_fk (db : DB) : Prop :=
  Forall (fun it => exists a, CSVExportView.application_of db it = Some a)
         (inventoryitems db).

(** Rows in ascending order of their names. *)
Definition sorted_by_name (rows : list CSVExportView.application_row) : Prop :=
  Sorted (fun r1 r2 =>
            String.leb (CSVExportView.row_name r1) (CSVExportView.row_name r2)
            = true) rows.

(** The test the scope filter applies to an item. *)
Definition scope_test (db : DB) (inst : option group_instance)
           (it : InventoryItem.t) : bool :=
  match inst with
  | Some i => in_group db i it
  | None => true
  end.

Example sha256_abc :
  Sha256.hexdigest "abc"
  = "ba7816bf8f01cfea414140de5dae2223b00361a396177a9cb410ff61f20015ad".
Proof. vm_compute. reflexivity. Qed.

Example sha256_empty :
  Sha256.hexdigest ""
  = "e3b0c44298fc1c149afbf4c8996fb92427ae41e4649b934ca495991b7852b855".
Proof. vm_compute. reflexivity. Qed.

Example sha256_two_blocks :
  Sha256.hexdigest "abcdbcdecdefdefgefghfghighijhijkijkljklmklmnlmnomnopnopq"
  = "248d6a61d20638b8e5c026930c3e6039a33ce45964ff2167f6ecedd419db06c1".
Proof. vm_compute. reflexivity. Qed.

Example sha256_constants :
  hd 0 Sha256.K = 0x428a2f98 /\ List.last Sha256.K 0 = 0xc67178f2
  /\ Sha256.sa Sha256.init = 0x6a09e667 /\ Sha256.sh Sha256.init = 0x5be0cd19.
Proof. vm_compute. auto. Qed.

Example quote_ex : Py.quote "1.0 beta/2" = "1.0%20beta/2".
Proof. vm_compute. reflexivity. Qed.

Example int_ex : Py.int "42" = Some 42 /\ Py.int "" = None /\ Py.int "4x" = None.
Proof. vm_compute. auto. Qed.

(** Split a conjunction into its parts, and nothing else. *)
Ltac conjuncts := repeat match goal with |- _ /\ _ => split end.

(** ** Facts about the ORM calls *)

Section OrmFacts.

Context {A : Type}.
Implicit Types (p : A -> bool) (rows : list A).

Lemma get_Found p rows a :
  Orm.get p rows = Orm.Found a -> In a rows /\ p a = true.
Proof.
  unfold Orm.get. intros H.
  destruct (List.filter p rows) as [|x [|y l]] eqn:E; try discriminate.
  injection H as ->. apply List.filter_In. rewrite E. now left.
Qed.

Lemma get_DoesNotExist p rows :
  Orm.get p rows = Orm.DoesNotExist <-> List.filter p rows = [].
Proof.
  unfold Orm.get.
  destruct (List.filter p rows) as [|x [|y l]]; split; congruence.
Qed.

(** When the rows are unique on a key and [p] selects one key, at most
    one row matches and [get] is [find]. *)
Lemma filter_on_key {K} (f : A -> K) (k : K) p rows :
  (forall x, p x = true <-> f x = k) ->
  NoDup (map f rows) ->
  List.filter p rows
  = match List.find p rows with Some a => [a] | None => [] end.
Proof.
  intros Hp. induction rows as [|x rows IH]; simpl; intros Hnd.
  - reflexivity.
  - apply NoDup_cons in Hnd as [Hx Hnd]. specialize (IH Hnd).
    destruct (p x) eqn:Epx.
    + f_equal. destruct (List.filter p rows) as [|y l] eqn:E; [reflexivity|].
      exfalso. apply Hx.
      assert (Hy : In y (List.filter p rows)) by (rewrite E; now left).
      apply List.filter_In in Hy as [Hy Hpy].
      apply Hp in Epx. apply Hp in Hpy.
      apply list_elem_of_In, in_map_iff. exists y. split; congruence.
    + exact IH.
Qed.

Lemma get_on_key {K} (f : A -> K) (k : K) p rows :
  (forall x, p x = true <-> f x = k) ->
  NoDup (map f rows) ->
  Orm.get p rows
  = match List.find p rows with
    | Some a => Orm.Found a
    | None => Orm.DoesNotExist
    end.
Proof.
  intros Hp Hnd. unfold Orm.get. rewrite (filter_on_key f k p rows Hp Hnd).
  destruct (List.find p rows); reflexivity.
Qed.

(** A row that [get] found alone is the row [find] meets first. *)
Lemma get_Found_find p rows a :
  Orm.get p rows = Orm.Found a -> List.find p rows = Some a.
Proof.
  unfold Orm.get. induction rows as [|x rows IH]; simpl; [discriminate|].
  destruct (p x) eqn:E.
  - destruct (List.filter p rows) as [|y l]; [|discriminate].
    congruence.
  - exact IH.
Qed.

Lemma find_app_Some p rows extra a :
  List.find p rows = Some a -> List.find p (rows ++ extra) = Some a.
Proof.
  induction rows as [|x rows IH]; simpl; [discriminate|].
  destruct (p x); auto.
Qed.

Lemma find_app_None p rows extra :
  List.find p rows = None -> List.find p (rows ++ extra) = List.find p extra.
Proof.
  induction rows as [|x rows IH]; simpl; [reflexivity|].
  destruct (p x); [discriminate | auto].
Qed.

End OrmFacts.

Lemma with_machines_same db : Orm.with_machines (machines db) db = db.
Proof. destruct db; reflexivity. Qed.

(** Saving a machine that was read and not changed writes nothing new. *)
Lemma save_machine_unchanged db m :
  NoDup (map Machine.id (machines db)) ->
  In m (machines db) ->
  Orm.save_machine m db = db.
Proof.
  intros Hnd Hin. unfold Orm.save_machine.
  assert (Hex : existsb (fun r => Machine.id r =? Machine.id m) (machines db)
                = true).
  { apply existsb_exists. exists m. split; [assumption | apply Z.eqb_refl]. }
  rewrite Hex. clear Hex.
  assert (Hmap : map (fun r => if Machine.id r =? Machine.id m then m else r)
                     (machines db) = machines db).
  { rewrite <- (map_id (machines db)) at 2.
    apply map_ext_in. intros r Hr.
    destruct (Machine.id r =? Machine.id m) eqn:E; [|reflexivity].
    apply Z.eqb_eq in E.
    induction (machines db) as [|x l IH]; [contradiction|].
    simpl in Hnd. apply NoDup_cons in Hnd as [Hx Hnd].
    rewrite list_elem_of_In, in_map_iff in Hx.
    destruct Hin as [->|Hin], Hr as [->|Hr]; auto.
    - exfalso. apply Hx. exists r. auto.
    - exfalso. apply Hx. exists m. auto. }
  rewrite Hmap. apply with_machines_same.
Qed.

Lemma save_machine_tables m db :
  applications (Orm.save_machine m db) = applications db
  /\ inventoryitems (Orm.save_machine m db) = inventoryitems db
  /\ inventories (Orm.save_machine m db) = inventories db.
Proof.
  unfold Orm.save_machine.
  destruct (existsb _ (machines db)); repeat split; reflexivity.
Qed.

(** ** The submission handler, step by step *)

(** What the handler does once the serial has resolved and the payload
    field is not empty. *)
Lemma inventory_submit_accepted P request db serial machine payload :
  submits request db serial machine payload ->
  inventory_submit P request db
  = match
      match readPlistFromString P (raw_bytes P payload) with
      | Some ((_ :: _) as l) =>
          replace_inventory P machine (raw_bytes P payload) l db
      | _ => (db, Ok machine)
      end
    with
    | (db1, Raise e) => (db1, Raise e)
    | (db1, Ok machine) =>
        (Orm.save_machine machine db1, Ok (acknowledgement serial))
    end.
Proof.
  intros (Hm & Hs & Hst & Hget & Hp & Hpt).
  unfold inventory_submit, raw_bytes, acknowledgement.
  rewrite Hm, Hs, Hp. simpl. rewrite Hst, Hget, Hpt. reflexivity.
Qed.

(** ** Requests the submission handler turns away *)

(** C9 (as stated, refuted): a POST that carries no serial is not answered
    with NotFound; the handler answers 200 "No inventory submitted." *)
Lemma post_without_serial_is_not_refused :
  method Sample.post_without_serial = "POST"
  /\ POST Sample.post_without_serial !! "serial" = None
  /\ inventory_submit Sample.platform Sample.post_without_serial Sample.db
     = (Sample.db, Ok nothing_submitted)
  /\ status_code nothing_submitted = 200
  /\ nothing_submitted <> HttpResponseNotFound "Serial Number not found".
Proof. repeat split; try reflexivity. discriminate. Qed.

(** C9 (amended): a request that is not a POST is answered 404
    "No POST data sent" and the database stays as it is; a POST whose
    non-empty serial matches no machine is answered 404
    "Serial Number not found" and the database stays as it is; a POST
    with an empty or absent serial is not refused: it is answered 200
    "No inventory submitted." and the database stays as it is. *)
Theorem submission_refusals P request db :
  (method request <> "POST" ->
   inventory_submit P request db
   = (db, Ok (HttpResponseNotFound "No POST data sent")))
  /\ (forall serial,
        method request = "POST" ->
        POST request !! "serial" = Some serial ->
        Py.str_truthy serial = true ->
        Orm.get_machine_by_serial db serial = Orm.DoesNotExist ->
        inventory_submit P request db
        = (db, Ok (HttpResponseNotFound "Serial Number not found")))
  /\ (method request = "POST" ->
      Py.opt_str_truthy (POST request !! "serial") = false ->
      inventory_submit P request db = (db, Ok nothing_submitted)).
Proof.
  unfold inventory_submit. repeat split.
  - intros Hm. apply String.eqb_neq in Hm. rewrite Hm. reflexivity.
  - intros serial Hm Hs Ht Hget. rewrite Hm, Hs. simpl.
    rewrite Ht, Hget. reflexivity.
  - intros Hm Ht. rewrite Hm, Ht. reflexivity.
Qed.

Lemma submission_refusals_witness :
  inventory_submit Sample.platform Sample.get_request Sample.db
  = (Sample.db, Ok (HttpResponseNotFound "No POST data sent"))
  /\ inventory_submit Sample.platform
       (Sample.post "NOSUCH" Sample.payload_app) Sample.db
     = (Sample.db, Ok (HttpResponseNotFound "Serial Number not found"))
  /\ inventory_submit Sample.platform (Sample.post "" Sample.payload_app)
       Sample.db
     = (Sample.db, Ok nothing_submitted).
Proof.
  split; [|split].
  - apply (proj1 (submission_refusals Sample.platform Sample.get_request
                    Sample.db)).
    discriminate.
  - apply (proj1 (proj2 (submission_refusals Sample.platform
                           (Sample.post "NOSUCH" Sample.payload_app)
                           Sample.db)) "NOSUCH"); reflexivity.
  - apply (proj2 (proj2 (submission_refusals Sample.platform
                           (Sample.post "" Sample.payload_app) Sample.db)));
      reflexivity.
Defined.

(** ** Payloads that do not parse, and payloads that parse to nothing *)

(** C2 (as stated, refuted): for a payload that does not parse the answer
    is the acknowledgement naming the serial, not the answer given when
    nothing was submitted. *)
Lemma unparsable_payload_is_acknowledged :
  submits (Sample.post "ABC123" Sample.payload_garbage) Sample.db "ABC123"
          Sample.machine1 Sample.payload_garbage
  /\ readPlistFromString Sample.platform
       (raw_bytes Sample.platform Sample.payload_garbage) = None
  /\ snd (inventory_submit Sample.platform
            (Sample.post "ABC123" Sample.payload_garbage) Sample.db)
     = Ok (acknowledgement "ABC123")
  /\ acknowledgement "ABC123" <> nothing_submitted.
Proof. repeat split; try reflexivity. discriminate. Qed.

(** C2 (amended): when the payload field is not empty and its contents do
    not parse, the request does not fail, no inventory item is deleted or
    created, no hash record is created or updated, no application is
    created, and the answer is the 200 acknowledgement that names the
    serial, the same as for an inventory that was stored. *)
Theorem unparsable_payload_changes_nothing
        P request db serial machine payload :
  submits request db serial machine payload ->
  readPlistFromString P (raw_bytes P payload) = None ->
  exists db',
    inventory_submit P request db = (db', Ok (acknowledgement serial))
    /\ inventoryitems db' = inventoryitems db
    /\ inventories db' = inventories db
    /\ applications db' = applications db.
Proof.
  intros Hsub Hparse. exists (Orm.save_machine machine db).
  rewrite (inventory_submit_accepted P request db serial machine payload Hsub).
  rewrite Hparse. split; [reflexivity|].
  destruct (save_machine_tables machine db) as (Ha & Hi & Hv). auto.
Qed.

Lemma unparsable_payload_changes_nothing_witness :
  exists db',
    inventory_submit Sample.platform
      (Sample.post "ABC123" Sample.payload_garbage) Sample.db
    = (db', Ok (acknowledgement "ABC123"))
    /\ inventoryitems db' = inventoryitems Sample.db
    /\ inventories db' = inventories Sample.db
    /\ applications db' = applications Sample.db.
Proof.
  apply (unparsable_payload_changes_nothing Sample.platform
           (Sample.post "ABC123" Sample.payload_garbage) Sample.db "ABC123"
           Sample.machine1 Sample.payload_garbage).
  - repeat split; reflexivity.
  - reflexivity.
Defined.

(** C10: when the payload parses to the empty list, the handler goes the
    way of a payload that does not parse: the whole database, and so the
    machine's inventory items, its hash record and its last-inventory-update
    time stamp, stays as it is, and the answer is still the acknowledgement
    that names the serial. *)
Theorem empty_inventory_changes_nothing P request db serial machine payload :
  NoDup (map Machine.id (machines db)) ->
  submits request db serial machine payload ->
  readPlistFromString P (raw_bytes P payload) = Some [] ->
  inventory_submit P request db = (db, Ok (acknowledgement serial)).
Proof.
  intros Hnd Hsub Hparse.
  rewrite (inventory_submit_accepted P request db serial machine payload Hsub).
  rewrite Hparse. f_equal.
  apply save_machine_unchanged; [assumption|].
  destruct Hsub as (_ & _ & _ & Hget & _).
  apply get_Found in Hget. tauto.
Qed.

Lemma empty_inventory_changes_nothing_witness :
  readPlistFromString Sample.platform
    (raw_bytes Sample.platform Sample.payload_empty) = Some []
  /\ inventory_submit Sample.platform
       (Sample.post "ABC123" Sample.payload_empty) Sample.db
     = (Sample.db, Ok (acknowledgement "ABC123")).
Proof.
  split; [reflexivity|].
  apply (empty_inventory_changes_nothing Sample.platform
           (Sample.post "ABC123" Sample.payload_empty) Sample.db "ABC123"
           Sample.machine1 Sample.payload_empty).
  - apply (bool_decide_unpack _). vm_compute. exact I.
  - repeat split; reflexivity.
  - reflexivity.
Defined.

(** ** Hash lookup *)

(** C6: with a non-empty serial the hash lookup answers the stored hash
    when the machine and its hash record exist, and the empty string when
    the machine or its hash record does not exist; with an empty or absent
    serial it answers the fixed text "MACHINE NOT FOUND", which is not the
    empty string. *)
Theorem inventory_hash_contract (serial : option string) (db : DB) :
  (forall s machine meta,
      serial = Some s -> Py.str_truthy s = true ->
      Orm.get_machine_by_serial db s = Orm.Found machine ->
      Orm.get_inventory db machine = Orm.Found meta ->
      inventory_hash serial db
      = Ok (HttpResponse_ (Inventory.sha256hash meta)))
  /\ (forall s,
        serial = Some s -> Py.str_truthy s = true ->
        Orm.get_machine_by_serial db s = Orm.DoesNotExist
        \/ (exists machine,
               Orm.get_machine_by_serial db s = Orm.Found machine
               /\ Orm.get_inventory db machine = Orm.DoesNotExist) ->
        inventory_hash serial db = Ok (HttpResponse_ ""))
  /\ (Py.opt_str_truthy serial = false ->
      inventory_hash serial db = Ok (HttpResponse_ "MACHINE NOT FOUND")
      /\ content (HttpResponse_ "MACHINE NOT FOUND") <> "").
Proof.
  unfold inventory_hash. split; [|split].
  - intros s machine meta -> Ht Hm Hi. simpl. rewrite Ht, Hm, Hi. reflexivity.
  - intros s -> Ht [Hm | (machine & Hm & Hi)]; simpl; rewrite Ht, Hm;
      [|rewrite Hi]; reflexivity.
  - intros Hfalsy. rewrite Hfalsy. split; [reflexivity | discriminate].
Qed.

Lemma inventory_hash_contract_witness :
  inventory_hash (Some "ABC123") Sample.db
  = Ok (HttpResponse_ (Inventory.sha256hash Sample.meta1))
  /\ inventory_hash (Some "XYZ789") Sample.db = Ok (HttpResponse_ "")
  /\ inventory_hash (Some "NOSUCH") Sample.db = Ok (HttpResponse_ "")
  /\ inventory_hash None Sample.db = Ok (HttpResponse_ "MACHINE NOT FOUND")
  /\ inventory_hash (Some "") Sample.db
     = Ok (HttpResponse_ "MACHINE NOT FOUND").
Proof.
  split; [|split; [|split; [|split]]].
  - apply (proj1 (inventory_hash_contract (Some "ABC123") Sample.db)
             "ABC123" Sample.machine1 Sample.meta1); reflexivity.
  - apply (proj1 (proj2 (inventory_hash_contract (Some "XYZ789") Sample.db))
             "XYZ789"); try reflexivity.
    right. exists Sample.machine2. split; reflexivity.
  - apply (proj1 (proj2 (inventory_hash_contract (Some "NOSUCH") Sample.db))
             "NOSUCH"); try reflexivity.
    left. reflexivity.
  - apply (proj2 (proj2 (inventory_hash_contract None Sample.db))).
    reflexivity.
  - apply (proj2 (proj2 (inventory_hash_contract (Some "") Sample.db))).
    reflexivity.
Defined.

(** ** CSV file names *)

(** C8 (as stated, refuted): for the export of application 5 on machine
    group 3 the file name opens with the application, and the scope comes
    after it; the name with the scope first is another one. *)
Lemma export_filename_opens_with_application :
  get_csv_filename (csv_components Sample.kw_export)
  = "sal_inventory_application_5_for_machine_group_3_where_version_is_1.0%20beta.csv"
  /\ get_csv_filename (components_scope_first Sample.kw_export)
     = "sal_inventory_machine_group_3_for_application_5_where_version_is_1.0%20beta.csv"
  /\ csv_components Sample.kw_export
     <> components_scope_first Sample.kw_export
  /\ head (csv_components Sample.kw_export) = Some "application"
  /\ head (components_scope_first Sample.kw_export) = Some "machine_group".
Proof.
  split; [reflexivity|]. split; [reflexivity|]. split; [discriminate|].
  split; reflexivity.
Qed.

(** C8 (amended): the file name of a CSV export is a function of the URL
    arguments: the base name [sal_inventory], an underscore, the
    underscore-joined components and [.csv], where the components are, in
    this order, the application descriptor ([application list] or
    [application <id>]), then [for] with the scope descriptor (the group
    type, and the group id unless the type is [all]), then, for one
    application and a field type other than [all], [where <field> is
    <value>] with the value percent-quoted. *)
Theorem csv_filename_components kw :
  csv_components kw
  = (application_descriptor kw ++ "for" :: scope_descriptor kw
     ++ field_qualifier kw)%list
  /\ get_csv_filename (csv_components kw)
     = "sal_inventory_" +:+ Py.join "_" (csv_components kw) +:+ ".csv".
Proof.
  assert (H : csv_components kw
              = (application_descriptor kw ++ "for" :: scope_descriptor kw
                 ++ field_qualifier kw)%list).
  { unfold csv_components, application_descriptor, scope_descriptor,
      field_qualifier.
    destruct (String.eqb (application_id kw) "0");
      destruct (String.eqb (group_type kw) "all");
      destruct (String.eqb (field_type kw) "all"); reflexivity. }
  split; [exact H|].
  rewrite H. unfold get_csv_filename, application_descriptor.
  destruct (String.eqb (application_id kw) "0"); reflexivity.
Qed.

(** ** Scopes *)

Lemma get_object_or_404_find {A} (id_of : A -> Z) rows pk a :
  get_object_or_404 id_of rows pk = Ok a ->
  forall k, k = id_of a -> List.find (fun r => id_of r =? k) rows = Some a.
Proof.
  unfold get_object_or_404. intros H k ->.
  destruct (Py.int pk) as [z|]; [|discriminate].
  destruct (Orm.get _ rows) eqn:E; try discriminate.
  injection H as ->.
  pose proof (get_Found _ _ _ E) as [_ Hz]. apply Z.eqb_eq in Hz.
  rewrite Hz. apply get_Found_find. exact E.
Qed.

Lemma in_filter_field kw q it :
  In it (filter_field kw q) -> In it q.
Proof.
  unfold filter_field.
  destruct (String.eqb (field_type kw) "path");
    [|destruct (String.eqb (field_type kw) "version")];
    rewrite ?List.filter_In; tauto.
Qed.

Lemma filter_field_in_scope group_type group_id kw q :
  filter_field (in_scope group_type group_id kw) q = filter_field kw q.
Proof. reflexivity. Qed.

Lemma filter_field_mono kw q1 q2 it :
  (In it q1 -> In it q2) ->
  In it (filter_field kw q1) -> In it (filter_field kw q2).
Proof.
  unfold filter_field.
  destruct (String.eqb (field_type kw) "path");
    [|destruct (String.eqb (field_type kw) "version")];
    rewrite ?List.filter_In; tauto.
Qed.

(** The query of a scope: the items of the scope that pass the
    application and the field filter. *)
Lemma filtered_items_Ok kw db inst app :
  get_group_instance kw db = Ok inst ->
  get_object_or_404 Application.id (applications db) (application_id kw)
  = Ok app ->
  filtered_items kw db
  = Ok (filter_field kw
          (List.filter
             (fun it => InventoryItem.application it =? Application.id app)
             (match inst with
              | Some i => List.filter (in_group db i) (inventoryitems db)
              | None => inventoryitems db
              end))).
Proof.
  intros Hg Ha. unfold filtered_items, filter_inventoryitem_by_group.
  rewrite Hg. destruct inst; rewrite Ha; reflexivity.
Qed.

Lemma filtered_items_incl kw db q :
  filtered_items kw db = Ok q -> incl q (inventoryitems db).
Proof.
  unfold filtered_items, filter_inventoryitem_by_group.
  destruct (get_group_instance kw db) as [[inst|]|]; try discriminate;
    (destruct (get_object_or_404 _ _ _); [|discriminate]);
    intros [= <-] it Hin; apply in_filter_field in Hin;
    repeat (apply List.filter_In in Hin as [Hin _]); exact Hin.
Qed.

Lemma machine_scope_in_group db kw m_id m g it :
  get_group_instance (in_scope "machine" m_id kw) db = Ok (Some (IsMachine m)) ->
  Machine.machine_group m = MachineGroup.id g ->
  in_group db (IsMachine m) it = true ->
  in_group db (IsMachineGroup g) it = true.
Proof.
  unfold get_group_instance. simpl.
  destruct (get_object_or_404 _ _ _) as [m'|] eqn:E; [|discriminate].
  intros [= ->] Hg Hit. simpl in *. apply Z.eqb_eq in Hit.
  unfold machine_of.
  rewrite (get_object_or_404_find _ _ _ _ E _ Hit).
  apply Z.eqb_eq. exact Hg.
Qed.

Lemma group_scope_in_unit db kw mg_id g b it :
  get_group_instance (in_scope "machine_group" mg_id kw) db
  = Ok (Some (IsMachineGroup g)) ->
  MachineGroup.business_unit g = BusinessUnit.id b ->
  in_group db (IsMachineGroup g) it = true ->
  in_group db (IsBusinessUnit b) it = true.
Proof.
  unfold get_group_instance. simpl.
  destruct (get_object_or_404 _ _ _) as [g'|] eqn:E; [|discriminate].
  intros [= ->] Hb. simpl.
  destruct (machine_of db it) as [m|]; [|discriminate].
  intros Hit. apply Z.eqb_eq in Hit. unfold machine_group_of.
  rewrite (get_object_or_404_find _ _ _ _ E _ Hit).
  apply Z.eqb_eq. exact Hb.
Qed.

(** C7: with the application and the field filter fixed, and a machine
    that belongs to a machine group that belongs to a business unit, the
    inventory items of the machine scope are among those of the group
    scope, those are among the items of the business-unit scope, and those
    are among the items of the scope [all]. *)
Theorem scope_filtering_monotonic db kw unit_id group_id machine_id b g m app :
  get_group_instance (in_scope "business_unit" unit_id kw) db
  = Ok (Some (IsBusinessUnit b)) ->
  get_group_instance (in_scope "machine_group" group_id kw) db
  = Ok (Some (IsMachineGroup g)) ->
  get_group_instance (in_scope "machine" machine_id kw) db
  = Ok (Some (IsMachine m)) ->
  MachineGroup.business_unit g = BusinessUnit.id b ->
  Machine.machine_group m = MachineGroup.id g ->
  get_object_or_404 Application.id (applications db) (application_id kw)
  = Ok app ->
  exists of_all of_unit of_group of_machine,
    filtered_items (in_scope "all" "0" kw) db = Ok of_all
    /\ filtered_items (in_scope "business_unit" unit_id kw) db = Ok of_unit
    /\ filtered_items (in_scope "machine_group" group_id kw) db = Ok of_group
    /\ filtered_items (in_scope "machine" machine_id kw) db = Ok of_machine
    /\ incl of_machine of_group
    /\ incl of_group of_unit
    /\ incl of_unit of_all.
Proof.
  intros Hb Hg Hm Hgb Hmg Ha.
  do 4 eexists.
  split; [apply (filtered_items_Ok _ db None app); [reflexivity | exact Ha]|].
  split; [apply (filtered_items_Ok _ db _ app Hb Ha)|].
  split; [apply (filtered_items_Ok _ db _ app Hg Ha)|].
  split; [apply (filtered_items_Ok _ db _ app Hm Ha)|].
  rewrite !filter_field_in_scope.
  repeat split; intros it; apply filter_field_mono;
    rewrite !List.filter_In; intros [[Hin Hs] Hp].
  - eauto using machine_scope_in_group.
  - eauto using group_scope_in_unit.
  - auto.
Qed.

Lemma scope_filtering_monotonic_witness :
  exists of_all of_unit of_group of_machine,
    filtered_items (in_scope "all" "0" Sample.kw_list) Sample.db = Ok of_all
    /\ filtered_items (in_scope "business_unit" "1" Sample.kw_list) Sample.db
       = Ok of_unit
    /\ filtered_items (in_scope "machine_group" "1" Sample.kw_list) Sample.db
       = Ok of_group
    /\ filtered_items (in_scope "machine" "1" Sample.kw_list) Sample.db
       = Ok of_machine
    /\ incl of_machine of_group
    /\ incl of_group of_unit
    /\ incl of_unit of_all.
Proof.
  apply (scope_filtering_monotonic Sample.db Sample.kw_list "1" "1" "1"
           Sample.unit1 Sample.group1 Sample.machine1 Sample.app1);
    reflexivity.
Defined.

(** ** The two ways to list the machines that run an application *)

Lemma distinct_on_keys {A} (key : A -> Z) (l : list A) :
  forall seen k,
    In k (map key (distinct_on key seen l))
    <-> In k (map key l) /\ ~ In k seen.
Proof.
  induction l as [|x l IH]; intros seen k; simpl; [tauto|].
  destruct (existsb (Z.eqb (key x)) seen) eqn:E.
  - apply existsb_exists in E as (y & Hy & Exy). apply Z.eqb_eq in Exy.
    subst y. rewrite IH. split; [tauto|].
    intros [[<-|Hk] Hs]; tauto.
  - assert (Hx : ~ In (key x) seen).
    { intros Hin. apply not_true_iff_false in E. apply E.
      apply existsb_exists. exists (key x). split; [exact Hin|].
      apply Z.eqb_refl. }
    simpl. rewrite IH. simpl.
    destruct (Z.eq_dec (key x) k) as [<-|Hne]; tauto.
Qed.

(** C3: on a database whose inventory items all point to a machine of the
    machine table, the native path (distinct on the machine column) and
    the fallback path (distinct machine ids, then the machines with these
    ids) of the distinct-machine view raise the same exception or return
    rows that stand for the same set of machine ids. *)
Theorem distinct_machine_paths_agree native fallback kw db :
  is_postgres native = true ->
  is_postgres fallback = false ->
  machine_fk db ->
  match get_queryset native kw db, get_queryset fallback kw db with
  | Ok rows_native, Ok rows_fallback =>
      machine_ids rows_native = machine_ids rows_fallback
  | Raise e_native, Raise e_fallback => e_native = e_fallback
  | _, _ => False
  end.
Proof.
  intros Hn Hf Hfk. unfold get_queryset. rewrite Hn, Hf.
  destruct (filtered_items kw db) as [q|e] eqn:E; [|reflexivity].
  apply filtered_items_incl in E. simpl.
  apply set_eq. intros k.
  rewrite !elem_of_list_to_set, !list_elem_of_In.
  rewrite distinct_on_keys.
  split.
  - intros [Hk _]. apply in_map_iff in Hk as (it & <- & Hit).
    apply in_map_iff.
    unfold machine_fk in Hfk. rewrite Forall_forall in Hfk.
    assert (Hin : it ∈ inventoryitems db) by apply list_elem_of_In, E, Hit.
    destruct (Hfk it Hin) as [m Hm].
    apply find_some in Hm as [Hm Hid]. apply Z.eqb_eq in Hid.
    exists m. split; [exact Hid|].
    apply List.filter_In. split; [exact Hm|].
    apply existsb_exists. exists (Machine.id m).
    split; [|apply Z.eqb_refl].
    rewrite <- (map_id (distinct_on _ _ _)).
    apply distinct_on_keys. rewrite map_id. split; [|tauto].
    apply in_map_iff. exists it. auto.
  - intros Hk. apply in_map_iff in Hk as (m & <- & Hm).
    apply List.filter_In in Hm as [_ Hm].
    apply existsb_exists in Hm as (k & Hk & Ek). apply Z.eqb_eq in Ek.
    subst k. rewrite <- (map_id (distinct_on _ _ _)) in Hk.
    apply distinct_on_keys in Hk. rewrite map_id in Hk. tauto.
Qed.

Lemma distinct_machine_paths_agree_witness :
  machine_fk Sample.db
  /\ match get_queryset Sample.postgres Sample.kw_list Sample.db,
           get_queryset Sample.platform Sample.kw_list Sample.db with
     | Ok rows_native, Ok rows_fallback =>
         machine_ids rows_native = machine_ids rows_fallback
     | Raise e_native, Raise e_fallback => e_native = e_fallback
     | _, _ => False
     end.
Proof.
  assert (Hfk : machine_fk Sample.db).
  { repeat constructor; eexists; reflexivity. }
  split; [exact Hfk|].
  apply (distinct_machine_paths_agree Sample.postgres Sample.platform
           Sample.kw_list Sample.db); [reflexivity | reflexivity | exact Hfk].
Defined.

(** ** Storing the entries of a payload *)

(** With unique ids, the row an id finds is the row that has it. *)
Lemma find_by_id {A} (id_of : A -> Z) (rows : list A) (a : A) :
  NoDup (map id_of rows) ->
  In a rows ->
  List.find (fun r => id_of r =? id_of a) rows = Some a.
Proof.
  induction rows as [|x rows IH]; simpl; [contradiction|].
  intros Hnd Hin. apply NoDup_cons in Hnd as [Hx Hnd].
  destruct Hin as [->|Hin]; [rewrite Z.eqb_refl; reflexivity|].
  destruct (id_of x =? id_of a) eqn:E; [|auto].
  apply Z.eqb_eq in E. exfalso. apply Hx.
  apply list_elem_of_In, in_map_iff. exists a. auto.
Qed.

Lemma same_application_triple bundleid name bundlename a :
  Orm.same_application bundleid name bundlename a = true
  <-> triple a = (bundleid, name, bundlename).
Proof.
  unfold Orm.same_application, triple.
  rewrite !andb_true_iff, !String.eqb_eq.
  split; [intros [[-> ->] ->]; reflexivity | intros [= -> -> ->]; auto].
Qed.

(** [get_or_create] on a well-formed database never meets two rows; the
    row it returns carries the triple and is the one its id finds. *)
Lemma get_or_create_spec db bundleid name bundlename :
  wf db ->
  exists app db1,
    Orm.get_or_create db bundleid name bundlename = Some (app, db1)
    /\ wf db1
    /\ triple app = (bundleid, name, bundlename)
    /\ List.find (fun r => Application.id r =? Application.id app)
                 (applications db1) = Some app
    /\ (applications db1 = applications db /\ In app (applications db)
        \/ applications db1 = (applications db ++ [app])%list
           /\ ~ In (bundleid, name, bundlename)
                   (map triple (applications db)))
    /\ inventoryitems db1 = inventoryitems db
    /\ inventoryitem_seq db1 = inventoryitem_seq db
    /\ same_but_inventory db db1.
Proof.
  intros Hwf. pose proof Hwf as [Hm Hids Hseq Htr Him Hii Hiseq].
  unfold Orm.get_or_create.
  rewrite (get_on_key triple (bundleid, name, bundlename) _ _
             (same_application_triple bundleid name bundlename) Htr).
  destruct (List.find _ (applications db)) as [a|] eqn:E.
  - exists a, db. apply find_some in E as [Hin Hsame].
    apply same_application_triple in Hsame.
    split; [reflexivity|]. split; [exact Hwf|]. split; [exact Hsame|].
    split; [apply find_by_id; assumption|].
    split; [left; auto|]. repeat split.
  - set (app := Application.Build (application_seq db) bundleid name
                                  bundlename).
    eexists app, _. split; [reflexivity|].
    assert (Hfresh : ~ In (Application.id app)
                       (map Application.id (applications db))).
    { intros Hin. apply in_map_iff in Hin as (x & Hx & Hin).
      rewrite Forall_forall in Hseq.
      apply list_elem_of_In, Hseq in Hin. simpl in Hx. lia. }
    assert (Hnew : ~ In (bundleid, name, bundlename)
                     (map triple (applications db))).
    { intros Hin. apply in_map_iff in Hin as (x & Hx & Hin).
      apply (find_none _ _ E) in Hin.
      apply same_application_triple in Hx. congruence. }
    repeat split; simpl; auto.
    + rewrite map_app. apply NoDup_app. repeat split; auto.
      * intros x Hx Hx'. apply list_elem_of_In in Hx.
        apply list_elem_of_In in Hx'. simpl in Hx'.
        destruct Hx' as [<-|[]]. auto.
      * apply NoDup_singleton.
    + apply Forall_app. split.
      * eapply Forall_impl; [exact Hseq|]. simpl. intros; lia.
      * repeat constructor. simpl. lia.
    + rewrite map_app. apply NoDup_app. repeat split; auto.
      * intros x Hx Hx'. apply list_elem_of_In in Hx.
        apply list_elem_of_In in Hx'. simpl in Hx'.
        destruct Hx' as [<-|[]]. auto.
      * apply NoDup_singleton.
    + rewrite find_app_None.
      * simpl. rewrite Z.eqb_refl. reflexivity.
      * match goal with
        | |- ?found = None => destruct found as [x|] eqn:Ex; [|reflexivity]
        end.
        apply find_some in Ex as [Hin Hid]. apply Z.eqb_eq in Hid.
        exfalso. apply Hfresh. apply in_map_iff. exists x. auto.
Qed.

Lemma create_inventoryitem_wf machine app version path db :
  wf db -> wf (Orm.create_inventoryitem machine app version path db).
Proof. intros [H1 H2 H3 H4 H5 H6 H7]. split; assumption. Qed.

(** One turn of the loop: the application is resolved whatever the bundle
    id is, and the item is created unless the bundle id is ignored. *)
Lemma insert_item_step machine item db :
  wf db ->
  exists app db',
    insert_item machine item db = Some db'
    /\ wf db'
    /\ triple app = fst (fst (submitted item))
    /\ List.find (fun r => Application.id r =? Application.id app)
                 (applications db') = Some app
    /\ (applications db' = applications db /\ In app (applications db)
        \/ applications db' = (applications db ++ [app])%list
           /\ ~ In (fst (fst (submitted item)))
                   (map triple (applications db)))
    /\ inventoryitems db'
       = (inventoryitems db
          ++ if ignored item then [] else [new_item machine app item db])%list
    /\ same_but_inventory db db'.
Proof.
  intros Hwf. unfold insert_item.
  destruct (get_or_create_spec db
              (Py.dict_get_default item "bundleid" "")
              (Py.dict_get_default item "name" "")
              (Py.dict_get_default item "CFBundleName" "") Hwf)
    as (app & db1 & -> & Hwf1 & Htr & Hfind & Happs & Hitems & Hseq & Hsame).
  exists app. fold (ignored item). destruct (ignored item); simpl.
  - exists db1. rewrite app_nil_r. conjuncts; auto.
  - eexists. split; [reflexivity|].
    split; [apply create_inventoryitem_wf; exact Hwf1|].
    unfold new_item. simpl. rewrite Hitems, Hseq. conjuncts; auto.
Qed.

Lemma same_but_inventory_trans db1 db2 db3 :
  same_but_inventory db1 db2 -> same_but_inventory db2 db3 ->
  same_but_inventory db1 db3.
Proof.
  unfold same_but_inventory.
  intros (?&?&?&?&?) (?&?&?&?&?). repeat split; congruence.
Qed.

(** The loop: on a well-formed database it runs to its end, appends one
    item of the machine per entry that is not ignored, in the order of the
    payload, and each item's application carries the entry's triple. *)
Lemma insert_items_spec machine inventory_list :
  forall db,
    wf db ->
    exists db' created,
      insert_items machine inventory_list db = (db', true)
      /\ wf db'
      /\ same_but_inventory db db'
      /\ (exists extra, applications db' = (applications db ++ extra)%list)
      /\ inventoryitems db' = (inventoryitems db ++ created)%list
      /\ Forall (fun it => InventoryItem.machine it = Machine.id machine)
                created
      /\ map (stored db') created
         = map (fun item => Some (submitted item))
               (List.filter (fun item => negb (ignored item)) inventory_list).
Proof.
  induction inventory_list as [|item rest IH]; intros db Hwf; simpl.
  - exists db, []. rewrite app_nil_r. unfold same_but_inventory.
    conjuncts; auto. exists []. rewrite app_nil_r. reflexivity.
  - destruct (insert_item_step machine item db Hwf)
      as (app & db1 & -> & Hwf1 & Htr & Hfind & Happs & Hitems & Hsame).
    destruct (IH db1 Hwf1)
      as (db' & created & -> & Hwf' & Hsame' & [extra Hext] & Hitems' & Hm
          & Hstored).
    exists db'.
    exists ((if ignored item then [] else [new_item machine app item db])
            ++ created)%list.
    split; [reflexivity|]. split; [exact Hwf'|].
    split; [eapply same_but_inventory_trans; eassumption|].
    split.
    { destruct Happs as [[E _] | [E _]]; rewrite Hext, E.
      - exists extra. reflexivity.
      - exists (app :: extra). rewrite <- app_assoc. reflexivity. }
    split; [rewrite Hitems', Hitems, <- app_assoc; reflexivity|].
    destruct (ignored item); simpl; [auto|].
    split; [constructor; [reflexivity | exact Hm]|].
    f_equal; [|exact Hstored].
    unfold stored, new_item. simpl InventoryItem.application.
    rewrite Hext, (find_app_Some _ _ extra _ Hfind). simpl.
    unfold submitted in *. simpl in Htr. rewrite Htr. reflexivity.
Qed.

(** ** The digest is sixty-four lower-case hexadecimal digits *)

Lemma land_15_range x : 0 <= Z.land x 15 < 16.
Proof.
  change 15 with (Z.ones 4). rewrite Z.land_ones by lia.
  apply Z.mod_pos_bound. lia.
Qed.

Lemma hex_lower_is_lower_hex n :
  0 <= n < 16 -> is_lower_hex (Py.hex_lower n) = true.
Proof.
  intros Hn.
  rewrite <- (Z2Nat.id n) by lia.
  assert (Hk : (Z.to_nat n < 16)%nat) by lia.
  destruct (Z.to_nat n) as [|k]; [reflexivity|].
  do 15 (destruct k as [|k]; [reflexivity|]). lia.
Qed.

Lemma hex_of_byte_lower b :
  forallb is_lower_hex (Sha256.hex_of_byte b) = true.
Proof.
  unfold Sha256.hex_of_byte. simpl.
  rewrite !hex_lower_is_lower_hex by apply land_15_range. reflexivity.
Qed.

Lemma hex_of_word_lower w :
  length (Sha256.hex_of_word w) = 8%nat
  /\ forallb is_lower_hex (Sha256.hex_of_word w) = true.
Proof.
  unfold Sha256.hex_of_word. cbn [Sha256.be_bytes flat_map].
  split; [reflexivity|].
  rewrite !forallb_app, !hex_of_byte_lower. reflexivity.
Qed.

Lemma hexdigest_lower_hex s : lower_hex_digest (Sha256.hexdigest s).
Proof.
  unfold lower_hex_digest, Sha256.hexdigest, Sha256.digest_words.
  set (st := Sha256.blocks _ _ _).
  rewrite list_ascii_of_string_of_list_ascii.
  cbn [flat_map].
  split.
  - assert (Hlen : forall l, String.length (string_of_list_ascii l)
                             = length l).
    { induction l; simpl; congruence. }
    rewrite Hlen, !length_app.
    rewrite !(proj1 (hex_of_word_lower _)). reflexivity.
  - rewrite !forallb_app, !(proj2 (hex_of_word_lower _)). reflexivity.
Qed.

(** ** Replacing the inventory of a machine *)

Lemma unique_on_key {A K} (f : A -> K) (rows : list A) (a b : A) :
  NoDup (map f rows) -> In a rows -> In b rows -> f a = f b -> a = b.
Proof.
  induction rows as [|x rows IH]; simpl; [contradiction|].
  intros Hnd Ha Hb E. apply NoDup_cons in Hnd as [Hx Hnd].
  rewrite list_elem_of_In, in_map_iff in Hx.
  destruct Ha as [->|Ha], Hb as [->|Hb]; auto.
  - exfalso. apply Hx. exists b. auto.
  - exfalso. apply Hx. exists a. auto.
Qed.

Lemma get_Found_filter {A} (p : A -> bool) rows a :
  Orm.get p rows = Orm.Found a <-> List.filter p rows = [a].
Proof.
  unfold Orm.get.
  destruct (List.filter p rows) as [|x [|y l]]; split; congruence.
Qed.

(** Rewriting rows in a way the selection does not see keeps what [get]
    finds. *)
Lemma get_map {A} (p : A -> bool) (f : A -> A) rows a :
  (forall r, In r rows -> p (f r) = p r) ->
  Orm.get p rows = Orm.Found a ->
  Orm.get p (map f rows) = Orm.Found (f a).
Proof.
  intros Hp Hget. apply get_Found_filter. apply get_Found_filter in Hget.
  change [f a] with (map f [a]). rewrite <- Hget. clear Hget.
  induction rows as [|x rows IH]; simpl; [reflexivity|].
  rewrite (Hp x) by now left.
  destruct (p x); simpl; rewrite IH; auto.
  all: intros r Hr; apply Hp; now right.
Qed.

Lemma get_app_new {A} (p : A -> bool) rows a :
  Orm.get p rows = Orm.DoesNotExist -> p a = true ->
  Orm.get p (rows ++ [a]) = Orm.Found a.
Proof.
  intros Hnone Hpa. apply get_DoesNotExist in Hnone.
  apply get_Found_filter. rewrite List.filter_app, Hnone. simpl.
  rewrite Hpa. reflexivity.
Qed.

(** The hash record after [save]: the machine has exactly one, and it
    holds the new hash. *)
Lemma save_inventory_get db machine h :
  wf db ->
  exists meta,
    Orm.get_inventory db machine <> Orm.MultipleObjectsReturned
    /\ Orm.get_inventory
         (Orm.save_inventory
            (Inventory.set_sha256hash h
               match Orm.get_inventory db machine with
               | Orm.Found i => i
               | _ => Inventory.Build None (Machine.id machine) ""
               end) db) machine
       = Orm.Found meta
    /\ Inventory.sha256hash meta = h
    /\ length (inventories
                 (Orm.save_inventory
                    (Inventory.set_sha256hash h
                       match Orm.get_inventory db machine with
                       | Orm.Found i => i
                       | _ => Inventory.Build None (Machine.id machine) ""
                       end) db))
       = match Orm.get_inventory db machine with
         | Orm.Found _ => length (inventories db)
         | _ => S (length (inventories db))
         end.
Proof.
  intros [_ _ _ _ Hm Hids Hseq]. unfold Orm.get_inventory.
  set (p := fun i : Inventory.t => Inventory.machine i =? Machine.id machine).
  assert (Hkey : forall x, p x = true <-> Inventory.machine x = Machine.id machine)
    by (intros x; apply Z.eqb_eq).
  rewrite (get_on_key Inventory.machine (Machine.id machine) p _ Hkey Hm).
  destruct (List.find p (inventories db)) as [i|] eqn:E.
  - assert (Hget : Orm.get p (inventories db) = Orm.Found i).
    { rewrite (get_on_key Inventory.machine (Machine.id machine) p _ Hkey Hm).
      rewrite E. reflexivity. }
    apply find_some in E as [Hin Hpi].
    rewrite Forall_forall in Hseq.
    pose proof (Hseq i (proj2 (list_elem_of_In _ _) Hin)) as Hid.
    destruct (Inventory.id i) as [k|] eqn:Ek; [|contradiction].
    exists (Inventory.set_sha256hash h i).
    split; [discriminate|].
    unfold Orm.save_inventory. simpl Inventory.id. rewrite Ek.
    set (same := fun r : Inventory.t =>
                   match Inventory.id r with Some j => j =? k | None => false end).
    assert (Hex : existsb same (inventories db) = true).
    { apply existsb_exists. exists i. split; [exact Hin|].
      unfold same. rewrite Ek. apply Z.eqb_refl. }
    rewrite Hex. simpl inventories.
    split; [|split; [reflexivity | apply length_map]].
    assert (Hsame : same i = true) by (unfold same; rewrite Ek; apply Z.eqb_refl).
    pose (f := fun r : Inventory.t =>
                 if same r then Inventory.set_sha256hash h i else r).
    transitivity (Orm.Found (f i));
      [|unfold f; rewrite Hsame; reflexivity].
    apply (get_map p f); [|exact Hget].
    unfold f.
    intros r Hr. destruct (same r) eqn:Er; [|reflexivity].
    assert (r = i) as ->.
    { apply (unique_on_key Inventory.id (inventories db)); auto.
      unfold same in Er. destruct (Inventory.id r) as [j|]; [|discriminate].
      apply Z.eqb_eq in Er. congruence. }
    reflexivity.
  - exists (Inventory.Build (Some (inventory_seq db)) (Machine.id machine) h).
    split; [discriminate|].
    unfold Orm.save_inventory. simpl.
    split; [|split; [reflexivity|rewrite length_app, Nat.add_comm; reflexivity]].
    apply get_app_new.
    + rewrite (get_on_key Inventory.machine (Machine.id machine) p _ Hkey Hm).
      rewrite E. reflexivity.
    + apply Z.eqb_refl.
Qed.

(** ** The constraints of the schema are kept *)

Lemma save_machine_wf db machine stamp :
  wf db ->
  In machine (machines db) ->
  wf (Orm.save_machine (Machine.set_last_inventory_update stamp machine) db).
Proof.
  intros [H1 H2 H3 H4 H5 H6 H7] Hin. unfold Orm.save_machine.
  simpl Machine.id.
  assert (Hex : existsb (fun r => Machine.id r =? Machine.id machine)
                        (machines db) = true).
  { apply existsb_exists. exists machine. split; [exact Hin|apply Z.eqb_refl]. }
  rewrite Hex. split; simpl; try assumption.
  rewrite map_map.
  erewrite map_ext; [exact H1|].
  intros r. simpl.
  destruct (Machine.id r =? Machine.id machine) eqn:E; [|reflexivity].
  apply Z.eqb_eq in E. auto.
Qed.

Lemma save_inventory_wf db machine h :
  wf db ->
  wf (Orm.save_inventory
        (Inventory.set_sha256hash h
           match Orm.get_inventory db machine with
           | Orm.Found i => i
           | _ => Inventory.Build None (Machine.id machine) ""
           end) db).
Proof.
  intros [H1 H2 H3 H4 Hm Hids Hseq]. unfold Orm.get_inventory.
  set (p := fun i : Inventory.t => Inventory.machine i =? Machine.id machine).
  assert (Hkey : forall x, p x = true <-> Inventory.machine x = Machine.id machine)
    by (intros x; apply Z.eqb_eq).
  rewrite (get_on_key Inventory.machine (Machine.id machine) p _ Hkey Hm).
  pose proof Hseq as Hall. rewrite Forall_forall in Hall.
  destruct (List.find p (inventories db)) as [i|] eqn:E.
  - apply find_some in E as [Hin Hpi].
    pose proof (Hall i (proj2 (list_elem_of_In _ _) Hin)) as Hid.
    destruct (Inventory.id i) as [k|] eqn:Ek; [|contradiction].
    unfold Orm.save_inventory. simpl Inventory.id. rewrite Ek.
    set (same := fun r : Inventory.t =>
                   match Inventory.id r with Some j => j =? k | None => false end).
    assert (Hex : existsb same (inventories db) = true).
    { apply existsb_exists. exists i. split; [exact Hin|].
      unfold same. rewrite Ek. apply Z.eqb_refl. }
    rewrite Hex.
    assert (Hsame : forall r, In r (inventories db) -> same r = true -> r = i).
    { intros r Hr Er.
      apply (unique_on_key Inventory.id (inventories db)); auto.
      unfold same in Er. destruct (Inventory.id r) as [j|]; [|discriminate].
      apply Z.eqb_eq in Er. congruence. }
    split; try assumption;
      cbn [inventories inventory_seq Orm.with_inventories].
    + rewrite map_map. erewrite map_ext_in; [exact Hm|].
      intros r Hr. pose proof (Hsame r Hr) as Hs. unfold same in Hs |- *.
      cbn beta.
      destruct (Inventory.id r) as [j|];
        [destruct (j =? k); [rewrite Hs by reflexivity|]|]; reflexivity.
    + rewrite map_map. erewrite map_ext_in; [exact Hids|].
      intros r Hr. unfold same. cbn beta.
      destruct (Inventory.id r) as [j|] eqn:Ej; [|rewrite Ej; reflexivity].
      destruct (j =? k) eqn:Ejk; [|rewrite Ej; reflexivity].
      apply Z.eqb_eq in Ejk. simpl. congruence.
    + apply Forall_forall. intros r Hr.
      apply list_elem_of_In, in_map_iff in Hr as (r0 & <- & Hr0).
      pose proof (Hall r0 (proj2 (list_elem_of_In _ _) Hr0)) as Hr0'.
      unfold same. cbn beta.
      destruct (Inventory.id r0) as [j|] eqn:Ej; [|contradiction].
      destruct (j =? k); [simpl; rewrite Ek; exact Hid|].
      rewrite Ej. exact Hr0'.
  - unfold Orm.save_inventory. simpl.
    split; simpl; try assumption.
    + rewrite map_app. apply NoDup_app. repeat split; auto.
      * intros x Hx Hx'. apply list_elem_of_In in Hx.
        apply list_elem_of_In in Hx'. simpl in Hx'.
        destruct Hx' as [<-|[]].
        apply in_map_iff in Hx as (r & Hr & Hin).
        apply (find_none _ _ E) in Hin. apply Hkey in Hr. congruence.
      * apply NoDup_singleton.
    + rewrite map_app. apply NoDup_app. repeat split; auto.
      * intros x Hx Hx'. apply list_elem_of_In in Hx.
        apply list_elem_of_In in Hx'. simpl in Hx'.
        destruct Hx' as [<-|[]].
        apply in_map_iff in Hx as (r & Hr & Hin).
        apply list_elem_of_In, Hall in Hin. rewrite Hr in Hin. lia.
      * apply NoDup_singleton.
    + apply Forall_app. split.
      * eapply Forall_impl; [exact Hseq|]. simpl.
        intros r. destruct (Inventory.id r); [lia|tauto].
      * repeat constructor. simpl. lia.
Qed.

Lemma delete_inventoryitems_wf machine db :
  wf db -> wf (Orm.delete_inventoryitems machine db).
Proof. intros [H1 H2 H3 H4 H5 H6 H7]. split; assumption. Qed.

Lemma save_inventory_tables meta db :
  applications (Orm.save_inventory meta db) = applications db
  /\ inventoryitems (Orm.save_inventory meta db) = inventoryitems db
  /\ machines (Orm.save_inventory meta db) = machines db.
Proof.
  unfold Orm.save_inventory.
  destruct (Inventory.id meta); [destruct (existsb _ _)|]; auto.
Qed.

(** The items of the machine once its old items are deleted and the
    created ones appended. *)
Lemma items_after_replace machine (old created : list InventoryItem.t) :
  Forall (fun it => InventoryItem.machine it = Machine.id machine) created ->
  List.filter (fun it => InventoryItem.machine it =? Machine.id machine)
    (List.filter
       (fun it => negb (InventoryItem.machine it =? Machine.id machine)) old
     ++ created)
  = created.
Proof.
  intros Hc. rewrite List.filter_app.
  assert (H1 : List.filter
                 (fun it => InventoryItem.machine it =? Machine.id machine)
                 (List.filter
                    (fun it =>
                       negb (InventoryItem.machine it =? Machine.id machine))
                    old) = []).
  { induction old as [|x old IH]; simpl; [reflexivity|].
    destruct (InventoryItem.machine x =? Machine.id machine) eqn:E; simpl;
      [|rewrite E]; exact IH. }
  rewrite H1. simpl.
  induction Hc as [|x created Hx _ IH]; simpl; [reflexivity|].
  rewrite Hx, Z.eqb_refl, IH. reflexivity.
Qed.

(** The machine row after [save]: the serial still finds one machine, the
    one with the new time stamp. *)
Lemma save_machine_get db serial machine stamp :
  NoDup (map Machine.id (machines db)) ->
  Orm.get_machine_by_serial db serial = Orm.Found machine ->
  Orm.get_machine_by_serial
    (Orm.save_machine (Machine.set_last_inventory_update stamp machine) db)
    serial
  = Orm.Found (Machine.set_last_inventory_update stamp machine).
Proof.
  intros Hnd Hget. unfold Orm.get_machine_by_serial in *.
  pose proof (get_Found _ _ _ Hget) as [Hin Hserial].
  unfold Orm.save_machine. simpl Machine.id.
  assert (Hex : existsb (fun r => Machine.id r =? Machine.id machine)
                        (machines db) = true).
  { apply existsb_exists. exists machine. split; [exact Hin|apply Z.eqb_refl]. }
  rewrite Hex. simpl machines.
  pose (f := fun r : Machine.t =>
               if Machine.id r =? Machine.id machine
               then Machine.set_last_inventory_update stamp machine else r).
  transitivity (Orm.Found (f machine));
    [|unfold f; rewrite Z.eqb_refl; reflexivity].
  apply (get_map _ f); [|exact Hget].
  intros r Hr. unfold f.
  destruct (Machine.id r =? Machine.id machine) eqn:E; [|reflexivity].
  apply Z.eqb_eq in E.
  rewrite (unique_on_key Machine.id (machines db) r machine Hnd Hr Hin E).
  reflexivity.
Qed.

(** A submission whose payload parses to at least one entry: what the
    database holds when the handler returns. *)
Lemma inventory_submit_stored P request db serial machine payload l :
  wf db ->
  submits request db serial machine payload ->
  readPlistFromString P (raw_bytes P payload) = Some l ->
  l <> [] ->
  exists db' meta,
    inventory_submit P request db = (db', Ok (acknowledgement serial))
    /\ map (stored db') (items_of machine db')
       = map (fun item => Some (submitted item))
             (List.filter (fun item => negb (ignored item)) l)
    /\ Orm.get_machine_by_serial db' serial
       = Orm.Found (Machine.set_last_inventory_update
                      (Some (datetime_now P)) machine)
    /\ Orm.get_inventory db' machine = Orm.Found meta
    /\ Inventory.sha256hash meta = Sha256.hexdigest (raw_bytes P payload)
    /\ length (inventories db')
       = match Orm.get_inventory db machine with
         | Orm.Found _ => length (inventories db)
         | _ => S (length (inventories db))
         end
    /\ wf db'.
Proof.
  intros Hwf Hsub Hparse Hl.
  rewrite (inventory_submit_accepted P request db serial machine payload Hsub).
  rewrite Hparse. destruct l as [|item rest]; [congruence|]. clear Hl.
  set (l := item :: rest) in *.
  destruct Hsub as (_ & _ & _ & Hget & _).
  unfold replace_inventory.
  pose proof (delete_inventoryitems_wf machine db Hwf) as Hwf1.
  destruct (insert_items_spec machine l _ Hwf1)
    as (db2 & created & Hloop & Hwf2 & Hsame & _ & Hitems & Hmachine
        & Hstored).
  destruct Hsame as (_ & _ & Hmachines & Hinv & _).
  simpl in Hmachines, Hinv, Hitems.
  destruct (save_inventory_get db2 machine
              (Sha256.hexdigest (raw_bytes P payload)) Hwf2)
    as (meta & Hnot & Hmeta & Hhash & Hlen).
  unfold Orm.get_inventory in Hnot, Hmeta, Hlen.
  rewrite Hinv in Hnot, Hmeta, Hlen.
  fold (Orm.get_inventory db machine) in Hnot, Hmeta, Hlen.
  pose proof (save_inventory_wf db2 machine
                (Sha256.hexdigest (raw_bytes P payload)) Hwf2) as Hwfs.
  unfold Orm.get_inventory in Hwfs. rewrite Hinv in Hwfs.
  fold (Orm.get_inventory db machine) in Hwfs.
  set (saved := Orm.save_inventory _ db2) in Hmeta, Hlen, Hwfs.
  destruct (save_inventory_tables
              (Inventory.set_sha256hash
                 (Sha256.hexdigest (raw_bytes P payload))
                 match Orm.get_inventory db machine with
                 | Orm.Found i => i
                 | _ => Inventory.Build None (Machine.id machine) ""
                 end) db2) as (Happs & Hits & Hms).
  fold saved in Happs, Hits, Hms.
  set (stamped := Machine.set_last_inventory_update
                    (Some (datetime_now P)) machine).
  exists (Orm.save_machine stamped saved), meta.
  destruct (save_machine_tables stamped saved) as (Happs' & Hits' & Hinv').
  split.
  { destruct (Orm.get_inventory db machine) eqn:Einv;
      [| |congruence]; rewrite Hloop; reflexivity. }
  split.
  { unfold items_of. rewrite Hits', Hits, Hitems.
    rewrite (items_after_replace machine _ created Hmachine).
    rewrite <- Hstored. apply map_ext. intros it. unfold stored.
    rewrite Happs', Happs. reflexivity. }
  split.
  { apply save_machine_get; [|].
    - rewrite Hms, Hmachines. apply Hwf.
    - unfold Orm.get_machine_by_serial. rewrite Hms, Hmachines. exact Hget. }
  split; [unfold Orm.get_inventory; rewrite Hinv'; exact Hmeta|].
  split; [exact Hhash|].
  split; [rewrite Hinv'; exact Hlen|].
  apply save_machine_wf; [exact Hwfs|].
  rewrite Hms, Hmachines. apply get_Found in Hget. tauto.
Qed.


Lemma sample_db_wf : wf Sample.db.
Proof.
  split; try (apply (bool_decide_unpack _); vm_compute; exact I);
    repeat constructor; simpl; lia.
Qed.

Lemma sample_db_fresh_wf : wf Sample.db_fresh.
Proof.
  split; try (apply (bool_decide_unpack _); vm_compute; exact I);
    repeat constructor; simpl; lia.
Qed.

(** ** What a submission leaves in the database *)

(** C1 (as stated, refuted): a payload that decodes and parses to the
    empty list leaves the two old items of the machine in place, although
    the payload has no entry. *)
Lemma empty_inventory_keeps_old_items :
  submits (Sample.post "ABC123" Sample.payload_empty) Sample.db "ABC123"
          Sample.machine1 Sample.payload_empty
  /\ readPlistFromString Sample.platform
       (raw_bytes Sample.platform Sample.payload_empty) = Some []
  /\ items_of Sample.machine1
       (fst (inventory_submit Sample.platform
               (Sample.post "ABC123" Sample.payload_empty) Sample.db))
     = [Sample.item1; Sample.item3]
  /\ List.filter (fun item => negb (ignored item)) ([] : list plist_dict)
     = [].
Proof. split; [|split; [|split]]; try reflexivity. repeat split. Qed.

(** C1 (amended): for a submission whose serial resolves and whose payload
    decodes and parses to a list with at least one entry, on a database
    that satisfies the constraints of the schema, the handler returns the
    acknowledgement and the inventory items of the machine are then, one for
    one and in the order of the payload, the entries that are not ignored:
    same number, and the same application triple, version and path; the
    items the machine had before are gone. *)
Theorem submission_replaces_items P request db serial machine payload l :
  wf db ->
  submits request db serial machine payload ->
  readPlistFromString P (raw_bytes P payload) = Some l ->
  l <> [] ->
  exists db',
    inventory_submit P request db = (db', Ok (acknowledgement serial))
    /\ map (stored db') (items_of machine db')
       = map (fun item => Some (submitted item))
             (List.filter (fun item => negb (ignored item)) l).
Proof.
  intros Hwf Hsub Hparse Hl.
  destruct (inventory_submit_stored P request db serial machine payload l
              Hwf Hsub Hparse Hl) as (db' & meta & Hrun & Hitems & _).
  exists db'. split; assumption.
Qed.

Lemma submission_replaces_items_witness :
  readPlistFromString Sample.platform
    (raw_bytes Sample.platform Sample.payload_app_posted)
  = Some [Sample.entry_app]
  /\ exists db',
      inventory_submit Sample.platform
        (Sample.post "ABC123" Sample.payload_app_posted) Sample.db
      = (db', Ok (acknowledgement "ABC123"))
      /\ map (stored db') (items_of Sample.machine1 db')
         = map (fun item => Some (submitted item))
               (List.filter (fun item => negb (ignored item))
                            [Sample.entry_app]).
Proof.
  split; [reflexivity|].
  apply (submission_replaces_items Sample.platform
           (Sample.post "ABC123" Sample.payload_app_posted) Sample.db
           "ABC123" Sample.machine1 Sample.payload_app_posted
           [Sample.entry_app]).
  - exact sample_db_wf.
  - split; [|split; [|split; [|split; [|split]]]]; reflexivity.
  - reflexivity.
  - discriminate.
Defined.

(** C4 (as stated, refuted): after a payload that decodes and parses to
    the empty list the hash lookup still answers the hash stored before,
    not the SHA-256 of the bytes just decoded. *)
Lemma empty_inventory_keeps_old_hash :
  submits (Sample.post "ABC123" Sample.payload_empty) Sample.db "ABC123"
          Sample.machine1 Sample.payload_empty
  /\ readPlistFromString Sample.platform
       (raw_bytes Sample.platform Sample.payload_empty) = Some []
  /\ Sha256.hexdigest (raw_bytes Sample.platform Sample.payload_empty)
     = "2e1f24595b99b4e9d248fa1a3094b4bb7d8366a3a258e194d45042af2c2b3865"
  /\ inventory_hash (Some "ABC123")
       (fst (inventory_submit Sample.platform
               (Sample.post "ABC123" Sample.payload_empty) Sample.db))
     = Ok (HttpResponse_
             "aaaaaaaaaaaaaaaaaaaaaaaaaaaaaaaaaaaaaaaaaaaaaaaaaaaaaaaaaaaaaaaa").
Proof.
  split; [|split; [|split]]; try (vm_compute; reflexivity).
  split; [|split; [|split; [|split; [|split]]]]; reflexivity.
Qed.

(** C4 (amended): for a submission whose serial resolves and whose payload
    decodes and parses to a list with at least one entry, on a database
    that satisfies the constraints of the schema, the handler stores the
    SHA-256 of the raw decoded bytes, taken before parsing and written as
    sixty-four lower-case hexadecimal digits, in the one hash record of the
    machine, which is created when the machine had none and overwritten
    when it had one; the hash lookup for the serial then answers exactly
    that string. *)
Theorem submission_stores_hash P request db serial machine payload l :
  wf db ->
  submits request db serial machine payload ->
  readPlistFromString P (raw_bytes P payload) = Some l ->
  l <> [] ->
  exists db' meta,
    inventory_submit P request db = (db', Ok (acknowledgement serial))
    /\ Orm.get_inventory db' machine = Orm.Found meta
    /\ Inventory.sha256hash meta = Sha256.hexdigest (raw_bytes P payload)
    /\ lower_hex_digest (Inventory.sha256hash meta)
    /\ length (inventories db')
       = match Orm.get_inventory db machine with
         | Orm.Found _ => length (inventories db)
         | _ => S (length (inventories db))
         end
    /\ inventory_hash (Some serial) db'
       = Ok (HttpResponse_ (Sha256.hexdigest (raw_bytes P payload))).
Proof.
  intros Hwf Hsub Hparse Hl.
  destruct (inventory_submit_stored P request db serial machine payload l
              Hwf Hsub Hparse Hl)
    as (db' & meta & Hrun & _ & Hmachine & Hmeta & Hhash & Hlen & _).
  exists db', meta. conjuncts; auto.
  - rewrite Hhash. apply hexdigest_lower_hex.
  - destruct Hsub as (_ & _ & Htruthy & _).
    unfold inventory_hash. simpl. rewrite Htruthy, Hmachine.
    change (Orm.get_inventory db'
              (Machine.set_last_inventory_update _ machine))
      with (Orm.get_inventory db' machine).
    rewrite Hmeta, Hhash. reflexivity.
Qed.

Lemma submission_stores_hash_witness :
  Orm.get_inventory Sample.db_fresh Sample.machine2 = Orm.DoesNotExist
  /\ exists db' meta,
      inventory_submit Sample.platform
        (Sample.post "XYZ789" Sample.payload_app_posted) Sample.db_fresh
      = (db', Ok (acknowledgement "XYZ789"))
      /\ Orm.get_inventory db' Sample.machine2 = Orm.Found meta
      /\ Inventory.sha256hash meta
         = Sha256.hexdigest
             (raw_bytes Sample.platform Sample.payload_app_posted)
      /\ lower_hex_digest (Inventory.sha256hash meta)
      /\ length (inventories db')
         = match Orm.get_inventory Sample.db_fresh Sample.machine2 with
           | Orm.Found _ => length (inventories Sample.db_fresh)
           | _ => S (length (inventories Sample.db_fresh))
           end
      /\ inventory_hash (Some "XYZ789") db'
         = Ok (HttpResponse_
                 (Sha256.hexdigest
                    (raw_bytes Sample.platform Sample.payload_app_posted))).
Proof.
  split; [reflexivity|].
  apply (submission_stores_hash Sample.platform
           (Sample.post "XYZ789" Sample.payload_app_posted) Sample.db_fresh
           "XYZ789" Sample.machine2 Sample.payload_app_posted
           [Sample.entry_app]).
  - exact sample_db_fresh_wf.
  - split; [|split; [|split; [|split; [|split]]]]; reflexivity.
  - reflexivity.
  - discriminate.
Defined.

(** ** Entries on the ignore list *)

(** C5 (as stated, refuted): a payload whose only entry is the printer
    proxy, which is on the ignore list, creates no inventory item but does
    create the application row of the printer proxy. *)
Lemma ignored_entry_still_creates_application :
  ignored Sample.entry_proxy = true
  /\ applications Sample.db_fresh = []
  /\ applications
       (fst (inventory_submit Sample.platform
               (Sample.post "ABC123" Sample.payload_proxy) Sample.db_fresh))
     = [Application.Build 1 "com.apple.print.PrinterProxy" "PrinterProxy" ""]
  /\ inventoryitems
       (fst (inventory_submit Sample.platform
               (Sample.post "ABC123" Sample.payload_proxy) Sample.db_fresh))
     = [].
Proof. split; [|split; [|split]]; vm_compute; reflexivity. Qed.

(** C5 (amended): for every entry of the loop, on a database that
    satisfies the constraints of the schema, an application is resolved by
    get-or-create on the triple (bundleid, name, CFBundleName), each
    defaulting to the empty string, also when the bundle id is on the
    ignore list: the row that has the triple is taken, and when there is
    none it is appended.  No inventory item is created for an entry whose
    bundle id is on the ignore list; every other entry gets one new item
    of the machine and that application, with version and path defaulting
    to the empty string when absent. *)
Theorem entry_is_stored machine item db :
  wf db ->
  exists app db',
    insert_item machine item db = Some db'
    /\ triple app
       = (default "" (item !! "bundleid"), default "" (item !! "name"),
          default "" (item !! "CFBundleName"))
    /\ (applications db' = applications db /\ In app (applications db)
        \/ applications db' = (applications db ++ [app])%list
           /\ ~ In (triple app) (map triple (applications db)))
    /\ inventoryitems db'
       = (inventoryitems db
          ++ if ignored item then []
             else [InventoryItem.Build
                     (inventoryitem_seq db) (Machine.id machine)
                     (Application.id app)
                     (default "" (item !! "version"))
                     (default "" (item !! "path"))])%list.
Proof.
  intros Hwf.
  destruct (insert_item_step machine item db Hwf)
    as (app & db' & Hrun & _ & Htr & _ & Happs & Hitems & _).
  assert (Hget : forall k, Py.dict_get_default item k "" = default "" (item !! k)).
  { intros k. unfold Py.dict_get_default. destruct (item !! k); reflexivity. }
  exists app, db'. unfold submitted in Htr, Happs. simpl in Htr, Happs.
  rewrite <- Htr in Happs. rewrite !Hget in Htr.
  unfold new_item in Hitems. rewrite !Hget in Hitems.
  conjuncts; assumption.
Qed.

Lemma entry_is_stored_witness :
  ignored Sample.entry_proxy = true
  /\ ignored Sample.entry_app = false
  /\ (exists app db',
         insert_item Sample.machine1 Sample.entry_proxy Sample.db
         = Some db'
         /\ triple app
            = (default "" (Sample.entry_proxy !! "bundleid"),
               default "" (Sample.entry_proxy !! "name"),
               default "" (Sample.entry_proxy !! "CFBundleName"))
         /\ (applications db' = applications Sample.db
             /\ In app (applications Sample.db)
             \/ applications db' = (applications Sample.db ++ [app])%list
                /\ ~ In (triple app) (map triple (applications Sample.db)))
         /\ inventoryitems db'
            = (inventoryitems Sample.db
               ++ if ignored Sample.entry_proxy then []
                  else [InventoryItem.Build
                          (inventoryitem_seq Sample.db)
                          (Machine.id Sample.machine1)
                          (Application.id app)
                          (default "" (Sample.entry_proxy !! "version"))
                          (default "" (Sample.entry_proxy !! "path"))])%list).
Proof.
  split; [reflexivity|]. split; [reflexivity|].
  apply (entry_is_stored Sample.machine1 Sample.entry_proxy Sample.db).
  exact sample_db_wf.
Defined.

(** ** The worked example of the specification *)

(** Submitting the one-application inventory for [ABC123] and submitting
    it again: the machine has one item after each, the application row is
    created once, and the stored hash is the same. *)
Example resubmission_replaces_the_item :
  let once :=
    fst (inventory_submit Sample.platform
           (Sample.post "ABC123" Sample.payload_app_posted)
           Sample.db_fresh) in
  let twice :=
    fst (inventory_submit Sample.platform
           (Sample.post "ABC123" Sample.payload_app_posted) once) in
  length (items_of Sample.machine1 once) = 1%nat
  /\ length (items_of Sample.machine1 twice) = 1%nat
  /\ map InventoryItem.id (items_of Sample.machine1 once) = [1]
  /\ map InventoryItem.id (items_of Sample.machine1 twice) = [2]
  /\ applications twice = applications once
  /\ length (applications once) = 1%nat
  /\ inventory_hash (Some "ABC123") once
     = inventory_hash (Some "ABC123") twice
  /\ inventory_hash (Some "ABC123") once
     = Ok (HttpResponse_
             "46077c62ffb8fddd9dc332f95d7d0fa5e45985f4deffb505099cc8ee6e6f6593").
Proof. vm_compute. conjuncts; reflexivity. Qed.

(** ** What a submission does to the rest of the database *)

(** The database a stored submission leaves: the loop has run on the
    database without the machine's old items, then the hash record and the
    machine are saved. *)
Lemma inventory_submit_stored_db P request db serial machine payload l :
  wf db ->
  submits request db serial machine payload ->
  readPlistFromString P (raw_bytes P payload) = Some l ->
  l <> [] ->
  exists db2,
    insert_items machine l (Orm.delete_inventoryitems machine db)
    = (db2, true)
    /\ fst (inventory_submit P request db)
       = Orm.save_machine
           (Machine.set_last_inventory_update (Some (datetime_now P)) machine)
           (Orm.save_inventory
              (Inventory.set_sha256hash
                 (Sha256.hexdigest (raw_bytes P payload))
                 match Orm.get_inventory db machine with
                 | Orm.Found i => i
                 | _ => Inventory.Build None (Machine.id machine) ""
                 end) db2).
Proof.
  intros Hwf Hsub Hparse Hl.
  rewrite (inventory_submit_accepted P request db serial machine payload Hsub).
  rewrite Hparse. destruct l as [|item rest]; [congruence|]. clear Hl.
  set (l := item :: rest) in *.
  unfold replace_inventory.
  pose proof (delete_inventoryitems_wf machine db Hwf) as Hwf1.
  destruct (insert_items_spec machine l _ Hwf1) as (db2 & created & Hloop & _).
  destruct (save_inventory_get db machine
              (Sha256.hexdigest (raw_bytes P payload)) Hwf) as (_ & Hnot & _).
  exists db2. split; [exact Hloop|].
  destruct (Orm.get_inventory db machine) eqn:Einv;
    [| |congruence]; rewrite Hloop; reflexivity.
Qed.

(** Every entry's triple has its application row once the loop is over,
    and a loop that finds them all appends none. *)
Lemma insert_items_triples machine inventory_list :
  forall db db',
    wf db ->
    insert_items machine inventory_list db = (db', true) ->
    (forall item, In item inventory_list ->
                  In (fst (fst (submitted item)))
                     (map triple (applications db')))
    /\ ((forall item, In item inventory_list ->
                      In (fst (fst (submitted item)))
                         (map triple (applications db))) ->
        applications db' = applications db).
Proof.
  induction inventory_list as [|item rest IH]; intros db db' Hwf Hrun.
  - simpl in Hrun. injection Hrun as <-. split; [contradiction | reflexivity].
  - simpl in Hrun.
    destruct (insert_item_step machine item db Hwf)
      as (app & db1 & Hstep & Hwf1 & Htr & _ & Happs & _).
    rewrite Hstep in Hrun.
    destruct (insert_items_spec machine rest db1 Hwf1)
      as (db'' & created & Hrun' & _ & _ & [extra Hext] & _).
    assert (db'' = db') as -> by congruence.
    destruct (IH db1 db' Hwf1 Hrun) as [Hall Hnone].
    assert (Hin1 : In (fst (fst (submitted item)))
                      (map triple (applications db1))).
    { rewrite <- Htr. apply in_map.
      destruct Happs as [[-> Hin] | [-> _]]; [exact Hin|].
      apply in_or_app. right. now left. }
    split.
    + intros it [<-|Hit]; [|apply Hall; exact Hit].
      rewrite Hext, map_app. apply in_or_app. left. exact Hin1.
    + intros Hold.
      assert (E : applications db1 = applications db).
      { destruct Happs as [[E _] | [_ Hnew]]; [exact E|].
        exfalso. apply Hnew, Hold. now left. }
      rewrite <- E. apply Hnone. intros it Hit. rewrite E.
      apply Hold. now right.
Qed.

Lemma filter_map_fixed {A} (p : A -> bool) (f : A -> A) (l : list A) :
  (forall r, In r l -> p (f r) = p r) ->
  (forall r, In r l -> p r = true -> f r = r) ->
  List.filter p (map f l) = List.filter p l.
Proof.
  induction l as [|x l IH]; simpl; intros Hp Hfix; [reflexivity|].
  rewrite (Hp x) by now left.
  destruct (p x) eqn:E.
  - rewrite (Hfix x) by auto. f_equal. apply IH; auto.
  - apply IH; auto.
Qed.

(** Saving the hash record of one machine leaves the record every other
    machine has. *)
Lemma save_inventory_other db db2 machine other h :
  wf db ->
  inventories db2 = inventories db ->
  Machine.id other <> Machine.id machine ->
  Orm.get_inventory
    (Orm.save_inventory
       (Inventory.set_sha256hash h
          match Orm.get_inventory db machine with
          | Orm.Found i => i
          | _ => Inventory.Build None (Machine.id machine) ""
          end) db2) other
  = Orm.get_inventory db other.
Proof.
  intros Hwf Hinv Hne. pose proof Hwf as [_ _ _ _ Hm Hids Hseq].
  set (p := fun i : Inventory.t => Inventory.machine i =? Machine.id other).
  enough (E : forall saved,
             saved = Orm.save_inventory
                       (Inventory.set_sha256hash h
                          match Orm.get_inventory db machine with
                          | Orm.Found i => i
                          | _ => Inventory.Build None (Machine.id machine) ""
                          end) db2 ->
             List.filter p (inventories saved)
             = List.filter p (inventories db)).
  { unfold Orm.get_inventory at 1 3. unfold Orm.get. fold p.
    rewrite (E _ eq_refl). reflexivity. }
  intros saved ->.
  assert (Hcase : (exists i, Orm.get_inventory db machine = Orm.Found i)
                  \/ (forall i, Orm.get_inventory db machine <> Orm.Found i)).
  { destruct (Orm.get_inventory db machine); eauto; right; congruence. }
  destruct Hcase as [[i Hfound] | Hnone].
  - rewrite Hfound. pose proof (get_Found _ _ _ Hfound) as [Hin Hpi].
    apply Z.eqb_eq in Hpi.
    rewrite Forall_forall in Hseq.
    pose proof (Hseq i (proj2 (list_elem_of_In _ _) Hin)) as Hid.
    unfold Orm.save_inventory. simpl Inventory.id.
    destruct (Inventory.id i) as [k|] eqn:Ek; [|contradiction].
    rewrite Hinv.
    set (same := fun r : Inventory.t =>
                   match Inventory.id r with Some j => j =? k | None => false end).
    assert (Hex : existsb same (inventories db) = true).
    { apply existsb_exists. exists i. split; [exact Hin|].
      unfold same. rewrite Ek. apply Z.eqb_refl. }
    rewrite Hex. cbn [inventories Orm.with_inventories].
    assert (Hsame : forall r, In r (inventories db) -> same r = true -> r = i).
    { intros r Hr Er.
      apply (unique_on_key Inventory.id (inventories db)); auto.
      unfold same in Er. destruct (Inventory.id r) as [j|]; [|discriminate].
      apply Z.eqb_eq in Er. congruence. }
    assert (Hpi' : p i = false).
    { unfold p. apply Z.eqb_neq. congruence. }
    apply (filter_map_fixed p
             (fun r => if same r then Inventory.set_sha256hash h i else r)).
    + intros r Hr. destruct (same r) eqn:Er; [|reflexivity].
      rewrite (Hsame r Hr Er). reflexivity.
    + intros r Hr Hpr. destruct (same r) eqn:Er; [|reflexivity].
      rewrite (Hsame r Hr Er) in Hpr. congruence.
  - assert (Hnew : Orm.save_inventory
                     (Inventory.set_sha256hash h
                        match Orm.get_inventory db machine with
                        | Orm.Found i => i
                        | _ => Inventory.Build None (Machine.id machine) ""
                        end) db2
                   = Orm.with_inventories
                       (inventories db2
                        ++ [Inventory.Build (Some (inventory_seq db2))
                                            (Machine.id machine) h])
                       (inventory_seq db2 + 1) db2).
    { destruct (Orm.get_inventory db machine) as [i| |];
        [exfalso; apply (Hnone i); reflexivity | reflexivity | reflexivity]. }
    rewrite Hnew. cbn [inventories Orm.with_inventories].
    rewrite Hinv, List.filter_app. simpl.
    assert (E : (Machine.id machine =? Machine.id other) = false)
      by (apply Z.eqb_neq; congruence).
    unfold p at 2. simpl. rewrite E. apply app_nil_r.
Qed.

Lemma save_tables_scopes m meta db :
  business_units (Orm.save_machine m (Orm.save_inventory meta db))
  = business_units db
  /\ machine_groups (Orm.save_machine m (Orm.save_inventory meta db))
     = machine_groups db.
Proof.
  unfold Orm.save_machine, Orm.save_inventory.
  destruct (Inventory.id meta); [destruct (existsb _ (inventories db))|];
    cbn [machines Orm.with_inventories];
    destruct (existsb _ (machines db)); split; reflexivity.
Qed.

(** The tables after a stored submission, one by one. *)
Lemma inventory_submit_stored_tables P request db serial machine payload l :
  wf db ->
  submits request db serial machine payload ->
  readPlistFromString P (raw_bytes P payload) = Some l ->
  l <> [] ->
  exists created extra,
    inventoryitems (fst (inventory_submit P request db))
    = (List.filter
         (fun it => negb (InventoryItem.machine it =? Machine.id machine))
         (inventoryitems db) ++ created)%list
    /\ Forall (fun it => InventoryItem.machine it = Machine.id machine)
              created
    /\ applications (fst (inventory_submit P request db))
       = (applications db ++ extra)%list
    /\ ((forall item, In item l ->
                      In (fst (fst (submitted item)))
                         (map triple (applications db))) -> extra = [])
    /\ (forall item, In item l ->
                     In (fst (fst (submitted item)))
                        (map triple (applications db ++ extra)))
    /\ machines (fst (inventory_submit P request db))
       = map (stamp P machine) (machines db)
    /\ business_units (fst (inventory_submit P request db))
       = business_units db
    /\ machine_groups (fst (inventory_submit P request db))
       = machine_groups db
    /\ (forall other,
           Machine.id other <> Machine.id machine ->
           Orm.get_inventory (fst (inventory_submit P request db)) other
           = Orm.get_inventory db other).
Proof.
  intros Hwf Hsub Hparse Hl.
  destruct (inventory_submit_stored_db P request db serial machine payload l
              Hwf Hsub Hparse Hl) as (db2 & Hloop & ->).
  pose proof (delete_inventoryitems_wf machine db Hwf) as Hwf1.
  destruct (insert_items_spec machine l _ Hwf1)
    as (db2' & created & Hloop' & _ & Hsame & [extra Hext] & Hitems & Hmachine
        & _).
  assert (db2' = db2) as -> by congruence.
  destruct (insert_items_triples machine l _ db2 Hwf1 Hloop) as [Hall Hnone].
  destruct Hsame as (Hbu & Hmg & Hmachines & Hinv & _).
  simpl in Hbu, Hmg, Hmachines, Hinv, Hitems, Hext, Hnone.
  set (meta := Inventory.set_sha256hash _ _).
  set (stamped := Machine.set_last_inventory_update _ machine).
  destruct (save_machine_tables stamped (Orm.save_inventory meta db2))
    as (Happs' & Hits' & Hinv').
  destruct (save_inventory_tables meta db2) as (Happs & Hits & Hms).
  destruct (save_tables_scopes stamped meta db2) as (Hbu' & Hmg').
  exists created, extra. conjuncts.
  - rewrite Hits', Hits. exact Hitems.
  - exact Hmachine.
  - rewrite Happs', Happs. exact Hext.
  - intros Hold. specialize (Hnone Hold). rewrite Hext in Hnone.
    rewrite <- (app_nil_r (applications db)) in Hnone at 2.
    apply app_inv_head in Hnone. exact Hnone.
  - rewrite <- Hext. exact Hall.
  - unfold Orm.save_machine.
    assert (Hex : existsb (fun r => Machine.id r =? Machine.id stamped)
                    (machines (Orm.save_inventory meta db2)) = true).
    { apply existsb_exists. exists machine. rewrite Hms, Hmachines.
      destruct Hsub as (_ & _ & _ & Hget & _). apply get_Found in Hget.
      split; [tauto | apply Z.eqb_refl]. }
    rewrite Hex. cbn [machines Orm.with_machines].
    rewrite Hms, Hmachines. reflexivity.
  - rewrite Hbu'. exact Hbu.
  - rewrite Hmg'. exact Hmg.
  - intros other Hne. unfold Orm.get_inventory at 1. rewrite Hinv'.
    apply (save_inventory_other db db2 machine other _ Hwf Hinv Hne).
Qed.

(** A request changes nothing, or it is a submission that is stored. *)
Lemma inventory_submit_cases P request db :
  wf db ->
  fst (inventory_submit P request db) = db
  \/ exists serial machine payload l,
      submits request db serial machine payload
      /\ readPlistFromString P (raw_bytes P payload) = Some l
      /\ l <> [].
Proof.
  intros Hwf.
  destruct (String.eqb (method request) "POST") eqn:Em;
    [|left; unfold inventory_submit; rewrite Em; reflexivity].
  destruct (POST request !! "serial") as [serial|] eqn:Es;
    [|left; unfold inventory_submit; rewrite Em, Es; reflexivity].
  destruct (Py.str_truthy serial) eqn:Et;
    [|left; unfold inventory_submit; rewrite Em, Es; simpl; rewrite Et;
      reflexivity].
  destruct (Orm.get_machine_by_serial db serial) as [machine| |] eqn:Eg;
    try (left; unfold inventory_submit; rewrite Em, Es; simpl;
         rewrite Et, Eg; reflexivity).
  destruct (POST request !! "base64bz2inventory") as [payload|] eqn:Ep;
    [|left; unfold inventory_submit; rewrite Em, Es, Ep; simpl;
      rewrite Et, Eg; reflexivity].
  destruct (Py.str_truthy payload) eqn:Ept;
    [|left; unfold inventory_submit; rewrite Em, Es, Ep; simpl;
      rewrite Et, Eg, Ept; reflexivity].
  assert (Hsub : submits request db serial machine payload).
  { apply String.eqb_eq in Em. unfold submits. auto 10. }
  assert (Hsame : Orm.save_machine machine db = db).
  { apply save_machine_unchanged; [apply Hwf|].
    apply get_Found in Eg. tauto. }
  destruct (readPlistFromString P (raw_bytes P payload)) as [[|item rest]|]
    eqn:Eparse.
  - left.
    rewrite (inventory_submit_accepted P request db serial machine payload
               Hsub), Eparse. exact Hsame.
  - right. exists serial, machine, payload, (item :: rest).
    split; [exact Hsub|]. split; [exact Eparse | discriminate].
  - left.
    rewrite (inventory_submit_accepted P request db serial machine payload
               Hsub), Eparse. exact Hsame.
Qed.

Lemma filter_filter_implied {A} (p q : A -> bool) (l : list A) :
  (forall x, p x = true -> q x = true) ->
  List.filter p (List.filter q l) = List.filter p l.
Proof.
  intros Himp. induction l as [|x l IH]; simpl; [reflexivity|].
  destruct (q x) eqn:Eq; simpl; destruct (p x) eqn:Ep; try rewrite IH; auto.
  apply Himp in Ep. congruence.
Qed.

Lemma filter_none {A} (p : A -> bool) (l : list A) :
  Forall (fun x => p x = false) l -> List.filter p l = [].
Proof.
  induction 1 as [|x l Hx _ IH]; simpl; [reflexivity|].
  rewrite Hx. exact IH.
Qed.



(** X2: a request to the submission endpoint leaves the inventory items
    and the hash record of every machine other than the one its serial
    resolves to as they were. *)
Theorem submission_leaves_other_machines P request db other :
  wf db ->
  (forall machine,
      Orm.get_machine_by_serial db (default "" (POST request !! "serial"))
      = Orm.Found machine ->
      Machine.id machine <> Machine.id other) ->
  items_of other (fst (inventory_submit P request db)) = items_of other db
  /\ Orm.get_inventory (fst (inventory_submit P request db)) other
     = Orm.get_inventory db other.
Proof.
  intros Hwf Hother.
  destruct (inventory_submit_cases P request db Hwf)
    as [-> | (serial & machine & payload & l & Hsub & Hparse & Hl)];
    [split; reflexivity|].
  assert (Hne : Machine.id machine <> Machine.id other).
  { apply Hother. destruct Hsub as (_ & -> & _ & Hget & _). exact Hget. }
  destruct (inventory_submit_stored_tables P request db serial machine
              payload l Hwf Hsub Hparse Hl)
    as (created & extra & Hitems & Hmachine & _ & _ & _ & _ & _ & _ & Hinv).
  split; [|apply Hinv; congruence].
  unfold items_of. rewrite Hitems, List.filter_app.
  rewrite filter_filter_implied.
  - rewrite (filter_none _ created); [apply app_nil_r|].
    eapply Forall_impl; [exact Hmachine|]. simpl. intros it ->.
    apply Z.eqb_neq. exact Hne.
  - intros it Eit. apply Z.eqb_eq in Eit. rewrite Eit.
    apply negb_true_iff, Z.eqb_neq. congruence.
Qed.

Lemma submission_leaves_other_machines_witness :
  items_of Sample.machine2
    (fst (inventory_submit Sample.platform
            (Sample.post "ABC123" Sample.payload_app_posted) Sample.db))
  = items_of Sample.machine2 Sample.db
  /\ Orm.get_inventory
       (fst (inventory_submit Sample.platform
               (Sample.post "ABC123" Sample.payload_app_posted) Sample.db))
       Sample.machine2
     = Orm.get_inventory Sample.db Sample.machine2.
Proof.
  apply (submission_leaves_other_machines Sample.platform
           (Sample.post "ABC123" Sample.payload_app_posted) Sample.db
           Sample.machine2).
  - exact sample_db_wf.
  - intros machine Hget. vm_compute in Hget. injection Hget as <-.
    discriminate.
Defined.

Lemma stamp_id P machine r :
  Machine.id (stamp P machine r) = Machine.id r
  /\ (Machine.serial machine = Machine.serial r \/
      Machine.id r <> Machine.id machine ->
      Machine.serial (stamp P machine r) = Machine.serial r).
Proof.
  unfold stamp. destruct (Machine.id r =? Machine.id machine) eqn:E.
  - apply Z.eqb_eq in E. split; [symmetry; exact E|].
    intros [H|H]; [exact H | contradiction].
  - split; reflexivity.
Qed.

(** X3: a request to the submission endpoint never removes or rewrites an
    application row (rows are only appended), never touches business
    units or machine groups, and neither adds nor removes a machine nor
    changes a machine's id or serial. *)
Theorem submission_only_appends P request db :
  wf db ->
  (exists extra,
      applications (fst (inventory_submit P request db))
      = (applications db ++ extra)%list)
  /\ business_units (fst (inventory_submit P request db)) = business_units db
  /\ machine_groups (fst (inventory_submit P request db)) = machine_groups db
  /\ map Machine.id (machines (fst (inventory_submit P request db)))
     = map Machine.id (machines db)
  /\ map Machine.serial (machines (fst (inventory_submit P request db)))
     = map Machine.serial (machines db).
Proof.
  intros Hwf.
  destruct (inventory_submit_cases P request db Hwf)
    as [-> | (serial & machine & payload & l & Hsub & Hparse & Hl)].
  { conjuncts; try reflexivity. exists []. symmetry. apply app_nil_r. }
  destruct (inventory_submit_stored_tables P request db serial machine
              payload l Hwf Hsub Hparse Hl)
    as (created & extra & _ & _ & Happs & _ & _ & Hms & Hbu & Hmg & _).
  conjuncts; auto.
  - exists extra. exact Happs.
  - rewrite Hms, map_map. apply map_ext. intros r. apply stamp_id.
  - rewrite Hms, map_map. apply map_ext_in. intros r Hr.
    apply stamp_id.
    destruct (Z.eq_dec (Machine.id r) (Machine.id machine)) as [E|E];
      [left | right; exact E].
    destruct Hsub as (_ & _ & _ & Hget & _).
    apply get_Found in Hget as [Hin _].
    rewrite (unique_on_key Machine.id (machines db) r machine); auto.
    apply Hwf.
Qed.

Lemma submission_only_appends_witness :
  (exists extra,
      applications
        (fst (inventory_submit Sample.platform
                (Sample.post "ABC123" Sample.payload_app_posted) Sample.db))
      = (applications Sample.db ++ extra)%list)
  /\ business_units
       (fst (inventory_submit Sample.platform
               (Sample.post "ABC123" Sample.payload_app_posted) Sample.db))
     = business_units Sample.db
  /\ machine_groups
       (fst (inventory_submit Sample.platform
               (Sample.post "ABC123" Sample.payload_app_posted) Sample.db))
     = machine_groups Sample.db
  /\ map Machine.id
       (machines
          (fst (inventory_submit Sample.platform
                  (Sample.post "ABC123" Sample.payload_app_posted)
                  Sample.db)))
     = map Machine.id (machines Sample.db)
  /\ map Machine.serial
       (machines
          (fst (inventory_submit Sample.platform
                  (Sample.post "ABC123" Sample.payload_app_posted)
                  Sample.db)))
     = map Machine.serial (machines Sample.db).
Proof.
  apply (submission_only_appends Sample.platform
           (Sample.post "ABC123" Sample.payload_app_posted) Sample.db).
  exact sample_db_wf.
Defined.

(** X4: a request to the submission endpoint either leaves the machine
    table as it is, or it rewrites the one row of the machine its serial
    resolves to, and only that row's last-inventory-update, which becomes
    the time the clock shows. *)
Theorem submission_stamps_its_machine P request db :
  wf db ->
  machines (fst (inventory_submit P request db)) = machines db
  \/ exists machine,
      Orm.get_machine_by_serial db (default "" (POST request !! "serial"))
      = Orm.Found machine
      /\ machines (fst (inventory_submit P request db))
         = map (fun r =>
                  if Machine.id r =? Machine.id machine
                  then Machine.set_last_inventory_update
                         (Some (datetime_now P)) machine
                  else r) (machines db).
Proof.
  intros Hwf.
  destruct (inventory_submit_cases P request db Hwf)
    as [-> | (serial & machine & payload & l & Hsub & Hparse & Hl)];
    [left; reflexivity|].
  destruct (inventory_submit_stored_tables P request db serial machine
              payload l Hwf Hsub Hparse Hl)
    as (created & extra & _ & _ & _ & _ & _ & Hms & _).
  right. exists machine. split; [|exact Hms].
  destruct Hsub as (_ & -> & _ & Hget & _). exact Hget.
Qed.

Lemma submission_stamps_its_machine_witness :
  machines
    (fst (inventory_submit Sample.platform
            (Sample.post "ABC123" Sample.payload_app_posted) Sample.db))
  = machines Sample.db
  \/ exists machine,
      Orm.get_machine_by_serial Sample.db
        (default "" (POST (Sample.post "ABC123" Sample.payload_app_posted)
                     !! "serial"))
      = Orm.Found machine
      /\ machines
           (fst (inventory_submit Sample.platform
                   (Sample.post "ABC123" Sample.payload_app_posted)
                   Sample.db))
         = map (fun r =>
                  if Machine.id r =? Machine.id machine
                  then Machine.set_last_inventory_update
                         (Some (datetime_now Sample.platform)) machine
                  else r) (machines Sample.db).
Proof.
  apply (submission_stamps_its_machine Sample.platform
           (Sample.post "ABC123" Sample.payload_app_posted) Sample.db).
  exact sample_db_wf.
Defined.





(** ** The business unit of a scope *)

Lemma related_Returns {A} (id_of : A -> Z) rows k a :
  related id_of rows k = Returns a ->
  List.find (fun r => id_of r =? k) rows = Some a /\ id_of a = k.
Proof.
  unfold related. destruct (Orm.get _ rows) eqn:E; try discriminate.
  intros [= ->]. split; [apply get_Found_find; exact E|].
  apply get_Found in E as [_ E]. apply Z.eqb_eq. exact E.
Qed.

(** X6: the business unit [get_business_unit] hands to the access check is
    the one the scope lies in: every inventory item the scope filter lets
    through is on a machine of a machine group of that business unit.  For
    the scope [all] there is no business unit and nothing is filtered. *)
Theorem business_unit_covers_scope kw db queryset :
  (forall b l,
      get_business_unit kw db = Returns (Some b) ->
      filter_inventoryitem_by_group kw db queryset = Ok l ->
      forall it, In it l -> in_group db (IsBusinessUnit b) it = true)
  /\ (get_business_unit kw db = Returns None ->
      filter_inventoryitem_by_group kw db queryset = Ok queryset).
Proof.
  unfold get_business_unit, filter_inventoryitem_by_group, get_group_instance.
  destruct (classes (group_type kw)) as [[[]|]|]; split;
    try discriminate; try reflexivity.
  - intros b l.
    destruct (get_object_or_404 _ _ _) as [b'|]; [|discriminate].
    intros [= ->] [= <-] it Hit.
    apply List.filter_In in Hit as [_ Hit]. exact Hit.
  - destruct (get_object_or_404 _ _ _); discriminate.
  - intros b l.
    destruct (get_object_or_404 _ _ _) as [m|] eqn:Em; [|discriminate].
    destruct (related MachineGroup.id _ _) as [g| |] eqn:Eg; try discriminate.
    destruct (related BusinessUnit.id _ _) as [b'| |] eqn:Eb;
      try discriminate.
    intros [= ->] [= <-] it Hit.
    apply List.filter_In in Hit as [_ Hit]. simpl in Hit.
    apply Z.eqb_eq in Hit. simpl. unfold machine_of.
    rewrite (get_object_or_404_find _ _ _ _ Em _ Hit).
    apply related_Returns in Eg as [Eg _]. unfold machine_group_of.
    rewrite Eg.
    apply related_Returns in Eb as [_ Eb]. apply Z.eqb_eq. congruence.
  - destruct (get_object_or_404 _ _ _) as [m|]; [|discriminate].
    destruct (related MachineGroup.id _ _) as [g| |]; try discriminate.
    destruct (related BusinessUnit.id _ _); discriminate.
  - intros b l.
    destruct (get_object_or_404 _ _ _) as [g|] eqn:Eg; [|discriminate].
    destruct (related BusinessUnit.id _ _) as [b'| |] eqn:Eb;
      try discriminate.
    intros [= ->] [= <-] it Hit.
    apply List.filter_In in Hit as [_ Hit]. simpl in Hit. simpl.
    destruct (machine_of db it) as [m|]; [|discriminate].
    apply Z.eqb_eq in Hit. unfold machine_group_of.
    rewrite (get_object_or_404_find _ _ _ _ Eg _ Hit).
    apply related_Returns in Eb as [_ Eb]. apply Z.eqb_eq. congruence.
  - destruct (get_object_or_404 _ _ _) as [g|]; [|discriminate].
    destruct (related BusinessUnit.id _ _); discriminate.
Qed.

Lemma business_unit_covers_scope_witness :
  get_business_unit Fleet.kw_machine Fleet.db
  = Returns (Some Fleet.engineering)
  /\ forall it,
      In it [InventoryItem.Build 1 1 1 "3.2" "/Applications/Editor.app";
             InventoryItem.Build 3 1 1 "3.2" "/Users/alice/Editor.app";
             InventoryItem.Build 5 1 2 "9.1" "/Applications/Browser.app"] ->
      in_group Fleet.db (IsBusinessUnit Fleet.engineering) it = true.
Proof.
  split; [reflexivity|].
  apply (proj1 (business_unit_covers_scope Fleet.kw_machine Fleet.db
                  (inventoryitems Fleet.db)) Fleet.engineering);
    reflexivity.
Defined.

(** ** Counting rows by a key *)

Section CountByKey.

Context {A K : Type} (key : A -> K) (eqb : K -> K -> bool).
Hypothesis eqb_eq : forall a b, eqb a b = true <-> a = b.

Lemma sum_map_add (f g : K -> Z) (ks : list K) :
  PyList.sum (map (fun k => f k + g k) ks)
  = PyList.sum (map f ks) + PyList.sum (map g ks).
Proof. induction ks as [|k ks IH]; simpl; [reflexivity | rewrite IH; lia]. Qed.

Lemma sum_indicator (k0 : K) (ks : list K) :
  NoDup ks ->
  PyList.sum (map (fun k => if eqb k0 k then 1 else 0) ks)
  = if existsb (eqb k0) ks then 1 else 0.
Proof.
  induction ks as [|k ks IH]; simpl; intros Hnd; [reflexivity|].
  apply NoDup_cons in Hnd as [Hk Hnd]. rewrite (IH Hnd).
  destruct (eqb k0 k) eqn:E; simpl; [|reflexivity].
  apply eqb_eq in E. subst k.
  destruct (existsb (eqb k0) ks) eqn:Ex; [|reflexivity].
  exfalso. apply Hk. apply existsb_exists in Ex as (x & Hx & Ex).
  apply eqb_eq in Ex. subst x. apply list_elem_of_In. exact Hx.
Qed.

(** The rows of a list, counted key by key over a duplicate-free list of
    keys that has every key of the list, add up to the list. *)
Lemma count_by_key (ks : list K) (l : list A) :
  NoDup ks ->
  (forall x, In x l -> In (key x) ks) ->
  PyList.sum
    (map (fun k => PyList.count (List.filter (fun x => eqb (key x) k) l)) ks)
  = PyList.count l.
Proof.
  intros Hnd. induction l as [|x l IH]; intros Hcover.
  - clear Hcover Hnd. simpl.
    induction ks as [|k ks IHk]; simpl; [reflexivity|].
    rewrite IHk. reflexivity.
  - assert (E : map (fun k =>
                       PyList.count
                         (List.filter (fun y => eqb (key y) k) (x :: l))) ks
                = map (fun k =>
                         (if eqb (key x) k then 1 else 0)
                         + PyList.count
                             (List.filter (fun y => eqb (key y) k) l)) ks).
    { apply map_ext. intros k. simpl. unfold PyList.count.
      destruct (eqb (key x) k); simpl length; lia. }
    rewrite E, sum_map_add, (sum_indicator _ _ Hnd), IH.
    + assert (Hx : existsb (eqb (key x)) ks = true).
      { apply existsb_exists. exists (key x).
        split; [apply Hcover; now left | apply eqb_eq; reflexivity]. }
      rewrite Hx. unfold PyList.count. simpl length. lia.
    + intros y Hy. apply Hcover. now right.
Qed.

End CountByKey.

(** ** The distinct-machine list and its install counts *)

Lemma filter_field_test kw q :
  filter_field kw q = List.filter (field_test kw) q.
Proof.
  unfold filter_field, field_test.
  destruct (String.eqb (field_type kw) "path"); [reflexivity|].
  destruct (String.eqb (field_type kw) "version"); [reflexivity|].
  induction q as [|x q IH]; simpl; congruence.
Qed.

Lemma filter_filter_andb {A} (p q : A -> bool) (l : list A) :
  List.filter p (List.filter q l) = List.filter (fun x => q x && p x) l.
Proof.
  induction l as [|x l IH]; simpl; [reflexivity|].
  destruct (q x); simpl; [destruct (p x)|]; rewrite ?IH; reflexivity.
Qed.

(** The query of the list view as one filter over the item table. *)
Lemma filtered_items_inv kw db q :
  filtered_items kw db = Ok q ->
  exists inst app,
    get_group_instance kw db = Ok inst
    /\ get_object_or_404 Application.id (applications db) (application_id kw)
       = Ok app
    /\ q = List.filter
             (fun it =>
                scope_test db inst it
                && ((InventoryItem.application it =? Application.id app)
                    && field_test kw it))
             (inventoryitems db).
Proof.
  unfold filtered_items, filter_inventoryitem_by_group.
  destruct (get_group_instance kw db) as [inst|]; [|discriminate].
  destruct (get_object_or_404 _ _ _) as [app|] eqn:Ea;
    [|destruct inst; discriminate].
  intros Hq. exists inst, app. split; [reflexivity|]. split; [reflexivity|].
  assert (Hq' : q = filter_field kw
                      (List.filter
                         (fun it => InventoryItem.application it
                                    =? Application.id app)
                         (List.filter (scope_test db inst)
                                      (inventoryitems db)))).
  { destruct inst as [i|]; cbv beta iota in Hq; injection Hq as <-;
      cbv beta iota delta [scope_test]; [reflexivity|].
    replace (List.filter (fun _ => true) (inventoryitems db))
      with (inventoryitems db); [reflexivity|].
    induction (inventoryitems db) as [|x l IH]; simpl; congruence. }
  rewrite Hq', filter_field_test, !filter_filter_andb. reflexivity.
Qed.

(** Whether an item is in a scope depends on its machine alone. *)
Lemma scope_test_machine db inst it1 it2 :
  InventoryItem.machine it1 = InventoryItem.machine it2 ->
  scope_test db inst it1 = scope_test db inst it2.
Proof.
  intros E. destruct inst as [[b|g|m]|]; simpl; unfold machine_of;
    rewrite ?E; reflexivity.
Qed.

Lemma distinct_on_NoDup {A} (key : A -> Z) (l : list A) :
  forall seen, NoDup (map key (distinct_on key seen l)).
Proof.
  induction l as [|x l IH]; intros seen; simpl; [constructor|].
  destruct (existsb (Z.eqb (key x)) seen); [apply IH|].
  simpl. apply NoDup_cons. split; [|apply IH].
  rewrite list_elem_of_In, distinct_on_keys. simpl. tauto.
Qed.

Lemma NoDup_map_filter {A B} (f : A -> B) (p : A -> bool) (l : list A) :
  NoDup (map f l) -> NoDup (map f (List.filter p l)).
Proof.
  induction l as [|x l IH]; simpl; intros Hnd; [constructor|].
  apply NoDup_cons in Hnd as [Hx Hnd].
  destruct (p x); simpl; [|auto].
  apply NoDup_cons. split; [|auto].
  rewrite list_elem_of_In, in_map_iff in *.
  intros (y & Hy & Hin). apply Hx. exists y. split; [exact Hy|].
  apply List.filter_In in Hin. tauto.
Qed.

(** X7: the distinct-machine view lists no machine twice.  On postgres no
    two rows have the same machine; on the other backends, with unique
    machine ids, no two rows have the same id, and every row is a row of
    the machine table. *)
Theorem distinct_view_lists_machines_once P kw db :
  (forall rows,
      get_queryset P kw db = Ok (ItemRows rows) ->
      NoDup (map InventoryItem.machine rows))
  /\ (forall rows,
         NoDup (map Machine.id (machines db)) ->
         get_queryset P kw db = Ok (MachineRows rows) ->
         NoDup (map Machine.id rows) /\ incl rows (machines db)).
Proof.
  unfold get_queryset.
  destruct (filtered_items kw db) as [q|];
    [|split; intros; discriminate].
  destruct (is_postgres P); split; try (intros; discriminate).
  - intros rows [= <-]. apply distinct_on_NoDup.
  - intros rows Hnd [= <-]. split.
    + apply NoDup_map_filter. exact Hnd.
    + intros m Hm. apply List.filter_In in Hm. tauto.
Qed.

Lemma distinct_view_lists_machines_once_witness :
  (forall rows,
      get_queryset Sample.postgres Fleet.kw_all Fleet.db = Ok (ItemRows rows) ->
      NoDup (map InventoryItem.machine rows))
  /\ (forall rows,
         get_queryset Sample.platform
           (MkKwargs "all" "0" "1" "all" "0") Fleet.db
         = Ok (MachineRows rows) ->
         NoDup (map Machine.id rows) /\ incl rows (machines Fleet.db)).
Proof.
  split.
  - apply (proj1 (distinct_view_lists_machines_once Sample.postgres
                    Fleet.kw_all Fleet.db)).
  - intros rows.
    apply (proj2 (distinct_view_lists_machines_once Sample.platform
                    (MkKwargs "all" "0" "1" "all" "0") Fleet.db)).
    apply (bool_decide_unpack _). vm_compute. exact I.
Defined.

Lemma install_count_as_filter kw app m db :
  InventoryListView.get_install_count kw app m db
  = PyList.count
      (List.filter
         (fun it =>
            (InventoryItem.machine it =? Machine.id m)
            && ((InventoryItem.application it =? Application.id app)
                && field_test kw it))
         (inventoryitems db)).
Proof.
  unfold InventoryListView.get_install_count, items_of.
  rewrite filter_field_test, !filter_filter_andb. reflexivity.
Qed.

Lemma count_positive {A} (x : A) (l : list A) : In x l -> 1 <= PyList.count l.
Proof.
  unfold PyList.count. destruct l; [contradiction|]. simpl length. lia.
Qed.

(** The rows of the fallback path: the machines an item of the query is
    on. *)
Lemma fallback_rows P kw db rows :
  get_queryset P kw db = Ok (MachineRows rows) ->
  exists q,
    filtered_items kw db = Ok q
    /\ rows = List.filter
                (fun m =>
                   existsb (Z.eqb (Machine.id m))
                           (distinct_on (fun k : Z => k) []
                                        (map InventoryItem.machine q)))
                (machines db)
    /\ forall m, In m rows <->
                 In m (machines db)
                 /\ exists it, In it q
                               /\ InventoryItem.machine it = Machine.id m.
Proof.
  unfold get_queryset.
  destruct (filtered_items kw db) as [q|]; [|discriminate].
  destruct (is_postgres P); [discriminate|]. intros [= <-].
  exists q. split; [reflexivity|]. split; [reflexivity|].
  intros m. rewrite List.filter_In, existsb_exists.
  split; intros [Hm Hex]; (split; [exact Hm|]).
  - destruct Hex as (k & Hk & Ek). apply Z.eqb_eq in Ek. subst k.
    rewrite <- (map_id (distinct_on _ _ _)) in Hk.
    apply distinct_on_keys in Hk as [Hk _]. rewrite map_id in Hk.
    apply in_map_iff in Hk as (it & E & Hit). eauto.
  - destruct Hex as (it & Hit & E). exists (Machine.id m).
    split; [|apply Z.eqb_refl].
    rewrite <- (map_id (distinct_on _ _ _)).
    apply distinct_on_keys. rewrite map_id. split; [|tauto].
    apply in_map_iff. eauto.
Qed.

(** X8: on the fallback path every machine the distinct-machine view lists
    has an install count of at least one. *)
Theorem listed_machine_has_installs P kw db rows app :
  get_queryset P kw db = Ok (MachineRows rows) ->
  get_object_or_404 Application.id (applications db) (application_id kw)
  = Ok app ->
  forall m, In m rows ->
            1 <= InventoryListView.get_install_count kw app m db.
Proof.
  intros Hrows Happ m Hm.
  destruct (fallback_rows P kw db rows Hrows) as (q & Hq & _ & Hin).
  destruct (proj1 (Hin m) Hm) as (_ & it & Hit & Emachine).
  destruct (filtered_items_inv kw db q Hq) as (inst & app' & _ & Happ' & Eq).
  assert (app' = app) as -> by congruence.
  rewrite Eq in Hit. apply List.filter_In in Hit as [Hit Htest].
  apply andb_true_iff in Htest as [_ Htest].
  rewrite install_count_as_filter. apply (count_positive it).
  apply List.filter_In. split; [exact Hit|].
  rewrite Htest, Emachine, Z.eqb_refl. reflexivity.
Qed.

Lemma listed_machine_has_installs_witness :
  get_queryset Sample.platform Fleet.kw_unit Fleet.db
  = Ok (MachineRows [Fleet.mac1; Fleet.mac2])
  /\ 1 <= InventoryListView.get_install_count Fleet.kw_unit Fleet.editor
            Fleet.mac2 Fleet.db.
Proof.
  split; [reflexivity|].
  apply (listed_machine_has_installs Sample.platform Fleet.kw_unit Fleet.db
           [Fleet.mac1; Fleet.mac2] Fleet.editor);
    [reflexivity | reflexivity | right; left; reflexivity].
Defined.

Lemma sum_map_ext_in {A} (f g : A -> Z) (l : list A) :
  (forall x, In x l -> f x = g x) ->
  PyList.sum (map f l) = PyList.sum (map g l).
Proof. intros H. f_equal. apply map_ext_in. exact H. Qed.

(** X9: on the fallback path, with unique machine ids and every item on a
    machine of the machine table, the install counts of the machines the
    distinct-machine view lists add up to the number of inventory items
    the query matches. *)
Theorem install_counts_add_up P kw db rows app q :
  NoDup (map Machine.id (machines db)) ->
  machine_fk db ->
  get_queryset P kw db = Ok (MachineRows rows) ->
  get_object_or_404 Application.id (applications db) (application_id kw)
  = Ok app ->
  filtered_items kw db = Ok q ->
  PyList.sum
    (map (fun m => InventoryListView.get_install_count kw app m db) rows)
  = PyList.count q.
Proof.
  intros Hnd Hfk Hrows Happ Hq.
  destruct (fallback_rows P kw db rows Hrows) as (q' & Hq' & Erows & Hin).
  assert (q' = q) as -> by congruence.
  pose proof (filtered_items_incl kw db q Hq) as Hincl.
  destruct (filtered_items_inv kw db q Hq) as (inst & app' & _ & Happ' & Eq).
  assert (app' = app) as -> by congruence.
  rewrite (sum_map_ext_in _
             (fun m => PyList.count
                         (List.filter
                            (fun it => InventoryItem.machine it =? Machine.id m)
                            q))).
  - rewrite <- (map_map Machine.id
                  (fun k => PyList.count
                              (List.filter
                                 (fun it => InventoryItem.machine it =? k) q))).
    apply (count_by_key InventoryItem.machine Z.eqb Z.eqb_eq).
    + rewrite Erows. apply NoDup_map_filter. exact Hnd.
    + intros it Hit. unfold machine_fk in Hfk. rewrite Forall_forall in Hfk.
      destruct (Hfk it (proj2 (list_elem_of_In _ _) (Hincl it Hit)))
        as [m Hm].
      apply find_some in Hm as [Hm Eid]. apply Z.eqb_eq in Eid.
      apply in_map_iff. exists m. split; [exact Eid|].
      apply Hin. split; [exact Hm|]. exists it. auto.
  - intros m Hm. destruct (proj1 (Hin m) Hm) as (_ & it0 & Hit0 & E0).
    rewrite install_count_as_filter. f_equal.
    rewrite Eq, filter_filter_andb. apply List.filter_ext_in.
    intros it Hit.
    destruct (InventoryItem.machine it =? Machine.id m) eqn:E; simpl.
    + rewrite andb_true_r. apply Z.eqb_eq in E.
      rewrite Eq in Hit0. apply List.filter_In in Hit0 as [_ Htest].
      apply andb_true_iff in Htest as [Hscope _].
      rewrite (scope_test_machine db inst it it0) by congruence.
      rewrite Hscope. reflexivity.
    + rewrite andb_false_r. reflexivity.
Qed.

Lemma install_counts_add_up_witness :
  PyList.sum
    (map (fun m =>
            InventoryListView.get_install_count Fleet.kw_unit Fleet.editor m
              Fleet.db)
         [Fleet.mac1; Fleet.mac2])
  = PyList.count
      [InventoryItem.Build 1 1 1 "3.2" "/Applications/Editor.app";
       InventoryItem.Build 2 2 1 "3.1" "/Applications/Editor.app";
       InventoryItem.Build 3 1 1 "3.2" "/Users/alice/Editor.app"].
Proof.
  apply (install_counts_add_up Sample.platform Fleet.kw_unit Fleet.db
           [Fleet.mac1; Fleet.mac2] Fleet.editor).
  - apply (bool_decide_unpack _). vm_compute. exact I.
  - repeat constructor; eexists; reflexivity.
  - reflexivity.
  - reflexivity.
  - reflexivity.
Defined.

(** ** The application detail page *)

Section Tally.

Context {A : Type} (key : A -> string) (details : list A).

(** The rows the detail page builds from a set comprehension. *)
Let rows : list (string * Z) :=
  map (fun k =>
         (k, PyList.count
               (List.filter (fun x => String.eqb (key x) k) details)))
      (elements (list_to_set (map key details) : gset string)).

Lemma tally_keys k :
  In k (map fst rows) <-> exists x, In x details /\ key x = k.
Proof.
  unfold rows. rewrite map_map. simpl. rewrite map_id.
  rewrite <- list_elem_of_In, elem_of_elements, elem_of_list_to_set.
  rewrite list_elem_of_In, in_map_iff. split; intros (x & H1 & H2); eauto.
Qed.

Lemma tally_NoDup : NoDup (map fst rows).
Proof.
  unfold rows. rewrite map_map. simpl. rewrite map_id. apply NoDup_elements.
Qed.

Lemma tally_counts k c :
  In (k, c) rows ->
  c = PyList.count (List.filter (fun x => String.eqb (key x) k) details)
  /\ 1 <= c <= PyList.count details.
Proof.
  intros Hin.
  assert (Hk : In k (map fst rows)).
  { apply in_map_iff. exists (k, c). auto. }
  apply tally_keys in Hk as (x & Hx & Ex).
  unfold rows in Hin. apply in_map_iff in Hin as (k' & [= -> <-] & _).
  split; [reflexivity|]. split.
  - apply (count_positive x). apply List.filter_In.
    split; [exact Hx | apply String.eqb_eq; exact Ex].
  - unfold PyList.count. apply inj_le. apply List.filter_length_le.
Qed.

Lemma tally_sum : PyList.sum (map snd rows) = PyList.count details.
Proof.
  unfold rows. rewrite map_map. simpl.
  apply (count_by_key key String.eqb String.eqb_eq).
  - apply NoDup_elements.
  - intros x Hx.
    rewrite <- list_elem_of_In, elem_of_elements, elem_of_list_to_set.
    rewrite list_elem_of_In. apply in_map. exact Hx.
Qed.

End Tally.

Lemma detail_context kw db object ctx :
  ApplicationDetailView.get_context_data kw db object = Ok ctx ->
  exists details inst,
    ApplicationDetailView.get_filtered_queryset kw db object = Ok details
    /\ ctx = ApplicationDetailView.build_context_data kw inst details
               (list_to_set (map InventoryItem.version details))
               (list_to_set (map InventoryItem.path details)).
Proof.
  unfold ApplicationDetailView.get_context_data.
  destruct (ApplicationDetailView.get_filtered_queryset kw db object)
    as [details|]; [|discriminate].
  destruct (get_group_instance kw db) as [inst|]; [|discriminate].
  intros [= <-]. exists details, inst. split; reflexivity.
Qed.

(** X10: on the application detail page the counts of the versions add up
    to the install count, and so do the counts of the paths. *)
Theorem detail_counts_add_up kw db object ctx :
  ApplicationDetailView.get_context_data kw db object = Ok ctx ->
  PyList.sum (map snd (ApplicationDetailView.versions ctx))
  = ApplicationDetailView.install_count ctx
  /\ PyList.sum (map snd (ApplicationDetailView.paths ctx))
     = ApplicationDetailView.install_count ctx.
Proof.
  intros Hctx.
  destruct (detail_context kw db object ctx Hctx) as (details & inst & _ & ->).
  split; simpl.
  - apply (tally_sum InventoryItem.version details).
  - apply (tally_sum InventoryItem.path details).
Qed.

Lemma detail_counts_add_up_witness :
  PyList.sum [1; 2] = 3 /\ PyList.sum [1; 2] = 3.
Proof.
  apply (detail_counts_add_up Fleet.kw_unit Fleet.db Fleet.editor
           (ApplicationDetailView.MkContext
              [("3.1", 1); ("3.2", 2)]
              [("/Users/alice/Editor.app", 1);
               ("/Applications/Editor.app", 2)]
              3 "business_unit" "1" (Some "Engineering"))).
  vm_compute. reflexivity.
Defined.

(** X11: the application detail page lists exactly the versions that occur
    among the application's items in the scope, each once, each with the
    number of these items that have it, which is at least one and at most
    the install count; the same holds for the paths. *)
Theorem detail_lists_what_occurs kw db object ctx details :
  ApplicationDetailView.get_filtered_queryset kw db object = Ok details ->
  ApplicationDetailView.get_context_data kw db object = Ok ctx ->
  (NoDup (map fst (ApplicationDetailView.versions ctx))
   /\ (forall v, In v (map fst (ApplicationDetailView.versions ctx))
                 <-> exists it, In it details /\ InventoryItem.version it = v)
   /\ (forall v c,
          In (v, c) (ApplicationDetailView.versions ctx) ->
          c = PyList.count
                (List.filter
                   (fun it => String.eqb (InventoryItem.version it) v)
                   details)
          /\ 1 <= c <= ApplicationDetailView.install_count ctx))
  /\ (NoDup (map fst (ApplicationDetailView.paths ctx))
      /\ (forall p, In p (map fst (ApplicationDetailView.paths ctx))
                    <-> exists it, In it details /\ InventoryItem.path it = p)
      /\ (forall p c,
             In (p, c) (ApplicationDetailView.paths ctx) ->
             c = PyList.count
                   (List.filter
                      (fun it => String.eqb (InventoryItem.path it) p)
                      details)
             /\ 1 <= c <= ApplicationDetailView.install_count ctx)).
Proof.
  intros Hdetails Hctx.
  destruct (detail_context kw db object ctx Hctx)
    as (details' & inst & Hdetails' & ->).
  assert (details' = details) as -> by congruence.
  split; simpl; (split; [|split]).
  - apply (tally_NoDup InventoryItem.version details).
  - apply (tally_keys InventoryItem.version details).
  - apply (tally_counts InventoryItem.version details).
  - apply (tally_NoDup InventoryItem.path details).
  - apply (tally_keys InventoryItem.path details).
  - apply (tally_counts InventoryItem.path details).
Qed.

Lemma detail_lists_what_occurs_witness :
  exists ctx,
    ApplicationDetailView.get_context_data Fleet.kw_unit Fleet.db Fleet.editor
    = Ok ctx
    /\ NoDup (map fst (ApplicationDetailView.versions ctx))
    /\ NoDup (map fst (ApplicationDetailView.paths ctx)).
Proof.
  eexists. split; [vm_compute; reflexivity|].
  destruct (detail_lists_what_occurs Fleet.kw_unit Fleet.db Fleet.editor
              (ApplicationDetailView.MkContext
                 [("3.1", 1); ("3.2", 2)]
                 [("/Users/alice/Editor.app", 1);
                  ("/Applications/Editor.app", 2)]
                 3 "business_unit" "1" (Some "Engineering"))
              [InventoryItem.Build 1 1 1 "3.2" "/Applications/Editor.app";
               InventoryItem.Build 2 2 1 "3.1" "/Applications/Editor.app";
               InventoryItem.Build 3 1 1 "3.2" "/Users/alice/Editor.app"])
    as [[Hv _] [Hp _]]; [reflexivity | vm_compute; reflexivity|].
  split; [exact Hv | exact Hp].
Defined.

(** ** The rows of the CSV export *)

Section Sorting.

Context {A : Type} (key : A -> string).

Let le (a b : A) : Prop := String.leb (key a) (key b) = true.

Lemma insert_perm x l : Permutation (PyList.insert key x l) (x :: l).
Proof.
  induction l as [|y l IH]; simpl; [reflexivity|].
  destruct (String.leb (key y) (key x)); [|reflexivity].
  rewrite IH. apply perm_swap.
Qed.

Lemma sorted_perm l : Permutation (PyList.sorted key l) l.
Proof.
  unfold PyList.sorted.
  enough (H : forall acc,
             Permutation (fold_left (fun acc x => PyList.insert key x acc)
                                    l acc) (acc ++ l)) by apply (H []).
  induction l as [|x l IH]; intros acc; simpl.
  - rewrite app_nil_r. reflexivity.
  - rewrite IH, insert_perm. simpl. apply Permutation_middle.
Qed.

Lemma insert_HdRel a x l :
  HdRel le a l -> le a x -> HdRel le a (PyList.insert key x l).
Proof.
  intros Hl Hx. destruct l as [|y l]; simpl; [constructor; exact Hx|].
  destruct (String.leb (key y) (key x)); constructor;
    [inversion Hl; assumption | exact Hx].
Qed.

Lemma insert_Sorted x l :
  Sorted le l -> Sorted le (PyList.insert key x l).
Proof.
  induction 1 as [|y l Hs IH Hhd]; simpl; [repeat constructor|].
  destruct (String.leb (key y) (key x)) eqn:E.
  - constructor; [exact IH|]. apply insert_HdRel; assumption.
  - constructor; [constructor; assumption|]. constructor. unfold le.
    destruct (String.leb_total (key x) (key y)) as [H|H]; congruence.
Qed.

Lemma sorted_Sorted l : Sorted le (PyList.sorted key l).
Proof.
  unfold PyList.sorted.
  enough (H : forall acc,
             Sorted le acc ->
             Sorted le (fold_left (fun acc x => PyList.insert key x acc)
                                  l acc)) by (apply H; constructor).
  induction l as [|x l IH]; intros acc Hacc; simpl; [exact Hacc|].
  apply IH, insert_Sorted, Hacc.
Qed.

End Sorting.

Lemma sum_perm l1 l2 : Permutation l1 l2 -> PyList.sum l1 = PyList.sum l2.
Proof. induction 1; simpl; lia. Qed.

Lemma in_select_related {B} (follow : InventoryItem.t -> option B) l it b :
  In (it, b) (CSVExportView.select_related follow l)
  <-> In it l /\ follow it = Some b.
Proof.
  unfold CSVExportView.select_related.
  rewrite <- !list_elem_of_In, list_elem_of_omap. split.
  - intros (x & Hx & E). destruct (follow x) eqn:Ef; [|discriminate].
    injection E as -> ->. auto.
  - intros [Hit E]. exists it. rewrite E. auto.
Qed.

Lemma filter_by_group_incl kw db queryset l :
  filter_inventoryitem_by_group kw db queryset = Ok l -> incl l queryset.
Proof.
  unfold filter_inventoryitem_by_group.
  destruct (get_group_instance kw db) as [[inst|]|]; try discriminate;
    intros [= <-] it Hit; [|exact Hit].
  apply List.filter_In in Hit. tauto.
Qed.

(** What [get] returns for the summary of the applications. *)
Lemma application_export_inv P kw db header rows :
  CSVExportView.get P kw db = Ok (header, CSVExportView.ApplicationData rows) ->
  exists queryset,
    filter_inventoryitem_by_group kw db (inventoryitems db) = Ok queryset
    /\ rows = PyList.sorted CSVExportView.row_name
                (if is_postgres P
                 then CSVExportView.apps_distinct db queryset
                 else CSVExportView.apps_set db queryset).
Proof.
  unfold CSVExportView.get.
  destruct (filter_inventoryitem_by_group kw db (inventoryitems db))
    as [queryset|]; [|discriminate].
  destruct (String.eqb (application_id kw) "0").
  - intros [= _ <-]. exists queryset. split; reflexivity.
  - destruct (Py.int (application_id kw)); discriminate.
Qed.

(** X12: the rows of the application summary come in ascending order of
    the application names, on both backends. *)
Theorem application_export_is_sorted P kw db header rows :
  CSVExportView.get P kw db = Ok (header, CSVExportView.ApplicationData rows) ->
  sorted_by_name rows.
Proof.
  intros Hget.
  destruct (application_export_inv P kw db header rows Hget)
    as (queryset & _ & ->).
  apply (sorted_Sorted CSVExportView.row_name).
Qed.

Lemma application_export_is_sorted_witness :
  sorted_by_name
    [("Browser", "org.example.Browser", "Browser", 2);
     ("Editor", "org.example.Editor", "Editor", 3)].
Proof.
  apply (application_export_is_sorted Sample.platform Fleet.kw_all Fleet.db
           ["Name"; "BundleID"; "BundleName"; "Install Count"]).
  vm_compute. reflexivity.
Defined.

Lemma distinct_on_incl {A} (key : A -> Z) (l : list A) :
  forall seen x, In x (distinct_on key seen l) -> In x l.
Proof.
  induction l as [|y l IH]; intros seen x; simpl; [tauto|].
  destruct (existsb (Z.eqb (key y)) seen); simpl; intros H.
  - right. eapply IH, H.
  - destruct H as [->|H]; [now left | right; eapply IH, H].
Qed.

Lemma NoDup_map_by {A B C} (f : A -> B) (g : A -> C) (l : list A) :
  NoDup (map g l) ->
  (forall x y, In x l -> In y l -> f x = f y -> g x = g y) ->
  NoDup (map f l).
Proof.
  induction l as [|x l IH]; simpl; intros Hnd Hfg; [constructor|].
  apply NoDup_cons in Hnd as [Hx Hnd]. apply NoDup_cons. split.
  - rewrite list_elem_of_In, in_map_iff in Hx.
    rewrite list_elem_of_In, in_map_iff. intros (y & Ey & Hy).
    apply Hx. exists y. split; [|exact Hy]. apply Hfg; auto.
  - apply IH; auto.
Qed.

(** An entry of the summary is made from the application alone. *)
Lemma joined_application db queryset it a :
  In (it, a) (CSVExportView.select_related (CSVExportView.application_of db)
                                            queryset) ->
  In it queryset /\ In a (applications db)
  /\ Application.id a = InventoryItem.application it
  /\ CSVExportView.application_of db it = Some a.
Proof.
  intros H. apply in_select_related in H as [Hit Ha].
  pose proof Ha as Hfind. apply find_some in Hfind as [Hin E].
  apply Z.eqb_eq in E. auto.
Qed.

(** The list of the postgres branch and the set of the other branch hold
    the same entries, each once. *)
Lemma apps_perm db queryset :
  NoDup (map triple (applications db)) ->
  Permutation (CSVExportView.apps_distinct db queryset)
              (CSVExportView.apps_set db queryset).
Proof.
  intros Htr. unfold CSVExportView.apps_distinct, CSVExportView.apps_set.
  set (joined := CSVExportView.select_related _ queryset).
  set (entry := fun item => CSVExportView.get_application_entry item queryset).
  set (keyf := fun item : InventoryItem.t * Application.t =>
                 InventoryItem.application (fst item)).
  assert (Hsame : forall x y, In x joined -> In y joined ->
                              keyf x = keyf y -> entry x = entry y).
  { intros [it1 a1] [it2 a2] H1 H2 E. unfold keyf in E. simpl in E.
    apply joined_application in H1 as (_ & _ & _ & F1).
    apply joined_application in H2 as (_ & _ & _ & F2).
    unfold CSVExportView.application_of in F1, F2. rewrite E in F1.
    assert (a1 = a2) as -> by congruence. reflexivity. }
  apply NoDup_Permutation.
  - apply (NoDup_map_by entry keyf); [apply distinct_on_NoDup|].
    intros [it1 a1] [it2 a2] H1 H2 E.
    apply distinct_on_incl, joined_application in H1 as (_ & Ha1 & E1 & _).
    apply distinct_on_incl, joined_application in H2 as (_ & Ha2 & E2 & _).
    unfold keyf. simpl. rewrite <- E1, <- E2. f_equal.
    apply (unique_on_key triple (applications db)); auto.
    unfold entry, CSVExportView.get_application_entry, triple in *.
    simpl in E. congruence.
  - apply NoDup_elements.
  - intros r. rewrite elem_of_elements, elem_of_list_to_set.
    rewrite !list_elem_of_In, !in_map_iff. split.
    + intros (x & Ex & Hx). exists x. split; [exact Ex|].
      eapply distinct_on_incl, Hx.
    + intros (x & Ex & Hx).
      assert (Hk : In (keyf x) (map keyf (distinct_on keyf [] joined))).
      { apply distinct_on_keys. split; [apply in_map; exact Hx | tauto]. }
      apply in_map_iff in Hk as (y & Ey & Hy). exists y.
      split; [|exact Hy]. rewrite <- Ex. apply Hsame; auto.
      eapply distinct_on_incl, Hy.
Qed.

(** X13: with one application row per triple, the application summary has
    the same rows on postgres as on the other backends, each as often;
    only the order of applications of the same name may differ. *)
Theorem application_export_paths_agree native fallback kw db h1 h2 r1 r2 :
  is_postgres native = true ->
  is_postgres fallback = false ->
  NoDup (map triple (applications db)) ->
  CSVExportView.get native kw db = Ok (h1, CSVExportView.ApplicationData r1) ->
  CSVExportView.get fallback kw db
  = Ok (h2, CSVExportView.ApplicationData r2) ->
  h1 = h2 /\ Permutation r1 r2.
Proof.
  intros Hn Hf Htr H1 H2.
  assert (Hh : h1 = h2).
  { unfold CSVExportView.get in H1, H2.
    destruct (filter_inventoryitem_by_group kw db (inventoryitems db));
      [|discriminate].
    destruct (String.eqb (application_id kw) "0");
      [congruence|destruct (Py.int (application_id kw)); discriminate]. }
  split; [exact Hh|].
  destruct (application_export_inv native kw db h1 r1 H1) as (q1 & Hq1 & ->).
  destruct (application_export_inv fallback kw db h2 r2 H2) as (q2 & Hq2 & ->).
  assert (q2 = q1) as -> by congruence.
  rewrite Hn, Hf, !sorted_perm. apply apps_perm. exact Htr.
Qed.

Lemma application_export_paths_agree_witness :
  ["Name"; "BundleID"; "BundleName"; "Install Count"]
  = ["Name"; "BundleID"; "BundleName"; "Install Count"]
  /\ Permutation
       [("Browser", "org.example.Browser", "Browser", 2);
        ("Editor", "org.example.Editor", "Editor", 3)]
       [("Browser", "org.example.Browser", "Browser", 2);
        ("Editor", "org.example.Editor", "Editor", 3)].
Proof.
  apply (application_export_paths_agree Sample.postgres Sample.platform
           Fleet.kw_all Fleet.db).
  - reflexivity.
  - reflexivity.
  - apply (bool_decide_unpack _). vm_compute. exact I.
  - vm_compute. reflexivity.
  - vm_compute. reflexivity.
Defined.

(** The counts of the list of the postgres branch. *)
Lemma apps_distinct_counts db queryset :
  incl queryset (inventoryitems db) ->
  application_fk db ->
  PyList.sum (map snd (CSVExportView.apps_distinct db queryset))
  = PyList.count queryset
  /\ forall r, In r (CSVExportView.apps_distinct db queryset) -> 1 <= snd r.
Proof.
  intros Hincl Hfk. unfold CSVExportView.apps_distinct.
  set (joined := CSVExportView.select_related _ queryset).
  set (keyf := fun item : InventoryItem.t * Application.t =>
                 InventoryItem.application (fst item)).
  assert (Hentry : forall item,
             In item (distinct_on keyf [] joined) ->
             snd (CSVExportView.get_application_entry item queryset)
             = PyList.count
                 (List.filter
                    (fun it => InventoryItem.application it =? keyf item)
                    queryset)
             /\ In (fst item) queryset).
  { intros [it a] Hitem.
    apply distinct_on_incl, joined_application in Hitem as (Hit & _ & E & _).
    unfold CSVExportView.get_application_entry, keyf. simpl. rewrite E.
    auto. }
  split.
  - rewrite map_map.
    rewrite (sum_map_ext_in _
               (fun item =>
                  PyList.count
                    (List.filter
                       (fun it => InventoryItem.application it =? keyf item)
                       queryset))) by (intros item H; apply Hentry, H).
    rewrite <- (map_map keyf
                  (fun k => PyList.count
                              (List.filter
                                 (fun it => InventoryItem.application it =? k)
                                 queryset))).
    apply (count_by_key InventoryItem.application Z.eqb Z.eqb_eq).
    + apply distinct_on_NoDup.
    + intros it Hit. unfold application_fk in Hfk.
      rewrite Forall_forall in Hfk.
      destruct (Hfk it (proj2 (list_elem_of_In _ _) (Hincl it Hit)))
        as [a Ha].
      apply distinct_on_keys. split; [|tauto].
      apply in_map_iff. exists (it, a). split; [reflexivity|].
      apply in_select_related. auto.
  - intros r Hr. apply in_map_iff in Hr as (item & <- & Hitem).
    destruct (Hentry item Hitem) as [-> Hit].
    apply (count_positive (fst item)). apply List.filter_In.
    split; [exact Hit | apply Z.eqb_refl].
Qed.

(** X14: with every item on an application of the application table and
    one application row per triple, the install counts of the application
    summary add up to the number of inventory items in the scope, and no
    row has a count below one. *)
Theorem application_export_counts P kw db header rows queryset :
  application_fk db ->
  NoDup (map triple (applications db)) ->
  filter_inventoryitem_by_group kw db (inventoryitems db) = Ok queryset ->
  CSVExportView.get P kw db = Ok (header, CSVExportView.ApplicationData rows) ->
  PyList.sum (map snd rows) = PyList.count queryset
  /\ forall r, In r rows -> 1 <= snd r.
Proof.
  intros Hfk Htr Hq Hget.
  destruct (application_export_inv P kw db header rows Hget)
    as (q' & Hq' & ->).
  assert (q' = queryset) as -> by congruence.
  pose proof (filter_by_group_incl kw db _ _ Hq) as Hincl.
  destruct (apps_distinct_counts db queryset Hincl Hfk) as [Hsum Hpos].
  assert (Hperm : Permutation
                    (PyList.sorted CSVExportView.row_name
                       (if is_postgres P
                        then CSVExportView.apps_distinct db queryset
                        else CSVExportView.apps_set db queryset))
                    (CSVExportView.apps_distinct db queryset)).
  { rewrite sorted_perm. destruct (is_postgres P); [reflexivity|].
    symmetry. apply apps_perm. exact Htr. }
  split.
  - rewrite <- Hsum. apply sum_perm, Permutation_map, Hperm.
  - intros r Hr. apply Hpos. eapply Permutation_in; eassumption.
Qed.

Lemma application_export_counts_witness :
  PyList.sum
    (map snd [("Browser", "org.example.Browser", "Browser", 2);
              ("Editor", "org.example.Editor", "Editor", 3)])
  = PyList.count Fleet.items
  /\ forall r,
      In r [("Browser", "org.example.Browser", "Browser", 2);
            ("Editor", "org.example.Editor", "Editor", 3)] ->
      1 <= snd r.
Proof.
  apply (application_export_counts Sample.platform Fleet.kw_all Fleet.db
           ["Name"; "BundleID"; "BundleName"; "Install Count"]).
  - repeat constructor; eexists; reflexivity.
  - apply (bool_decide_unpack _). vm_compute. exact I.
  - reflexivity.
  - vm_compute. reflexivity.
Defined.

Lemma select_related_total {B C} (follow : InventoryItem.t -> option B)
      (row : InventoryItem.t * B -> C) l :
  (forall it, In it l -> exists b, follow it = Some b) ->
  Forall2 (fun it r => exists b, follow it = Some b /\ r = row (it, b))
          l (map row (CSVExportView.select_related follow l)).
Proof.
  induction l as [|it l IH]; intros Hall; [constructor|].
  destruct (Hall it (or_introl eq_refl)) as [b Hb].
  unfold CSVExportView.select_related. simpl. rewrite Hb. simpl.
  constructor; [eauto|]. apply IH. intros x Hx. apply Hall. now right.
Qed.

(** The items the export of one application walks over are the items the
    list view queries, whenever the application exists. *)
Lemma export_items_of_query kw db q :
  filtered_items kw db = Ok q ->
  exists queryset k,
    filter_inventoryitem_by_group kw db (inventoryitems db) = Ok queryset
    /\ Py.int (application_id kw) = Some k
    /\ q = filter_field kw
             (List.filter (fun it => InventoryItem.application it =? k)
                          queryset).
Proof.
  unfold filtered_items, get_object_or_404.
  destruct (filter_inventoryitem_by_group kw db (inventoryitems db))
    as [queryset|]; [|discriminate].
  destruct (Py.int (application_id kw)) as [k|]; [|discriminate].
  destruct (Orm.get _ (applications db)) as [app| |] eqn:E;
    try discriminate.
  intros [= <-]. exists queryset, k. split; [reflexivity|].
  split; [reflexivity|].
  apply get_Found in E as [_ E]. apply Z.eqb_eq in E. rewrite E.
  reflexivity.
Qed.

(** X15: the export of one application that exists, with every item on a
    machine of the machine table, has one row for every inventory item the
    list view's query matches, in the order of the query and with the
    machine of the item in it; a machine with several matching items has
    several rows. *)
Theorem machine_export_rows P kw db q :
  String.eqb (application_id kw) "0" = false ->
  machine_fk db ->
  filtered_items kw db = Ok q ->
  exists rows,
    CSVExportView.get P kw db
    = Ok (["Hostname"; "Serial Number"; "Last Checkin"; "Console User"],
          CSVExportView.MachineData rows)
    /\ Forall2
         (fun it row =>
            exists m,
              machine_of db it = Some m
              /\ row = (Machine.hostname m, Machine.serial m,
                        Machine.last_checkin m, Machine.console_user m))
         q rows.
Proof.
  intros Hzero Hfk Hq.
  pose proof (filtered_items_incl kw db q Hq) as Hincl.
  destruct (export_items_of_query kw db q Hq)
    as (queryset & k & Hqs & Hk & ->).
  eexists. unfold CSVExportView.get. rewrite Hqs, Hzero, Hk.
  split; [reflexivity|].
  apply (select_related_total (machine_of db)
           (fun item : InventoryItem.t * Machine.t =>
              CSVExportView.get_machine_entry item)).
  intros it Hit. unfold machine_fk in Hfk. rewrite Forall_forall in Hfk.
  apply Hfk, list_elem_of_In, Hincl, Hit.
Qed.

Lemma machine_export_rows_witness :
  exists rows,
    CSVExportView.get Sample.platform Fleet.kw_unit Fleet.db
    = Ok (["Hostname"; "Serial Number"; "Last Checkin"; "Console User"],
          CSVExportView.MachineData rows)
    /\ Forall2
         (fun it row =>
            exists m,
              machine_of Fleet.db it = Some m
              /\ row = (Machine.hostname m, Machine.serial m,
                        Machine.last_checkin m, Machine.console_user m))
         [InventoryItem.Build 1 1 1 "3.2" "/Applications/Editor.app";
          InventoryItem.Build 2 2 1 "3.1" "/Applications/Editor.app";
          InventoryItem.Build 3 1 1 "3.2" "/Users/alice/Editor.app"]
         rows.
Proof.
  apply (machine_export_rows Sample.platform Fleet.kw_unit Fleet.db).
  - reflexivity.
  - repeat constructor; eexists; reflexivity.
  - reflexivity.
Defined.

(** X16: for the id of an application that is not in the application
    table, with every item on an application of the table, the export
    succeeds with its header and no row, where the list view of the same
    arguments raises [Http404]. *)
Theorem export_of_unknown_application P kw db queryset k :
  String.eqb (application_id kw) "0" = false ->
  Py.int (application_id kw) = Some k ->
  (forall a, In a (applications db) -> Application.id a <> k) ->
  application_fk db ->
  filter_inventoryitem_by_group kw db (inventoryitems db) = Ok queryset ->
  CSVExportView.get P kw db
  = Ok (["Hostname"; "Serial Number"; "Last Checkin"; "Console User"],
        CSVExportView.MachineData [])
  /\ get_queryset P kw db = Raise Http404.
Proof.
  intros Hzero Hk Hnone Hfk Hqs.
  pose proof (filter_by_group_incl kw db _ _ Hqs) as Hincl.
  split.
  - unfold CSVExportView.get. rewrite Hqs, Hzero, Hk.
    rewrite (filter_none _ queryset); [rewrite filter_field_test; reflexivity|].
    apply Forall_forall. intros it Hit. apply Z.eqb_neq.
    unfold application_fk in Hfk. rewrite Forall_forall in Hfk.
    apply list_elem_of_In, Hincl, list_elem_of_In, Hfk in Hit as [a Ha].
    apply find_some in Ha as [Hin E]. apply Z.eqb_eq in E.
    rewrite <- E. apply Hnone, Hin.
  - unfold get_queryset, filtered_items, get_object_or_404.
    rewrite Hqs, Hk.
    assert (E : Orm.get (fun r => Application.id r =? k) (applications db)
                = Orm.DoesNotExist).
    { apply get_DoesNotExist, filter_none, Forall_forall.
      intros a Ha. apply Z.eqb_neq, Hnone, list_elem_of_In, Ha. }
    rewrite E. reflexivity.
Qed.

Lemma export_of_unknown_application_witness :
  CSVExportView.get Sample.platform Fleet.kw_unknown Fleet.db
  = Ok (["Hostname"; "Serial Number"; "Last Checkin"; "Console User"],
        CSVExportView.MachineData [])
  /\ get_queryset Sample.platform Fleet.kw_unknown Fleet.db = Raise Http404.
Proof.
  apply (export_of_unknown_application Sample.platform Fleet.kw_unknown
           Fleet.db (inventoryitems Fleet.db) 77).
  - reflexivity.
  - reflexivity.
  - intros a Ha. simpl in Ha. destruct Ha as [<-|[<-|[]]]; discriminate.
  - repeat constructor; eexists; reflexivity.
  - reflexivity.
Defined.

(** ** The hash lookup of the other serials *)

(** X17: a request to the submission endpoint never changes what the hash
    lookup answers for a serial other than the one the request carries. *)
Theorem submission_keeps_other_hashes P request db serial :
  wf db ->
  serial <> default "" (POST request !! "serial") ->
  inventory_hash (Some serial) (fst (inventory_submit P request db))
  = inventory_hash (Some serial) db.
Proof.
  intros Hwf Hne.
  destruct (inventory_submit_cases P request db Hwf)
    as [-> | (own & machine & payload & l & Hsub & Hparse & Hl)];
    [reflexivity|].
  destruct (inventory_submit_stored_tables P request db own machine payload l
              Hwf Hsub Hparse Hl)
    as (_ & _ & _ & _ & _ & _ & _ & Hms & _ & _ & Hinv).
  destruct Hsub as (_ & Eown & _ & Hget & _). rewrite Eown in Hne.
  simpl in Hne.
  pose proof (get_Found _ _ _ Hget) as [Hin Hserial].
  apply String.eqb_eq in Hserial.
  assert (Hrow : forall r, In r (machines db) ->
                           Machine.id r = Machine.id machine -> r = machine).
  { intros r Hr E.
    apply (unique_on_key Machine.id (machines db)); auto. apply Hwf. }
  assert (Hsame : Orm.get_machine_by_serial
                    (fst (inventory_submit P request db)) serial
                  = Orm.get_machine_by_serial db serial).
  { unfold Orm.get_machine_by_serial, Orm.get. rewrite Hms.
    rewrite (filter_map_fixed _ (stamp P machine)); [reflexivity| |].
    - intros r Hr. f_equal. apply stamp_id.
      destruct (Z.eq_dec (Machine.id r) (Machine.id machine)) as [E|E];
        [left; rewrite (Hrow r Hr E); reflexivity | right; exact E].
    - intros r Hr Hp. apply String.eqb_eq in Hp. unfold stamp.
      destruct (Machine.id r =? Machine.id machine) eqn:E; [|reflexivity].
      apply Z.eqb_eq in E. rewrite (Hrow r Hr E) in Hp. congruence. }
  unfold inventory_hash. simpl.
  destruct (Py.str_truthy serial); [|reflexivity].
  rewrite Hsame.
  destruct (Orm.get_machine_by_serial db serial) as [m| |] eqn:Em;
    try reflexivity.
  rewrite Hinv; [reflexivity|].
  apply get_Found in Em as [Hm Ep]. apply String.eqb_eq in Ep.
  intros E. rewrite (Hrow m Hm E) in Ep. congruence.
Qed.

Lemma submission_keeps_other_hashes_witness :
  inventory_hash (Some "XYZ789")
    (fst (inventory_submit Sample.platform
            (Sample.post "ABC123" Sample.payload_app_posted) Sample.db))
  = inventory_hash (Some "XYZ789") Sample.db.
Proof.
  apply (submission_keeps_other_hashes Sample.platform
           (Sample.post "ABC123" Sample.payload_app_posted) Sample.db
           "XYZ789").
  - exact sample_db_wf.
  - discriminate.
Defined.

(** ** The summary and the detail page count alike *)

Lemma filter_by_group_shape kw db queryset l :
  filter_inventoryitem_by_group kw db queryset = Ok l <->
  exists inst,
    get_group_instance kw db = Ok inst
    /\ l = List.filter (scope_test db inst) queryset.
Proof.
  assert (Hall : List.filter (fun _ => true) queryset = queryset).
  { induction queryset as [|x q IH]; simpl; congruence. }
  unfold filter_inventoryitem_by_group. split.
  - destruct (get_group_instance kw db) as [[i|]|]; try discriminate;
      intros [= <-]; eexists; (split; [reflexivity|]); simpl scope_test;
      [reflexivity | symmetry; exact Hall].
  - intros (inst & -> & ->). destruct inst as [i|];
      [reflexivity | f_equal; symmetry; exact Hall].
Qed.

(** X18: with one application row per triple, every row of the
    application summary is the name, bundle id and bundle name of an
    application of the table, and its count is the install count the
    detail page of that application shows for the same scope. *)
Theorem summary_counts_as_detail_page P kw db header rows :
  NoDup (map triple (applications db)) ->
  CSVExportView.get P kw db = Ok (header, CSVExportView.ApplicationData rows) ->
  forall r,
    In r rows ->
    exists a ctx,
      In a (applications db)
      /\ r = (Application.name a, Application.bundleid a,
              Application.bundlename a, snd r)
      /\ ApplicationDetailView.get_context_data kw db a = Ok ctx
      /\ ApplicationDetailView.install_count ctx = snd r.
Proof.
  intros Htr Hget r Hr.
  destruct (application_export_inv P kw db header rows Hget)
    as (queryset & Hqs & ->).
  assert (Hr' : In r (CSVExportView.apps_distinct db queryset)).
  { eapply Permutation_in; [|exact Hr]. rewrite sorted_perm.
    destruct (is_postgres P); [reflexivity|].
    symmetry. apply apps_perm. exact Htr. }
  unfold CSVExportView.apps_distinct in Hr'.
  apply in_map_iff in Hr' as ([it a] & <- & Hitem).
  apply distinct_on_incl, joined_application in Hitem as (_ & Ha & _ & _).
  apply filter_by_group_shape in Hqs as (inst & Hinst & ->).
  assert (Hd : ApplicationDetailView.get_filtered_queryset kw db a
               = Ok (List.filter (scope_test db inst)
                       (inventoryitem_set_of_application a db))).
  { apply filter_by_group_shape. exists inst. split; [exact Hinst|reflexivity]. }
  exists a. eexists. split; [exact Ha|]. split; [reflexivity|]. split.
  - unfold ApplicationDetailView.get_context_data.
    rewrite Hd, Hinst. reflexivity.
  - simpl. f_equal. unfold inventoryitem_set_of_application.
    rewrite !filter_filter_andb. apply List.filter_ext.
    intros x. apply andb_comm.
Qed.

Lemma summary_counts_as_detail_page_witness :
  CSVExportView.get Sample.platform Fleet.kw_all Fleet.db
  = Ok (["Name"; "BundleID"; "BundleName"; "Install Count"],
        CSVExportView.ApplicationData
          [("Browser", "org.example.Browser", "Browser", 2);
           ("Editor", "org.example.Editor", "Editor", 3)])
  /\ exists a ctx,
      In a (applications Fleet.db)
      /\ ("Editor", "org.example.Editor", "Editor", 3)
         = (Application.name a, Application.bundleid a,
            Application.bundlename a, 3)
      /\ ApplicationDetailView.get_context_data Fleet.kw_all Fleet.db a
         = Ok ctx
      /\ ApplicationDetailView.install_count ctx = 3.
Proof.
  split; [vm_compute; reflexivity|].
  apply (summary_counts_as_detail_page Sample.platform Fleet.kw_all Fleet.db
           ["Name"; "BundleID"; "BundleName"; "Install Count"]
           [("Browser", "org.example.Browser", "Browser", 2);
            ("Editor", "org.example.Editor", "Editor", 3)]).
  - apply (bool_decide_unpack _). vm_compute. exact I.
  - vm_compute. reflexivity.
  - right; left; reflexivity.
Defined.
